(** * ANTEC terminal portfolio: session store, form collector and input dispatcher

    A shallow embedding of the JavaScript sources of the terminal portfolio:
    - [Shared]      packages/shared/src/index.js (constants and validators),
    - [AuthClient]  the API client's token storage and its signup/login/logout,
    - [AuthContext] the session store (reducer and its async actions),
    - [Prompt]      apps/web/src/utils/promptManager.js,
    - [Form]        PasswordInput and SequentialFormHandler,
    - [AuthCmd]     apps/web/src/utils/authCommands.js,
    - [ObjectPrototype] the members that the dispatchers' tables inherit,
    - [Legacy]      src/components/TerminalPortfolio.jsx (dispatcher, no auth),
    - [Web]         the auth-enabled TerminalPortfolio.jsx of apps/web.

    Strings are Rocq [string]s (sequences of 8-bit characters); the terminal
    only ever appends characters whose first code unit is in 32..126. *)

From Stdlib Require Import ZArith Lia Bool Ascii String DecimalString.
From stdpp Require Import base option list gmap strings.

Local Open Scope string_scope.

(** ** JavaScript string primitives used by the sources *)
Module JS.

Definition chr (n : nat) : string := String (ascii_of_nat n) EmptyString.

Definition ESC : string := chr 27.
Definition CR : string := chr 13.
Definition LF : string := chr 10.
Definition BS : string := chr 8.
Definition DQ : string := chr 34.
Definition CRLF : string := CR ++ LF.

(** [s.charCodeAt(0)]; [None] stands for NaN (empty string). *)
Definition charCodeAt0 (s : string) : option nat :=
  match s with
  | EmptyString => None
  | String c _ => Some (nat_of_ascii c)
  end.

Definition chars (s : string) : list ascii := list_ascii_of_string s.
Definition str (l : list ascii) : string := string_of_list_ascii l.

(** White space as matched by [trim] and by the regular-expression class
    backslash-s, restricted to 8-bit characters: TAB, LF, VT, FF, CR,
    SPACE and NBSP. *)
Definition isSpace (c : ascii) : bool :=
  let n := nat_of_ascii c in
  (Nat.leb 9 n && Nat.leb n 13) || Nat.eqb n 32 || Nat.eqb n 160.

Fixpoint dropSpace (l : list ascii) : list ascii :=
  match l with
  | c :: l' => if isSpace c then dropSpace l' else l
  | [] => []
  end.

(** [s.trim()] *)
Definition trim (s : string) : string :=
  str (rev (dropSpace (rev (dropSpace (chars s))))).

Definition lowerChar (c : ascii) : ascii :=
  let n := nat_of_ascii c in
  if Nat.leb 65 n && Nat.leb n 90 then ascii_of_nat (n + 32) else c.

(** [s.toLowerCase()] on 8-bit strings. *)
Definition toLowerCase (s : string) : string := str (map lowerChar (chars s)).

(** [s.startsWith(p)] *)
Definition startsWith (s p : string) : bool := String.prefix p s.

(** [s.includes(p)] *)
Fixpoint includes (s p : string) : bool :=
  String.prefix p s ||
  match s with
  | EmptyString => false
  | String _ s' => includes s' p
  end.

(** [s.slice(0, -1)] *)
Definition dropLast (s : string) : string := str (removelast (chars s)).

(** [s.slice(n)] for [0 <= n] *)
Definition sliceFrom (n : nat) (s : string) : string := str (drop n (chars s)).

(** [s.split(' ')]: never returns the empty list. *)
Fixpoint splitAux (l : list ascii) (cur : list ascii) : list string :=
  match l with
  | [] => [str (rev cur)]
  | c :: l' =>
      if Ascii.eqb c " "%char then str (rev cur) :: splitAux l' []
      else splitAux l' (c :: cur)
  end.
Definition splitSpace (s : string) : list string := splitAux (chars s) [].

(** [l.join(sep)] *)
Fixpoint join (sep : string) (l : list string) : string :=
  match l with
  | [] => ""
  | [x] => x
  | x :: l' => x ++ sep ++ join sep l'
  end.

(** Decimal rendering of a number in a template literal. *)
Definition natToString (n : nat) : string := NilZero.string_of_uint (Nat.to_uint n).

Definition ZToString (z : Z) : string :=
  match z with
  | Z0 => "0"
  | Zpos _ => natToString (Z.to_nat z)
  | Zneg _ => "-" ++ natToString (Z.to_nat (- z))
  end.

(** Truthiness of a string-valued property that may be absent. *)
Definition truthy (v : option string) : bool :=
  match v with
  | Some (String _ _) => true
  | _ => false
  end.

End JS.

(** ** Object.prototype

    The tables [commands] and [themes] of the dispatchers are object
    literals. A property read [obj[key]] on such an object finds, besides
    the own properties, the members inherited from Object.prototype. *)
Module ObjectPrototype.
Import JS.

(** The property names of Object.prototype. *)
Definition members : list string :=
  ["constructor"; "__defineGetter__"; "__defineSetter__"; "hasOwnProperty";
   "__lookupGetter__"; "__lookupSetter__"; "isPrototypeOf"; "propertyIsEnumerable";
   "toString"; "valueOf"; "__proto__"; "toLocaleString"].

(** The value of a call, as far as a dispatcher looks at it: a string,
    which it compares with its sentinels by [===], or a value of another
    type (array, boolean, object, function, undefined), of which only the
    string conversion in [value + '\r\n'] is used. *)
Inductive Value : Type :=
| Str (s : string)
| NonString (text : string).

(** [value === s] for a string [s] *)
Definition strictEquals (v : Value) (s : string) : bool :=
  match v with
  | Str x => String.eqb x s
  | NonString _ => false
  end.

(** The string that [value + '\r\n'] starts with. *)
Definition toText (v : Value) : string :=
  match v with
  | Str s => s
  | NonString text => text
  end.

(** Function.prototype.toString of the built-in accessors of [__proto__];
    the text is implementation-defined, this is the one of V8. *)
Definition nativeAccessor (kind : string) : string :=
  "function " ++ kind ++ " __proto__() { [native code] }".

(** [obj[name](args)] for an inherited member [name] of an object literal
    [obj] whose own properties, all enumerable data properties, are
    [keys]; [args] is an array of strings, which converts to the property
    key [args.join(',')]. [None] is a TypeError: __defineGetter__ and
    __defineSetter__ get no accessor function, and the value of __proto__
    is an object, not a function. *)
Definition call (keys : list string) (name : string) (args : list string)
  : option Value :=
  let key := join "," args in
  if String.eqb name "constructor" then Some (NonString key)
  else if String.eqb name "toString" || String.eqb name "toLocaleString"
  then Some (Str "[object Object]")
  else if String.eqb name "valueOf" then Some (NonString "[object Object]")
  else if String.eqb name "hasOwnProperty" || String.eqb name "propertyIsEnumerable"
  then Some (NonString (if bool_decide (key ∈ keys) then "true" else "false"))
  else if String.eqb name "isPrototypeOf" then Some (NonString "false")
  else if String.eqb name "__lookupGetter__"
  then Some (NonString (if String.eqb key "__proto__" then nativeAccessor "get"
                        else "undefined"))
  else if String.eqb name "__lookupSetter__"
  then Some (NonString (if String.eqb key "__proto__" then nativeAccessor "set"
                        else "undefined"))
  else None.

End ObjectPrototype.

(** ** Anchored regular expressions (the two patterns of VALIDATION) *)
Module Regex.

Inductive re : Type :=
| Void : re
| Eps : re
| Cls : (ascii -> bool) -> re
| Seq : re -> re -> re
| Alt : re -> re -> re
| Star : re -> re.

Definition Plus (r : re) : re := Seq r (Star r).

Fixpoint nullable (r : re) : bool :=
  match r with
  | Void => false
  | Eps => true
  | Cls _ => false
  | Seq a b => nullable a && nullable b
  | Alt a b => nullable a || nullable b
  | Star _ => true
  end.

Fixpoint deriv (c : ascii) (r : re) : re :=
  match r with
  | Void => Void
  | Eps => Void
  | Cls p => if p c then Eps else Void
  | Seq a b =>
      if nullable a then Alt (Seq (deriv c a) b) (deriv c b)
      else Seq (deriv c a) b
  | Alt a b => Alt (deriv c a) (deriv c b)
  | Star a => Seq (deriv c a) (Star a)
  end.

(** [/^r$/.test(s)] *)
Fixpoint test (r : re) (s : string) : bool :=
  match s with
  | EmptyString => nullable r
  | String c s' => test (deriv c r) s'
  end.

Definition isChar (a : ascii) : ascii -> bool := fun c => Ascii.eqb c a.

End Regex.

(** ** packages/shared/src/index.js *)
Module Shared.
Import JS Regex.

(** AUTH_STATES *)
Inductive AuthPhase : Type :=
| UNAUTHENTICATED
| AUTHENTICATING
| AUTHENTICATED
| ERROR.

Definition AuthPhase_name (p : AuthPhase) : string :=
  match p with
  | UNAUTHENTICATED => "unauthenticated"
  | AUTHENTICATING => "authenticating"
  | AUTHENTICATED => "authenticated"
  | ERROR => "error"
  end.

(** TERMINAL_CONSTANTS.COMMAND_STATES *)
Inductive CommandState : Type :=
| IDLE
| CMD_AUTHENTICATING
| PROCESSING.

Definition TOKEN_KEY : string := "antec_auth_token".
Definition USER_KEY : string := "antec_user".
Definition PASSWORD_MASK : string := "*".

Definition SUCCESS_SIGNUP : string := "✔ Account created successfully".
Definition SUCCESS_LOGIN : string := "✔ Login successful".
Definition SUCCESS_LOGOUT : string := "✔ Logged out successfully".
Definition SUCCESS_AUTO_LOGIN : string := "✔ You are now logged in".

Definition INVALID_CREDENTIALS : string := "Invalid credentials".
Definition VALIDATION_ERROR : string := "Please check your input and try again".
Definition SERVER_ERROR : string := "Server error. Please try again later.".
Definition USERNAME_REQUIRED : string := "Username is required".
Definition USERNAME_TOO_SHORT : string := "Username must be at least 3 characters".
Definition USERNAME_TOO_LONG : string := "Username must be no more than 50 characters".
Definition USERNAME_INVALID_FORMAT : string :=
  "Username can only contain letters, numbers, and underscores".
Definition EMAIL_REQUIRED : string := "Email is required".
Definition EMAIL_INVALID_FORMAT : string := "Please enter a valid email address".
Definition PASSWORD_REQUIRED : string := "Password is required".
Definition PASSWORD_TOO_SHORT : string := "Password must be at least 8 characters".
Definition PASSWORD_MISMATCH : string := "Passwords do not match".

(** One entry of VALIDATION. *)
Record Rules : Type := mkRules {
  minLength : option nat;
  maxLength : option nat;
  pattern : option re;
  message : option string
}.

Definition isWordChar (c : ascii) : bool :=
  let n := nat_of_ascii c in
  (Nat.leb 97 n && Nat.leb n 122) || (Nat.leb 65 n && Nat.leb n 90)
  || (Nat.leb 48 n && Nat.leb n 57) || Nat.eqb n 95.

Definition notSpaceAt (c : ascii) : bool :=
  negb (isSpace c) && negb (Ascii.eqb c "@"%char).

(** /^[a-zA-Z0-9_]+$/ *)
Definition usernamePattern : re := Plus (Cls isWordChar).

(** /^[^\s@]+@[^\s@]+\.[^\s@]+$/ *)
Definition emailPattern : re :=
  Seq (Plus (Cls notSpaceAt))
    (Seq (Cls (isChar "@"%char))
      (Seq (Plus (Cls notSpaceAt))
        (Seq (Cls (isChar "."%char)) (Plus (Cls notSpaceAt))))).

Definition VALIDATION (field : string) : option Rules :=
  if String.eqb field "username" then
    Some (mkRules (Some 3) (Some 50) (Some usernamePattern)
            (Some "Username must be 3-50 characters, alphanumeric and underscore only"))
  else if String.eqb field "email" then
    Some (mkRules None None (Some emailPattern)
            (Some "Please enter a valid email address"))
  else if String.eqb field "password" then
    Some (mkRules (Some 8) None None
            (Some "Password must be at least 8 characters long"))
  else None.

Record FieldValidation : Type := mkFieldValidation {
  fv_isValid : bool;
  fv_errors : list string;
  fv_message : option string
}.

(** A number used as a condition is truthy when it is present and not 0. *)
Definition limit (o : option nat) : option nat :=
  match o with
  | Some 0 => None
  | _ => o
  end.

(** validateField(field, value, rules = VALIDATION[field]) *)
Definition validateField (field value : string) : FieldValidation :=
  match VALIDATION field with
  | None => mkFieldValidation true [] None
  | Some rules =>
      let e1 :=
        match limit (minLength rules) with
        | Some n =>
            if Nat.ltb (String.length value) n
            then ["Must be at least " ++ natToString n ++ " characters long"]
            else []
        | None => []
        end in
      let e2 :=
        match limit (maxLength rules) with
        | Some n =>
            if Nat.ltb n (String.length value)
            then ["Must be no more than " ++ natToString n ++ " characters long"]
            else []
        | None => []
        end in
      let e3 :=
        match pattern rules with
        | Some r =>
            if negb (test r value)
            then [if truthy (message rules) then default "" (message rules)
                  else "Invalid format"]
            else []
        | None => []
        end in
      let errors := (e1 ++ e2 ++ e3)%list in
      mkFieldValidation (Nat.eqb (List.length errors) 0) errors (head errors)
  end.

(** An entry of the [errors] array of a request validation. *)
Record ValidationError : Type := mkValidationError {
  ve_field : string;
  ve_message : option string;
  ve_value : option string
}.

Record RequestValidation : Type := mkRequestValidation {
  isValid : bool;
  errors : list ValidationError
}.

(** Form data: a JS object used as a map from field name to string. *)
Definition FormData : Type := gmap string string.

Definition verr (f m : string) : ValidationError :=
  mkValidationError f (Some m) None.

(** [!v || v.trim().length === 0] *)
Definition blank (v : option string) : bool :=
  negb (truthy v) || Nat.eqb (String.length (trim (default "" v))) 0.

(** [!v || v.length === 0] *)
Definition missing (v : option string) : bool :=
  negb (truthy v) || Nat.eqb (String.length (default "" v)) 0.

Definition validateSignupRequest (data : FormData) : RequestValidation :=
  let eUser :=
    if blank (data !! "username") then [verr "username" USERNAME_REQUIRED]
    else
      let username := default "" (data !! "username") in
      let v := validateField "username" username in
      if negb (fv_isValid v) then
        let errorMessage := default "" (head (fv_errors v)) in
        if includes errorMessage "at least" then
          [verr "username" USERNAME_TOO_SHORT]
        else if includes errorMessage "no more than" then
          [verr "username" USERNAME_TOO_LONG]
        else if includes errorMessage "Invalid format" then
          [verr "username" USERNAME_INVALID_FORMAT]
        else [mkValidationError "username" (fv_message v) (Some username)]
      else [] in
  let eEmail :=
    if blank (data !! "email") then [verr "email" EMAIL_REQUIRED]
    else
      let v := validateField "email" (default "" (data !! "email")) in
      if negb (fv_isValid v) then [verr "email" EMAIL_INVALID_FORMAT] else [] in
  let ePassword :=
    if missing (data !! "password") then [verr "password" PASSWORD_REQUIRED]
    else
      let v := validateField "password" (default "" (data !! "password")) in
      if negb (fv_isValid v) then [verr "password" PASSWORD_TOO_SHORT] else [] in
  let eConfirm :=
    if missing (data !! "confirmPassword") then
      [verr "confirmPassword" "Password confirmation is required"]
    else if negb (bool_decide (data !! "password" = data !! "confirmPassword")) then
      [verr "confirmPassword" PASSWORD_MISMATCH]
    else [] in
  let errs := (eUser ++ eEmail ++ ePassword ++ eConfirm)%list in
  mkRequestValidation (Nat.eqb (List.length errs) 0) errs.

Definition validateLoginRequest (data : FormData) : RequestValidation :=
  let e1 :=
    if blank (data !! "emailOrUsername") then
      [verr "emailOrUsername" "Email or username is required"]
    else [] in
  let e2 :=
    if missing (data !! "password") then [verr "password" PASSWORD_REQUIRED]
    else [] in
  let errs := (e1 ++ e2)%list in
  mkRequestValidation (Nat.eqb (List.length errs) 0) errs.

End Shared.

(** ** The API client: token storage and the three credential calls *)
Module AuthClient.
Import JS Shared.

(** UserRef as returned by the credential service. *)
Record User : Type := mkUser {
  user_id : string;
  username : string;
  email : string
}.

(** AuthResponse *)
Record Response : Type := mkResponse {
  success : bool;
  message : option string;
  user : option User;
  token : option string
}.

Record APIError : Type := mkAPIError {
  err_message : string;
  err_status : nat;
  err_code : string;
  err_errors : list ValidationError
}.

(** How an awaited promise settles. *)
Inductive Outcome (A : Type) : Type :=
| Resolved : A -> Outcome A
| Rejected : APIError -> Outcome A.
Arguments Resolved {A} _.
Arguments Rejected {A} _.

(** API_ENDPOINTS.AUTH *)
Inductive Endpoint : Type := EP_SIGNUP | EP_LOGIN | EP_LOGOUT | EP_ME.

(** A request that reached [fetch]. *)
Record NetCall : Type := mkNetCall {
  call_endpoint : Endpoint;
  call_body : FormData
}.

(** What localStorage holds under a key: a plain string or the JSON text
    of a user object. *)
Inductive Stored : Type :=
| StoredString : string -> Stored
| StoredUser : User -> Stored.

(** localStorage; when it is not [available] every access throws. *)
Record Storage : Type := mkStorage {
  available : bool;
  items : gmap string Stored
}.

Definition setItem (k : string) (v : Stored) (st : Storage) : Storage :=
  if available st then mkStorage true (<[k := v]> (items st)) else st.

Definition removeItem (k : string) (st : Storage) : Storage :=
  if available st then mkStorage true (delete k (items st)) else st.

Definition getStoredToken (st : Storage) : option string :=
  if available st then
    match items st !! TOKEN_KEY with
    | Some (StoredString t) => Some t
    | _ => None
    end
  else None.

Definition storeToken (t : string) (st : Storage) : Storage :=
  setItem TOKEN_KEY (StoredString t) st.

Definition removeToken (st : Storage) : Storage := removeItem TOKEN_KEY st.

Definition getStoredUser (st : Storage) : option User :=
  if available st then
    match items st !! USER_KEY with
    | Some (StoredUser u) => Some u
    | _ => None
    end
  else None.

Definition storeUser (u : User) (st : Storage) : Storage :=
  setItem USER_KEY (StoredUser u) st.

Definition removeUser (st : Storage) : Storage := removeItem USER_KEY st.

Definition clearAuthData (st : Storage) : Storage := removeUser (removeToken st).

Definition isAuthenticated (st : Storage) : bool := truthy (getStoredToken st).

(** [if (response.success && response.token) { storeToken; if (user) storeUser }] *)
Definition storeSession (response : Response) (st : Storage) : Storage :=
  if success response && truthy (token response) then
    let st1 := storeToken (default "" (token response)) st in
    match user response with
    | Some u => storeUser u st1
    | None => st1
    end
  else st.

Definition validationFailure (errs : list ValidationError) : APIError :=
  mkAPIError VALIDATION_ERROR 400 "VALIDATION_ERROR" errs.

Definition msgIncludes (m : option string) (p : string) : bool :=
  includes (default "" m) p.

Definition mapSignupFieldError (e : ValidationError) : ValidationError :=
  if String.eqb (ve_field e) "username" && msgIncludes (ve_message e) "already exists"
  then mkValidationError (ve_field e) (Some "Username already exists") (ve_value e)
  else if String.eqb (ve_field e) "email" && msgIncludes (ve_message e) "already registered"
  then mkValidationError (ve_field e) (Some "Email already registered") (ve_value e)
  else e.

(** The [catch] block of [AuthClient.signup]. *)
Definition mapSignupError (error : APIError) : APIError :=
  if Nat.eqb (err_status error) 400 && Nat.ltb 0 (List.length (err_errors error)) then
    let mapped := map mapSignupFieldError (err_errors error) in
    mkAPIError (default "" (head mapped ≫= ve_message))
      (err_status error) (err_code error) mapped
  else
    let conflict :=
      Nat.eqb (err_status error) 409 || String.eqb (err_code error) "USERNAME_EXISTS"
      || String.eqb (err_code error) "EMAIL_EXISTS" in
    let m := toLowerCase (err_message error) in
    if conflict && (includes m "username" || String.eqb (err_code error) "USERNAME_EXISTS")
    then mkAPIError "Username already exists" (err_status error) "USERNAME_EXISTS" []
    else if conflict && (includes m "email" || String.eqb (err_code error) "EMAIL_EXISTS")
    then mkAPIError "Email already registered" (err_status error) "EMAIL_EXISTS" []
    else if Nat.leb 500 (err_status error)
    then mkAPIError SERVER_ERROR (err_status error) "SERVER_ERROR" []
    else error.

(** The [catch] block of [AuthClient.login]. *)
Definition mapLoginError (error : APIError) : APIError :=
  if Nat.eqb (err_status error) 401
  then mkAPIError INVALID_CREDENTIALS (err_status error) "INVALID_CREDENTIALS" []
  else if String.eqb (err_code error) "ACCOUNT_LOCKED"
  then mkAPIError "Account temporarily locked. Please try again later."
         (err_status error) "ACCOUNT_LOCKED" []
  else if Nat.leb 500 (err_status error)
  then mkAPIError SERVER_ERROR (err_status error) "SERVER_ERROR" []
  else error.

(** [AuthClient.signup] before its request: the client-side validation.
    [Some e] is the error thrown without sending anything. *)
Definition signupBegin (userData : FormData) : option APIError :=
  let validation := validateSignupRequest userData in
  if negb (isValid validation) then Some (validationFailure (errors validation))
  else None.

(** [AuthClient.signup] after its request settled as [net]. *)
Definition signupSettle (net : Outcome Response) (st : Storage)
  : Outcome Response * Storage :=
  match net with
  | Resolved response => (Resolved response, storeSession response st)
  | Rejected error => (Rejected (mapSignupError error), st)
  end.

Definition loginBegin (credentials : FormData) : option APIError :=
  let validation := validateLoginRequest credentials in
  if negb (isValid validation) then Some (validationFailure (errors validation))
  else None.

Definition loginSettle (net : Outcome Response) (st : Storage)
  : Outcome Response * Storage :=
  match net with
  | Resolved response => (Resolved response, storeSession response st)
  | Rejected error => (Rejected (mapLoginError error), st)
  end.

(** [AuthClient.logout] after its request settled: it never rejects. *)
Definition logoutSettle (net : Outcome Response) (st : Storage)
  : Outcome Response * Storage :=
  match net with
  | Resolved response => (Resolved response, clearAuthData st)
  | Rejected _ =>
      (Resolved (mkResponse true (Some SUCCESS_LOGOUT) None None), clearAuthData st)
  end.

End AuthClient.

(** ** The session store: AuthContext's reducer and its asynchronous actions *)
Module AuthContext.
Import JS Shared AuthClient.

Record AuthState : Type := mkAuthState {
  st_user : option User;
  st_isAuthenticated : bool;
  st_loading : bool;
  st_error : option string;
  st_authState : AuthPhase
}.

(** AUTH_ACTIONS with their payloads; [OTHER] is any unknown action type. *)
Inductive Action : Type :=
| SET_LOADING : bool -> Action
| SET_USER : option User -> Action
| SET_ERROR : option string -> Action
| CLEAR_ERROR : Action
| LOGOUT : Action
| RESET : Action
| OTHER : Action.

Definition initialState : AuthState :=
  mkAuthState None false false None UNAUTHENTICATED.

Definition authReducer (state : AuthState) (action : Action) : AuthState :=
  match action with
  | SET_LOADING payload =>
      mkAuthState (st_user state) (st_isAuthenticated state) payload None
        (if payload then AUTHENTICATING else st_authState state)
  | SET_USER payload =>
      mkAuthState payload (bool_decide (is_Some payload)) false None
        (match payload with Some _ => AUTHENTICATED | None => UNAUTHENTICATED end)
  | SET_ERROR payload =>
      mkAuthState (st_user state) (st_isAuthenticated state) false payload ERROR
  | CLEAR_ERROR =>
      mkAuthState (st_user state) (st_isAuthenticated state) (st_loading state) None
        (match st_user state with
         | Some _ => AUTHENTICATED
         | None => UNAUTHENTICATED
         end)
  | LOGOUT =>
      mkAuthState (st_user initialState) (st_isAuthenticated initialState)
        (st_loading initialState) (st_error initialState) UNAUTHENTICATED
  | RESET => initialState
  | OTHER => state
  end.

(** The provider: the reducer state, the client's storage, the
    [antec:authChange] events emitted and the requests sent so far. *)
Record Provider : Type := mkProvider {
  state : AuthState;
  local : Storage;
  emitted : list (option User);
  sent : list NetCall
}.

Definition dispatch (a : Action) (p : Provider) : Provider :=
  mkProvider (authReducer (state p) a) (local p) (emitted p) (sent p).

Definition emitAuthChange (u : option User) (p : Provider) : Provider :=
  mkProvider (state p) (local p) (emitted p ++ [u])%list (sent p).

(** A request reaches [fetch]. *)
Definition sending (c : NetCall) (p : Provider) : Provider :=
  mkProvider (state p) (local p) (emitted p) (sent p ++ [c])%list.

Definition onStorage (f : Storage -> Storage) (p : Provider) : Provider :=
  mkProvider (state p) (f (local p)) (emitted p) (sent p).

(** The two dispatches that [signup] and [login] perform before their
    first [await]. *)
Definition authPrefix (p : Provider) : Provider :=
  dispatch CLEAR_ERROR (dispatch (SET_LOADING true) p).

(** The code after [await authClient.signup/login(...)]; the returned
    outcome is what the action's promise settles to. *)
Definition afterAuthCall (o : Outcome Response) (p : Provider)
  : Provider * Outcome Response :=
  match o with
  | Resolved response =>
      if success response then
        match user response with
        | Some u =>
            (emitAuthChange (Some u)
               (dispatch (SET_USER (Some u)) (onStorage (storeUser u) p)),
             Resolved response)
        | None => (p, Resolved response)
        end
      else (dispatch (SET_ERROR (message response)) p, Resolved response)
  | Rejected error =>
      let errorMessage :=
        if truthy (Some (err_message error)) then err_message error
        else SERVER_ERROR in
      (dispatch (SET_ERROR (Some errorMessage)) p, Rejected error)
  end.

(** [signup(userData)] up to its [await]: the two dispatches, then the
    client validates and, if the data is valid, sends the request. The
    second component is the rejection the client raised without sending
    anything, if any. *)
Definition signupBegin (userData : FormData) (p : Provider)
  : Provider * option APIError :=
  let p1 := authPrefix p in
  match AuthClient.signupBegin userData with
  | Some rejection => (p1, Some rejection)
  | None => (sending (mkNetCall EP_SIGNUP userData) p1, None)
  end.

(** The rest of [signup(userData)] once the request has settled as [net]. *)
Definition signupSettle (net : Outcome Response) (p : Provider)
  : Provider * Outcome Response :=
  let '(o, st) := AuthClient.signupSettle net (local p) in
  afterAuthCall o (onStorage (fun _ => st) p).

(** [signup(userData)] run to completion. *)
Definition signup (userData : FormData) (net : Outcome Response) (p : Provider)
  : Provider * Outcome Response :=
  match signupBegin userData p with
  | (p1, Some rejection) => afterAuthCall (Rejected rejection) p1
  | (p1, None) => signupSettle net p1
  end.

(** [login(credentials)], split in the same way. *)
Definition loginBegin (credentials : FormData) (p : Provider)
  : Provider * option APIError :=
  let p1 := authPrefix p in
  match AuthClient.loginBegin credentials with
  | Some rejection => (p1, Some rejection)
  | None => (sending (mkNetCall EP_LOGIN credentials) p1, None)
  end.

Definition loginSettle (net : Outcome Response) (p : Provider)
  : Provider * Outcome Response :=
  let '(o, st) := AuthClient.loginSettle net (local p) in
  afterAuthCall o (onStorage (fun _ => st) p).

Definition login (credentials : FormData) (net : Outcome Response) (p : Provider)
  : Provider * Outcome Response :=
  match loginBegin credentials p with
  | (p1, Some rejection) => afterAuthCall (Rejected rejection) p1
  | (p1, None) => loginSettle net p1
  end.

(** [logout()] up to its [await]: one dispatch, then the request. *)
Definition logoutBegin (p : Provider) : Provider :=
  sending (mkNetCall EP_LOGOUT ∅) (dispatch (SET_LOADING true) p).

(** The rest of [logout()]: the client clears its data however the
    request settled, then the [finally] block runs. *)
Definition logoutSettle (net : Outcome Response) (p : Provider)
  : Provider * Response :=
  let '(_, st) := AuthClient.logoutSettle net (local p) in
  let p2 := onStorage (fun _ => st) p in
  let p3 := onStorage clearAuthData p2 in
  let p4 := dispatch LOGOUT p3 in
  (emitAuthChange None p4, mkResponse true (Some SUCCESS_LOGOUT) None None).

Definition logout (net : Outcome Response) (p : Provider) : Provider * Response :=
  logoutSettle net (logoutBegin p).

Definition clearError (p : Provider) : Provider := dispatch CLEAR_ERROR p.

(** The context value handed to consumers. *)
Record Auth : Type := mkAuth {
  auth_user : option User;
  auth_isAuthenticated : bool;
  auth_loading : bool;
  auth_error : option string;
  auth_authState : AuthPhase
}.

Definition value (p : Provider) : Auth :=
  mkAuth (st_user (state p)) (st_isAuthenticated (state p)) (st_loading (state p))
    (st_error (state p)) (st_authState (state p)).

Definition initialProvider (st : Storage) : Provider :=
  mkProvider initialState st [] [].

End AuthContext.

(** ** apps/web/src/utils/promptManager.js *)
Module Prompt.
Import JS AuthClient AuthContext.

Definition colorUsername : string := ESC ++ "[38;2;155;124;255m".
Definition colorHost : string := ESC ++ "[38;2;155;124;255m".
Definition colorPath : string := ESC ++ "[38;2;139;148;158m".
Definition colorSymbol : string := ESC ++ "[38;2;139;148;158m".
Definition colorReset : string := ESC ++ "[0m".

(** [auth && auth.isAuthenticated && auth.user] *)
Definition promptUser (auth : option Auth) : option User :=
  match auth with
  | Some a => if auth_isAuthenticated a then auth_user a else None
  | None => None
  end.

(** getCurrentPrompt(): the coloured prompt text. *)
Definition getCurrentPrompt (auth : option Auth) : string :=
  match promptUser auth with
  | Some u =>
      colorUsername ++ username u ++ "@antec" ++ colorReset ++ ":" ++ colorPath
      ++ "~" ++ colorReset ++ colorSymbol ++ "$" ++ colorReset ++ " "
  | None =>
      colorHost ++ "guest@antec" ++ colorReset ++ ":" ++ colorPath
      ++ "~" ++ colorReset ++ colorSymbol ++ "$" ++ colorReset ++ " "
  end.

(** getPlainPrompt() *)
Definition getPlainPrompt (auth : option Auth) : string :=
  match promptUser auth with
  | Some u => username u ++ "@antec:~$ "
  | None => "guest@antec:~$ "
  end.

(** getDisplayUsername() *)
Definition getDisplayUsername (auth : option Auth) : string :=
  match promptUser auth with
  | Some u => username u
  | None => "guest"
  end.

(** isAuthenticatedPrompt() *)
Definition isAuthenticatedPrompt (auth : option Auth) : bool :=
  bool_decide (is_Some (promptUser auth)).

(** refreshPrompt(): what is written to the terminal. *)
Definition refreshPrompt (auth : option Auth) : string :=
  CR ++ ESC ++ "[K" ++ getCurrentPrompt auth.

End Prompt.

(** ** The xterm terminal as seen by the dispatchers *)
Module Term.
Import JS.

Inductive Op : Type :=
| Write : string -> Op
| Clear : Op.

(** [parseInt(s)]: leading white space, an optional sign, then decimal
    digits, or hexadecimal digits after [0x]; [None] is NaN. Values are
    exact integers (the rounding of doubles beyond 2^53 is not modelled). *)
Definition digitOf (radix : nat) (c : ascii) : option nat :=
  let n := nat_of_ascii c in
  let d :=
    if Nat.leb 48 n && Nat.leb n 57 then Some (n - 48)
    else if Nat.leb 97 n && Nat.leb n 122 then Some (n - 87)
    else if Nat.leb 65 n && Nat.leb n 90 then Some (n - 55)
    else None in
  match d with
  | Some v => if Nat.ltb v radix then Some v else None
  | None => None
  end.

Fixpoint digits (radix : nat) (l : list ascii) (acc : option Z) : option Z :=
  match l with
  | [] => acc
  | c :: l' =>
      match digitOf radix c with
      | Some v => digits radix l' (Some (default 0%Z acc * Z.of_nat radix + Z.of_nat v)%Z)
      | None => acc
      end
  end.

Definition parseInt (arg : option string) : option Z :=
  let l := dropSpace (chars (default "undefined" arg)) in
  let '(neg, l1) :=
    match l with
    | "-"%char :: r => (true, r)
    | "+"%char :: r => (false, r)
    | _ => (false, l)
    end in
  let v :=
    match l1 with
    | "0"%char :: "x"%char :: r => digits 16 r None
    | "0"%char :: "X"%char :: r => digits 16 r None
    | _ => digits 10 l1 None
    end in
  if neg then option_map Z.opp v else v.

(** A number in a template literal. *)
Definition numToString (n : option Z) : string :=
  match n with
  | Some z => ZToString z
  | None => "NaN"
  end.

Definition lines (l : list string) : string := join LF l.

(** The characters written, in order; clearing the screen writes none. *)
Fixpoint text (ops : list Op) : string :=
  match ops with
  | [] => ""
  | Write s :: ops' => s ++ text ops'
  | Clear :: ops' => text ops'
  end.

End Term.

(** ** PasswordInput and SequentialFormHandler *)
Module Form.
Import JS Shared.

(** A field definition [{ name, prompt, type }]. *)
Record Field : Type := mkField {
  name : string;
  prompt : string;
  type : string
}.

(** The two closures that [promptCurrentField] hands to the password
    input: [(password) => this.handleFieldComplete(field.name, password)]
    and [() => this.handleCancel()]. *)
Inductive PwOnComplete : Type :=
| FieldCompleteOf : string -> PwOnComplete.
Inductive PwOnCancel : Type :=
| CancelForm : PwOnCancel.

Record PasswordInput : Type := mkPasswordInput {
  password : string;
  pw_isActive : bool;
  pw_onComplete : option PwOnComplete;
  pw_onCancel : option PwOnCancel
}.

Module PasswordInput.

(** constructor *)
Definition new : PasswordInput := mkPasswordInput "" false None None.

Definition start (onComplete : PwOnComplete) (onCancel : option PwOnCancel)
  (_ : PasswordInput) : PasswordInput :=
  mkPasswordInput "" true (Some onComplete) onCancel.

Definition stop (_ : PasswordInput) : PasswordInput :=
  mkPasswordInput "" false None None.

(** The callback that [handleInput] invokes as its last action. *)
Inductive Call : Type :=
| CallOnComplete : PwOnComplete -> string -> Call
| CallOnCancel : PwOnCancel -> Call.

(** One run of [handleInput]: the object when the callback (if any) is
    invoked, which is also the object when the method returns unless the
    callback changes it; the text written; the pending callback; and
    the return value. *)
Record Step : Type := mkStep {
  after : PasswordInput;
  written : list Term.Op;
  call : option Call;
  handled : bool
}.

Definition handleInput (data : string) (this : PasswordInput) : Step :=
  if negb (pw_isActive this) then mkStep this [] None false
  else
    match charCodeAt0 data with
    | None => mkStep this [] None false
    | Some code =>
        if Nat.eqb code 13 then
          let pw := password this in
          let this' :=
            mkPasswordInput "" false (pw_onComplete this) (pw_onCancel this) in
          mkStep this' [] (option_map (fun cb => CallOnComplete cb pw)
                             (pw_onComplete this)) true
        else if Nat.eqb code 127 then
          if Nat.ltb 0 (String.length (password this)) then
            mkStep (mkPasswordInput (dropLast (password this)) (pw_isActive this)
                      (pw_onComplete this) (pw_onCancel this))
              [Term.Write (BS ++ " " ++ BS)] None true
          else mkStep this [] None true
        else if Nat.eqb code 3 then
          let this' :=
            mkPasswordInput "" false (pw_onComplete this) (pw_onCancel this) in
          mkStep this' [] (option_map CallOnCancel (pw_onCancel this)) true
        else if Nat.eqb code 27 then mkStep this [] None true
        else if Nat.leb 32 code && Nat.leb code 126 then
          mkStep (mkPasswordInput (password this ++ data) (pw_isActive this)
                    (pw_onComplete this) (pw_onCancel this))
            [Term.Write PASSWORD_MASK] None true
        else mkStep this [] None false
    end.

Definition getCurrentPassword (this : PasswordInput) : string := password this.
Definition isPasswordMode (this : PasswordInput) : bool := pw_isActive this.

Definition clear (this : PasswordInput) : PasswordInput :=
  mkPasswordInput "" (pw_isActive this) (pw_onComplete this) (pw_onCancel this).

End PasswordInput.

(** What a client callback of the form does when it is invoked: return,
    throw, or (as the callbacks of AuthCommandHandler do through
    finishAuthCommand) call [stop()] on the form and return. [onComplete]
    chooses by the data it receives. *)
Inductive Behaviour : Type :=
| Returns
| Throws
| StopsForm.

Record SequentialFormHandler : Type := mkForm {
  passwordInput : PasswordInput;
  fields : list Field;
  currentFieldIndex : nat;
  formData : FormData;
  isActive : bool;
  onComplete : option (FormData -> Behaviour);
  onCancel : option Behaviour
}.

(** A client callback invocation, with the argument it received. *)
Inductive Fired : Type :=
| FiredComplete : FormData -> Fired
| FiredCancel : Fired.

(** The form object together with what it has written to the terminal and
    the client callbacks it has invoked, oldest first. *)
Record World : Type := mkWorld {
  form : SequentialFormHandler;
  out : list Term.Op;
  fired : list Fired
}.

(** A method either returns a value or lets an exception escape; the
    mutations made before the exception stay. *)
Inductive Completion (A : Type) : Type :=
| Ok : A -> Completion A
| Thrown : Completion A.
Arguments Ok {A} _.
Arguments Thrown {A}.

Definition M (A : Type) : Type := World -> World * Completion A.

#[export] Instance M_ret : MRet M := fun A a w => (w, Ok a).
#[export] Instance M_bind : MBind M := fun A B k m w =>
  match m w with
  | (w', Ok a) => k a w'
  | (w', Thrown) => (w', Thrown)
  end.

Definition throw {A} : M A := fun w => (w, Thrown).
Definition get : M SequentialFormHandler := fun w => (w, Ok (form w)).
Definition modify (f : SequentialFormHandler -> SequentialFormHandler) : M unit :=
  fun w => (mkWorld (f (form w)) (out w) (fired w), Ok tt).
Definition emit (o : Term.Op) : M unit :=
  fun w => (mkWorld (form w) (out w ++ [o])%list (fired w), Ok tt).
Definition emitAll (l : list Term.Op) : M unit :=
  fun w => (mkWorld (form w) (out w ++ l)%list (fired w), Ok tt).
Definition write (s : string) : M unit := emit (Term.Write s).
Definition record (e : Fired) : M unit :=
  fun w => (mkWorld (form w) (out w) (fired w ++ [e])%list, Ok tt).

Definition setPasswordInput (p : PasswordInput) (f : SequentialFormHandler) :=
  mkForm p (fields f) (currentFieldIndex f) (formData f) (isActive f)
    (onComplete f) (onCancel f).
Definition setActive (b : bool) (f : SequentialFormHandler) :=
  mkForm (passwordInput f) (fields f) (currentFieldIndex f) (formData f) b
    (onComplete f) (onCancel f).

(** constructor *)
Definition new : SequentialFormHandler :=
  mkForm PasswordInput.new [] 0 ∅ false None None.

(** stop() *)
Definition stopped (f : SequentialFormHandler) : SequentialFormHandler :=
  mkForm (PasswordInput.stop (passwordInput f)) [] 0 ∅ false None None.
Definition stop : M unit := modify stopped.

(** Invoking a client callback. *)
Definition invoke (b : Behaviour) (e : Fired) : M unit :=
  record e ;;
  match b with
  | Returns => mret tt
  | Throws => throw
  | StopsForm => stop
  end.

(** completeForm() *)
Definition completeForm : M unit :=
  modify (setActive false) ;;
  this ← get ;
  let data := formData this in
  match onComplete this with
  | Some cb => invoke (cb data) (FiredComplete data)
  | None => mret tt
  end ;;
  stop.

(** handleCancel() *)
Definition handleCancel : M unit :=
  write (CR ++ LF ++ "^C" ++ CR ++ LF) ;;
  this ← get ;
  match onCancel this with
  | Some cb => invoke cb FiredCancel
  | None => mret tt
  end ;;
  stop.

(** promptCurrentField() *)
Definition promptCurrentField : M unit :=
  this ← get ;
  match fields this !! currentFieldIndex this with
  | None => completeForm
  | Some field =>
      write (prompt field ++ ": ") ;;
      if String.eqb (type field) "password" then
        modify (fun f =>
          setPasswordInput
            (PasswordInput.start (FieldCompleteOf (name field)) (Some CancelForm)
               (passwordInput f)) f)
      else mret tt
  end.

(** [this.formData[fieldName] = value; this.currentFieldIndex++] *)
Definition advance (fieldName value : string) (f : SequentialFormHandler) :=
  mkForm (passwordInput f) (fields f) (S (currentFieldIndex f))
    (<[fieldName := value]> (formData f)) (isActive f) (onComplete f) (onCancel f).

(** handleFieldComplete(fieldName, value) *)
Definition handleFieldComplete (fieldName value : string) : M unit :=
  modify (advance fieldName value) ;;
  write (CR ++ LF) ;;
  promptCurrentField.

(** start(fields, onComplete, onCancel = null) *)
Definition start (fs : list Field) (onComplete : option (FormData -> Behaviour))
  (onCancel : option Behaviour) : M unit :=
  modify (fun f => mkForm (passwordInput f) fs 0 ∅ true onComplete onCancel) ;;
  promptCurrentField.

(** handleRegularFieldComplete(value) *)
Definition handleRegularFieldComplete (value : string) : M unit :=
  this ← get ;
  if negb (isActive this) then mret tt
  else
    match fields this !! currentFieldIndex this with
    | None => mret tt
    | Some field =>
        if negb (String.eqb (type field) "password")
        then handleFieldComplete (name field) value
        else mret tt
    end.

(** Running the callback that the password input asked for. *)
Definition runCall (c : PasswordInput.Call) : M unit :=
  match c with
  | PasswordInput.CallOnComplete (FieldCompleteOf fieldName) pw =>
      handleFieldComplete fieldName pw
  | PasswordInput.CallOnCancel CancelForm => handleCancel
  end.

(** handleInput(data) *)
Definition handleInput (data : string) : M bool :=
  this ← get ;
  if negb (isActive this) then mret false
  else if PasswordInput.isPasswordMode (passwordInput this) then
    let s := PasswordInput.handleInput data (passwordInput this) in
    modify (setPasswordInput (PasswordInput.after s)) ;;
    emitAll (PasswordInput.written s) ;;
    match PasswordInput.call s with
    | Some c => runCall c
    | None => mret tt
    end ;;
    mret (PasswordInput.handled s)
  else
    match charCodeAt0 data with
    | Some 3 => handleCancel ;; mret true
    | _ => mret false
    end.

(** What a [Behaviour] does to the form. *)
Definition behave (b : Behaviour) : M unit :=
  match b with
  | Returns => mret tt
  | Throws => throw
  | StopsForm => stop
  end.

(** handleCancel() and completeForm() for a client callback that is a
    closure over the form and calls its methods: [callback] is what the
    closure does, and the [onCancel] or [onComplete] field only tells that
    a callback is set. The statements are those of [handleCancel] and
    [completeForm]; for the three callbacks of [Behaviour] they are the
    same computations. *)
Definition handleCancelCalling (callback : M unit) : M unit :=
  write (CR ++ LF ++ "^C" ++ CR ++ LF) ;;
  this ← get ;
  match onCancel this with
  | Some _ => record FiredCancel ;; callback
  | None => mret tt
  end ;;
  stop.

Definition completeFormCalling (callback : FormData -> M unit) : M unit :=
  modify (setActive false) ;;
  this ← get ;
  let data := formData this in
  match onComplete this with
  | Some _ => record (FiredComplete data) ;; callback data
  | None => mret tt
  end ;;
  stop.

Definition isFormActive (f : SequentialFormHandler) : bool := isActive f.
Definition getFormData (f : SequentialFormHandler) : FormData := formData f.

(** passwordUtils *)
Definition validateConfirmation (password confirmPassword : option string) : bool :=
  bool_decide (password = confirmPassword).

Definition createSignupFields : list Field :=
  [ mkField "username" "Username" "text";
    mkField "email" "Email" "text";
    mkField "password" "Password" "password";
    mkField "confirmPassword" "Confirm Password" "password" ].

Definition createLoginFields : list Field :=
  [ mkField "emailOrUsername" "Email or Username" "text";
    mkField "password" "Password" "password" ].

Definition initialWorld : World := mkWorld new [] [].

(** What the dispatcher and the command handler send to a started form:
    raw input, the completed value of a text field, and [stop()]. *)
Inductive Event : Type :=
| Input : string -> Event
| RegularFieldComplete : string -> Event
| Stop : Event.

(** One event. An exception that escapes is the caller's business: the
    form stays as the exception left it. *)
Definition step (e : Event) (w : World) : World :=
  match e with
  | Input data => fst (handleInput data w)
  | RegularFieldComplete value => fst (handleRegularFieldComplete value w)
  | Stop => fst (stop w)
  end.

Definition run (es : list Event) (w : World) : World :=
  foldl (fun w e => step e w) w es.

(** The world right after [start(fields, onComplete, onCancel)]. *)
Definition started (fs : list Field) (onComplete : option (FormData -> Behaviour))
  (onCancel : option Behaviour) (w : World) : World :=
  fst (start fs onComplete onCancel w).

Definition ctrlC : string := chr 3.
Definition enter : string := chr 13.

(** What [handleCancel] writes first. *)
Definition cancelNotice : Term.Op := Term.Write (CR ++ LF ++ "^C" ++ CR ++ LF).

(** What one method call can do to the form and to the callback log:
    touch the password input only; advance to the next field; tear the
    form down without a callback; invoke one callback and tear the form
    down; or invoke one callback that throws, which leaves the form
    inactive (completion) or untouched (cancellation). *)
Inductive Change (w w' : World) : Prop :=
| Quiet (pi : PasswordInput) :
    fired w' = fired w ->
    form w' = setPasswordInput pi (form w) -> Change w w'
| Advanced (n v : string) (pi : PasswordInput) :
    isActive (form w) = true ->
    fired w' = fired w ->
    form w' = setPasswordInput pi (advance n v (form w)) -> Change w w'
| TornDown :
    fired w' = fired w -> form w' = new -> Change w w'
| FiredThenTornDown (x : Fired) :
    isActive (form w) = true ->
    fired w' = (fired w ++ [x])%list -> form w' = new -> Change w w'
| CompleteThrew (n v : string) (pi : PasswordInput) (cb : FormData -> Behaviour) :
    isActive (form w) = true ->
    onComplete (form w) = Some cb ->
    cb (<[n := v]> (formData (form w))) = Throws ->
    fired w' = (fired w ++ [FiredComplete (<[n := v]> (formData (form w)))])%list ->
    form w' = setActive false (setPasswordInput pi (advance n v (form w))) ->
    Change w w'
| CancelThrew (pi : PasswordInput) :
    isActive (form w) = true ->
    onCancel (form w) = Some Throws ->
    fired w' = (fired w ++ [FiredCancel])%list ->
    form w' = setPasswordInput pi (form w) -> Change w w'.

(** The exactly-once invariant, relative to the callback log [base] that
    the form found when it was started: either nothing has fired yet and
    [onCancel] is not a throwing callback, or one callback has fired and
    the form is inactive. *)
Definition AtMostOnce (base : list Fired) (w : World) : Prop :=
  (onCancel (form w) <> Some Throws /\ fired w = base)
  \/ (isActive (form w) = false /\ exists x, fired w = (base ++ [x])%list).

End Form.

(** ** apps/web/src/utils/authCommands.js *)
Module AuthCmd.
Import JS Shared AuthClient AuthContext.

(** Callbacks scheduled with [setTimeout(..., 800)]. *)
Inductive Timer : Type :=
| RefreshPromptTimer
| FinishAuthCommandTimer.

(** The asynchronous method that is suspended at its [await]. *)
Inductive Pending : Type :=
| PendingSignup : Pending
| PendingLogin : Pending
| PendingLogout : Pending.

(** The handler, its form (which carries the shared terminal's output)
    and the session store it talks to. *)
Record Handler : Type := mkHandler {
  formHandler : Form.World;
  isProcessing : bool;
  currentCommand : option string;
  loadingIndicator : option string;
  notified : list CommandState;
  timers : list Timer;
  awaiting : option Pending;
  provider : Provider
}.

Definition onForm (f : Form.World -> Form.World) (h : Handler) : Handler :=
  mkHandler (f (formHandler h)) (isProcessing h) (currentCommand h)
    (loadingIndicator h) (notified h) (timers h) (awaiting h) (provider h).

(** terminal.write(text) *)
Definition termWrite (text : string) (h : Handler) : Handler :=
  onForm (fun w => fst (Form.write text w)) h.

(** terminal.clear() *)
Definition termClear (h : Handler) : Handler :=
  onForm (fun w => fst (Form.emit Term.Clear w)) h.

Definition writeToTerminal (text : string) (newLine : bool) (h : Handler) : Handler :=
  termWrite (text ++ (if newLine then CRLF else "")) h.

Definition colorCode (color : string) : string :=
  if String.eqb color "green" then ESC ++ "[32m"
  else if String.eqb color "red" then ESC ++ "[31m"
  else if String.eqb color "yellow" then ESC ++ "[33m"
  else if String.eqb color "blue" then ESC ++ "[34m"
  else if String.eqb color "magenta" then ESC ++ "[35m"
  else if String.eqb color "cyan" then ESC ++ "[36m"
  else ESC ++ "[0m".

Definition writeColoredText (text color : string) (h : Handler) : Handler :=
  writeToTerminal (colorCode color ++ text ++ ESC ++ "[0m") true h.

(** The characters of one coloured line. *)
Definition coloured (text color : string) : string :=
  (colorCode color ++ text ++ ESC ++ "[0m") ++ CRLF.

(** What [writeErrorMessage] can be given. *)
Inductive ErrorArg : Type :=
| ErrText : string -> ErrorArg
| ErrList : list ValidationError -> ErrorArg
| ErrAPI : APIError -> ErrorArg.

Definition writeFieldErrors (errs : list ValidationError) (h : Handler) : Handler :=
  foldl (fun h' e =>
           writeColoredText
             ("  " ++ ve_field e ++ ": " ++ default "undefined" (ve_message e)) "red" h')
    (writeColoredText "Validation errors:" "red" h) errs.

Definition orElse (m : option string) (d : string) : string :=
  if truthy m then default "" m else d.

Definition writeErrorMessage (error : ErrorArg) (h : Handler) : Handler :=
  match error with
  | ErrText m => writeColoredText m "red" h
  | ErrList errs =>
      if Nat.ltb 0 (List.length errs) then writeFieldErrors errs h
      else writeColoredText "An error occurred" "red" h
  | ErrAPI e =>
      if Nat.ltb 0 (List.length (err_errors e)) then writeFieldErrors (err_errors e) h
      else writeColoredText (orElse (Some (err_message e)) "An error occurred") "red" h
  end.

Definition writeSuccessMessage (m : string) := writeColoredText m "green".
Definition writeWarningMessage (m : string) := writeColoredText m "yellow".
Definition writeInfoMessage (m : string) := writeColoredText m "cyan".

Definition notifyTerminalStateChange (s : CommandState) (h : Handler) : Handler :=
  mkHandler (formHandler h) (isProcessing h) (currentCommand h)
    (loadingIndicator h) (notified h ++ [s])%list (timers h) (awaiting h) (provider h).

Definition setLoading (m : option string) (h : Handler) : Handler :=
  mkHandler (formHandler h) (isProcessing h) (currentCommand h)
    m (notified h) (timers h) (awaiting h) (provider h).

(** stopLoadingIndicator(); the spinner frames drawn by the interval are
    not part of the model. *)
Definition stopLoadingIndicator (h : Handler) : Handler :=
  match loadingIndicator h with
  | Some _ => termWrite (CR ++ ESC ++ "[K") (setLoading None h)
  | None => h
  end.

(** startLoadingIndicator(message) *)
Definition startLoadingIndicator (m : string) (h : Handler) : Handler :=
  setLoading (Some m) (termWrite (CR ++ ESC ++ "[K") (stopLoadingIndicator h)).

Definition setProcessing (b : bool) (c : option string) (h : Handler) : Handler :=
  mkHandler (formHandler h) b c (loadingIndicator h) (notified h) (timers h)
    (awaiting h) (provider h).

Definition setTerminalProcessing (command : string) (h : Handler) : Handler :=
  notifyTerminalStateChange CMD_AUTHENTICATING (setProcessing true (Some command) h).

Definition setTerminalIdle (h : Handler) : Handler :=
  notifyTerminalStateChange IDLE (stopLoadingIndicator (setProcessing false None h)).

Definition setTimeout (t : Timer) (h : Handler) : Handler :=
  mkHandler (formHandler h) (isProcessing h) (currentCommand h)
    (loadingIndicator h) (notified h) (timers h ++ [t])%list (awaiting h) (provider h).

Definition setAwaiting (a : option Pending) (h : Handler) : Handler :=
  mkHandler (formHandler h) (isProcessing h) (currentCommand h)
    (loadingIndicator h) (notified h) (timers h) a (provider h).

Definition withProvider (p : Provider) (h : Handler) : Handler :=
  mkHandler (formHandler h) (isProcessing h) (currentCommand h)
    (loadingIndicator h) (notified h) (timers h) (awaiting h) p.

Definition displayStateMessage (m type : string) (h : Handler) : Handler :=
  if String.eqb type "warning" then writeWarningMessage m h
  else if String.eqb type "error" then writeErrorMessage (ErrText m) h
  else writeInfoMessage m h.

(** finishAuthCommand() *)
Definition finishAuthCommand (h : Handler) : Handler :=
  let h1 := stopLoadingIndicator h in
  let h2 := onForm (fun w => fst (Form.stop w)) h1 in
  let h3 := setTerminalIdle h2 in
  setTimeout RefreshPromptTimer h3.

(** cancelAuthCommand() *)
Definition cancelAuthCommand (h : Handler) : Handler :=
  finishAuthCommand
    (displayStateMessage "Authentication cancelled." "warning"
       (stopLoadingIndicator h)).

(** The [catch] block shared by processSignup and processLogin. *)
Definition processFailed (error : APIError) (h : Handler) : Handler :=
  finishAuthCommand (writeErrorMessage (ErrAPI error) (stopLoadingIndicator h)).

(** processSignup(formData) after [await auth.signup(formData)] gave
    [settled]; [latestAuth] is what [getAuth()] then returns. *)
Definition processSignupAfter (settled : Outcome Response) (latestAuth : option Auth)
  (h : Handler) : Handler :=
  match settled with
  | Resolved response =>
      let h2 := stopLoadingIndicator h in
      if success response then
        let h3 := writeSuccessMessage SUCCESS_SIGNUP h2 in
        let h4 :=
          match latestAuth with
          | Some a =>
              if auth_isAuthenticated a
              then writeSuccessMessage SUCCESS_AUTO_LOGIN h3 else h3
          | None => h3
          end in
        setTimeout FinishAuthCommandTimer h4
      else
        finishAuthCommand
          (writeErrorMessage
             (ErrText (orElse (message response) "Signup failed. Please try again."))
             h2)
  | Rejected error => processFailed error h
  end.

(** processSignup(formData) up to its [await]. When the data fails the
    checks the command is finished on the spot; otherwise the store's
    signup action is started. The second component is the rejection that
    the API client raised before sending, if it did. *)
Definition processSignupBegin (formData : FormData) (h : Handler)
  : Handler * option APIError :=
  let validation := validateSignupRequest formData in
  if negb (isValid validation) then
    (finishAuthCommand (writeErrorMessage (ErrList (errors validation)) h), None)
  else if negb (Form.validateConfirmation (formData !! "password")
                  (formData !! "confirmPassword")) then
    (finishAuthCommand (writeErrorMessage (ErrText PASSWORD_MISMATCH) h), None)
  else
    let h1 := startLoadingIndicator "Creating account" h in
    let '(p, rejection) := AuthContext.signupBegin formData (provider h1) in
    (setAwaiting (Some PendingSignup) (withProvider p h1), rejection).

(** The signup request settles as [net]. *)
Definition processSignupSettle (net : Outcome Response) (latestAuth : option Auth)
  (h : Handler) : Handler :=
  let '(p, settled) := AuthContext.signupSettle net (provider h) in
  processSignupAfter settled latestAuth (setAwaiting None (withProvider p h)).

(** processLogin(formData), split in the same way. *)
Definition processLoginAfter (settled : Outcome Response) (h : Handler) : Handler :=
  match settled with
  | Resolved response =>
      let h2 := stopLoadingIndicator h in
      if success response then
        setTimeout FinishAuthCommandTimer (writeSuccessMessage SUCCESS_LOGIN h2)
      else
        finishAuthCommand
          (writeErrorMessage
             (ErrText (orElse (message response) INVALID_CREDENTIALS)) h2)
  | Rejected error => processFailed error h
  end.

Definition processLoginBegin (formData : FormData) (h : Handler)
  : Handler * option APIError :=
  let validation := validateLoginRequest formData in
  if negb (isValid validation) then
    (finishAuthCommand (writeErrorMessage (ErrList (errors validation)) h), None)
  else
    let h1 := startLoadingIndicator "Authenticating" h in
    let '(p, rejection) := AuthContext.loginBegin formData (provider h1) in
    (setAwaiting (Some PendingLogin) (withProvider p h1), rejection).

Definition processLoginSettle (net : Outcome Response) (h : Handler) : Handler :=
  let '(p, settled) := AuthContext.loginSettle net (provider h) in
  processLoginAfter settled (setAwaiting None (withProvider p h)).

(** A rejection raised by the API client before sending reaches the
    [catch] block of the store action and then that of the handler. *)
Definition rejectedEarly (error : APIError) (h : Handler) : Handler :=
  let '(p, _) := AuthContext.afterAuthCall (Rejected error) (provider h) in
  processFailed error (setAwaiting None (withProvider p h)).

(** processSignup(formData) and processLogin(formData) run to completion. *)
Definition processSignup (formData : FormData) (net : Outcome Response)
  (latestAuth : option Auth) (h : Handler) : Handler :=
  match processSignupBegin formData h with
  | (h1, Some rejection) => rejectedEarly rejection h1
  | (h1, None) =>
      match awaiting h1 with
      | Some _ => processSignupSettle net latestAuth h1
      | None => h1
      end
  end.

Definition processLogin (formData : FormData) (net : Outcome Response)
  (h : Handler) : Handler :=
  match processLoginBegin formData h with
  | (h1, Some rejection) => rejectedEarly rejection h1
  | (h1, None) =>
      match awaiting h1 with
      | Some _ => processLoginSettle net h1
      | None => h1
      end
  end.

(** The closures given to [formHandler.start]: seen from the form,
    [processSignup]/[processLogin] stop the form themselves when the data
    fails the checks and return otherwise, and [cancelAuthCommand] always
    stops it. *)
Definition signupCallback (formData : FormData) : Form.Behaviour :=
  if negb (isValid (validateSignupRequest formData))
     || negb (Form.validateConfirmation (formData !! "password")
                (formData !! "confirmPassword"))
  then Form.StopsForm else Form.Returns.

Definition loginCallback (formData : FormData) : Form.Behaviour :=
  if negb (isValid (validateLoginRequest formData)) then Form.StopsForm
  else Form.Returns.

Definition startForm (fs : list Form.Field) (cb : FormData -> Form.Behaviour)
  (h : Handler) : Handler :=
  onForm (fun w => fst (Form.start fs (Some cb) (Some Form.StopsForm) w)) h.

(** handleSignupCommand(); [auth] is what [getAuth()] returns. *)
Definition handleSignupCommand (auth : option Auth) (h : Handler) : Handler :=
  if isProcessing h then
    displayStateMessage "Authentication in progress. Please wait..." "warning" h
  else if bool_decide (auth_isAuthenticated <$> auth = Some true) then
    displayStateMessage "You are already logged in. Please logout first." "warning" h
  else
    let h := setTerminalProcessing "signup" h in
    let h := writeToTerminal "Creating new account..." true h in
    let h := writeToTerminal "" true h in
    startForm Form.createSignupFields signupCallback h.

(** handleLoginCommand() *)
Definition handleLoginCommand (auth : option Auth) (h : Handler) : Handler :=
  if isProcessing h then
    displayStateMessage "Authentication in progress. Please wait..." "warning" h
  else if bool_decide (auth_isAuthenticated <$> auth = Some true) then
    displayStateMessage "You are already logged in." "warning" h
  else
    let h := setTerminalProcessing "login" h in
    let h := writeToTerminal "Login to your account..." true h in
    let h := writeToTerminal "" true h in
    startForm Form.createLoginFields loginCallback h.

(** handleLogoutCommand() up to its [await]. *)
Definition handleLogoutCommand (auth : option Auth) (h : Handler) : Handler :=
  if isProcessing h then
    displayStateMessage "Authentication in progress. Please wait..." "warning" h
  else if negb (bool_decide (is_Some (Prompt.promptUser auth))) then
    displayStateMessage "You are not logged in." "warning" h
  else
    let h := startLoadingIndicator "Logging out" (setTerminalProcessing "logout" h) in
    setAwaiting (Some PendingLogout) (withProvider (logoutBegin (provider h)) h).


(** Running the closure behind a client callback that the form invoked:
    [cancelAuthCommand] for [onCancel], and for [onComplete] the
    synchronous part of [processSignup] or [processLogin], whichever the
    form was started with by the command in progress. *)
Definition deliver (e : Form.Fired) (h : Handler) : Handler :=
  match e with
  | Form.FiredCancel => cancelAuthCommand h
  | Form.FiredComplete formData =>
      let begun :=
        if bool_decide (currentCommand h = Some "signup")
        then processSignupBegin formData h
        else if bool_decide (currentCommand h = Some "login")
        then processLoginBegin formData h
        else (h, None) in
      match begun with
      | (h1, Some rejection) => rejectedEarly rejection h1
      | (h1, None) => h1
      end
  end.

(** A method of the form is run and the callbacks it invoked are
    delivered. *)
Definition callForm {A} (m : Form.M A) (h : Handler) : Handler * Form.Completion A :=
  let before := List.length (Form.fired (formHandler h)) in
  let '(w, c) := m (formHandler h) in
  (foldl (fun h' e => deliver e h') (onForm (fun _ => w) h)
     (drop before (Form.fired w)), c).

(** handleInput(data) *)
Definition handleInput (data : string) (h : Handler) : Handler * Form.Completion bool :=
  if negb (isProcessing h) then (h, Form.Ok false)
  else if Form.isFormActive (Form.form (formHandler h))
  then callForm (Form.handleInput data) h
  else (h, Form.Ok false).

(** handleRegularFieldComplete(value) *)
Definition handleRegularFieldComplete (value : string) (h : Handler)
  : Handler * Form.Completion unit :=
  if isProcessing h && Form.isFormActive (Form.form (formHandler h))
  then callForm (Form.handleRegularFieldComplete value) h
  else (h, Form.Ok tt).

Definition isAuthProcessing (h : Handler) : bool := isProcessing h.

Definition canAcceptCommands (h : Handler) : bool :=
  negb (isProcessing h) && negb (Form.isFormActive (Form.form (formHandler h))).

Definition new (p : Provider) : Handler :=
  mkHandler Form.initialWorld false None None [] [] None p.

(** The text written to the shared terminal so far. *)
Definition output (h : Handler) : list Term.Op := Form.out (formHandler h).

(** The part of [getAuthCommandsHelp] that pads the command name. *)
Definition padEnd (n : nat) (s : string) : string :=
  s ++ str (replicate (n - String.length s) " "%char).

Definition authCommands : list (string * string) :=
  [ ("antec signup", "Create a new account");
    ("antec login", "Login to your account");
    ("antec logout", "Logout from your account") ].

Definition getAuthCommandsHelp : string :=
  join LF (map (fun '(command, description) => padEnd 15 command ++ " - " ++ description)
             authCommands).

End AuthCmd.

(** ** src/components/TerminalPortfolio.jsx: the dispatcher without accounts *)
Module Legacy.
Import JS Term.

(** The refs and state of the component that the input handler touches.
    Re-mounting of the xterm instance by React is not modelled. *)
Record Terminal : Type := mkTerminal {
  terminalReady : bool;
  currentLine : string;
  commandHistory : list string;
  historyIndex : Z;
  currentTheme : string;
  screen : list Op;
  opened : list string
}.

Definition initial : Terminal := mkTerminal false "" [] (-1) "dark" [] [].

Definition themeNames : list string :=
  ["dark"; "light"; "blue-matrix"; "espresso"; "green-goblin"; "ubuntu"].

(** [themes[name]] is truthy: [name] is one of the themes, or a member
    that the [themes] object inherits from Object.prototype. *)
Definition hasTheme (name : string) : bool :=
  bool_decide (name ∈ themeNames) || bool_decide (name ∈ ObjectPrototype.members).

Definition emit (o : Op) (t : Terminal) : Terminal :=
  mkTerminal (terminalReady t) (currentLine t) (commandHistory t) (historyIndex t)
    (currentTheme t) (screen t ++ [o])%list (opened t).

Definition setLine (s : string) (t : Terminal) : Terminal :=
  mkTerminal (terminalReady t) s (commandHistory t) (historyIndex t)
    (currentTheme t) (screen t) (opened t).

Definition setIndex (i : Z) (t : Terminal) : Terminal :=
  mkTerminal (terminalReady t) (currentLine t) (commandHistory t) i
    (currentTheme t) (screen t) (opened t).

Definition pushHistory (cmd : string) (t : Terminal) : Terminal :=
  mkTerminal (terminalReady t) (currentLine t) (commandHistory t ++ [cmd])%list
    (historyIndex t) (currentTheme t) (screen t) (opened t).

Definition windowOpen (url : string) (t : Terminal) : Terminal :=
  mkTerminal (terminalReady t) (currentLine t) (commandHistory t) (historyIndex t)
    (currentTheme t) (screen t) (opened t ++ [url])%list.

Definition setCurrentTheme (n : string) (t : Terminal) : Terminal :=
  mkTerminal (terminalReady t) (currentLine t) (commandHistory t) (historyIndex t)
    n (screen t) (opened t).

Definition setReady (t : Terminal) : Terminal :=
  mkTerminal true (currentLine t) (commandHistory t) (historyIndex t)
    (currentTheme t) (screen t) (opened t).

(** writeToTerminal(text, newLine = true) *)
Definition writeToTerminal (text : string) (newLine : bool) (t : Terminal) : Terminal :=
  emit (Write (text ++ (if newLine then CRLF else ""))) t.

Definition promptText : string :=
  ESC ++ "[38;2;155;124;255mguest@antec" ++ ESC ++ "[0m:" ++ ESC
  ++ "[38;2;139;148;158m~" ++ ESC ++ "[0m" ++ ESC ++ "[38;2;139;148;158m$"
  ++ ESC ++ "[0m ".

(** showPrompt() *)
Definition showPrompt (t : Terminal) : Terminal := writeToTerminal promptText false t.

Definition helpText : string :=
  lines [
    "about        - about Antik Mondal";
    "clear        - clear the terminal";
    "echo         - print out anything";
    "education    - my education background";
    "email        - send an email to me";
    "gui          - go to my portfolio in GUI";
    "help         - check available commands";
    "history      - view command history";
    "projects     - view projects that I've coded";
    "pwd          - print current working directory";
    "socials      - check out my social accounts";
    "themes       - check available themes";
    "whoami       - about current user";
    "";
    "Tab or Ctrl + i => autocompletes the command";
    "Up Arrow => go back to previous command";
    "Ctrl + l => clear the terminal" ].

Definition aboutText : string :=
  lines [
    "Hi, my name is Antik Mondal!";
    "";
    "I'm a full-stack developer based in India.";
    "I am passionate about writing codes and";
    "developing web applications to solve real-life challenges." ].

Definition educationText : string :=
  lines [
    "Here is my education background!";
    "";
    "B.Tech (Computer Science)";
    "Newton School of Technology, Rishihood University | 2024 - 2028";
    "";
    "Higher Secondary Education";
    "Bankura Banga Vidyalaya | 2022 - 2024" ].

Definition projectsText : string :=
  lines [
    DQ ++ "Talk is cheap. Show me the code" ++ DQ ++ "? I got you.";
    "Here are some of my projects you shouldn't miss";
    "";
    "1. ANTEC Terminal Portfolio";
    "   My personal terminal-style portfolio where I showcase";
    "   my projects and skills.";
    "";
    "2. SnehoAyu (mHealth Platform)";
    "   A mobile-first health application designed to support mothers";
    "   of preterm infants through post-NICU care and home-based newborn monitoring.";
    "";
    "3. Authra (Parcel Management System)";
    "   A smart, paperless parcel management system for universities ";
    "   and workplaces with secure logging, notifications, and pickup tracking.";
    "";
    "";
    "Usage: projects go <project-no>";
    "eg: projects go 1" ].

Definition socialsText : string :=
  lines [
    "Here are my social links";
    "";
    "1. GitHub    - https://github.com/antik1108";
    "2. LinkedIn  - https://www.linkedin.com/in/antik-t30a04m/";
    "3. Twitter   - https://x.com/Antik_30";
    "4. Instagram - https://www.instagram.com/__.vi0letshadow._/";
    "";
    "Usage: socials go <social-no>";
    "eg: socials go 1" ].

Definition themesText : string :=
  lines [
    "dark light blue-matrix espresso green-goblin ubuntu";
    "";
    "Usage: themes set <theme-name>";
    "eg: themes set ubuntu" ].

Definition projectLinks : list (string * string) :=
  [ ("ANTEC Terminal Portfolio", "https://github.com/antik1108/Terminal-Portfolio-ANTEC");
    ("SnehoAyu (baby-health platform)", "https://github.com/antik1108/SnehoAyu");
    ("Authra (Parcel Management System)", "https://github.com/antik1108/Authra") ].

Definition socialLinks : list (string * string) :=
  [ ("GitHub", "https://github.com/antik1108");
    ("LinkedIn", "https://www.linkedin.com/in/antik-t30a04m/");
    ("Twitter", "https://x.com/Antik_30");
    ("Instagram", "https://www.instagram.com/__.vi0letshadow._/") ].

(** The body shared by 'projects go' and 'socials go': the output text
    and the page to open. *)
Definition goTo (kind : string) (table : list (string * string)) (hint : string)
  (args : list string) : string * option string :=
  let num := parseInt (head args) in
  let hit :=
    match num with
    | Some z =>
        if (1 <=? z)%Z && (z <=? Z.of_nat (List.length table))%Z
        then table !! Z.to_nat (z - 1) else None
    | None => None
    end in
  match hit with
  | Some (nm, url) => ("Opening " ++ nm ++ "...", Some url)
  | None => (kind ++ " " ++ numToString num ++ " not found. Use '" ++ hint
             ++ "' to see available " ++ hint ++ ".", None)
  end.

Definition opening (r : string * option string) (t : Terminal) : string * Terminal :=
  match r with
  | (output, Some url) => (output, windowOpen url t)
  | (output, None) => (output, t)
  end.

(** A command handler: arguments and component state to output text. *)
Definition Handler : Type := list string -> Terminal -> string * Terminal.

Definition const (s : string) : Handler := fun _ t => (s, t).

(** The [commands] object, in property order. *)
Definition commands : list (string * Handler) :=
  [ ("welcome", const "WELCOME");
    ("help", const helpText);
    ("about", const aboutText);
    ("clear", const "CLEAR");
    ("echo", fun args t => (join " " args, t));
    ("education", const educationText);
    ("email", const "antik.mondal2024@nst.rishihood.edu.in");
    ("gui", fun _ t => ("Opening GUI version...", windowOpen "https://antik.dev" t));
    ("history", fun _ t =>
       (if Nat.eqb (List.length (commandHistory t)) 0 then "No commands in history."
        else join LF (imap (fun i cmd => natToString (i + 1) ++ "  " ++ cmd)
                        (commandHistory t)), t));
    ("projects", const projectsText);
    ("pwd", const "/home/antik");
    ("socials", const socialsText);
    ("themes", const themesText);
    ("whoami", const "guest");
    ("projects go", fun args => opening (goTo "Project" projectLinks "projects" args));
    ("socials go", fun args => opening (goTo "Social" socialLinks "socials" args));
    ("themes set", fun args t =>
       let themeName := default "undefined" (head args) in
       if hasTheme themeName
       then ("Theme set to " ++ themeName, setCurrentTheme themeName t)
       else ("Theme '" ++ themeName ++ "' not found. Use 'themes' to see available themes.", t)) ].

(** The own property [key] of the table. *)
Fixpoint ownProperty (key : string) (tbl : list (string * Handler)) : option Handler :=
  match tbl with
  | [] => None
  | (k, h) :: tbl' => if String.eqb k key then Some h else ownProperty key tbl'
  end.

(** What [commands[key]] can be: a handler of the table, or a member that
    the table inherits from Object.prototype. *)
Inductive Member : Type :=
| Own (h : Handler)
| Inherited (name : string).

(** [commands[key]]; every value that it finds is truthy. *)
Definition lookupCommand (key : string) (tbl : list (string * Handler)) : option Member :=
  match ownProperty key tbl with
  | Some h => Some (Own h)
  | None =>
      if bool_decide (key ∈ ObjectPrototype.members) then Some (Inherited key) else None
  end.

(** [commands[key](args)]: the value of the call ([None] when it throws)
    and the state it leaves. *)
Definition callMember (m : Member) (args : list string) (t : Terminal)
  : option ObjectPrototype.Value * Terminal :=
  match m with
  | Own h => let '(output, t) := h args t in (Some (ObjectPrototype.Str output), t)
  | Inherited name => (ObjectPrototype.call (map fst commands) name args, t)
  end.

Definition asciiLogo : string :=
  lines [
    "";
    " █████╗ ███╗   ██╗████████╗███████╗ ██████╗";
    "██╔══██╗████╗  ██║╚══██╔══╝██╔════╝██╔════╝";
    "███████║██╔██╗ ██║   ██║   █████╗  ██║     ";
    "██╔══██║██║╚██╗██║   ██║   ██╔══╝  ██║     ";
    "██║  ██║██║ ╚████║   ██║   ███████╗╚██████╗";
    "╚═╝  ╚═╝╚═╝  ╚═══╝   ╚═╝   ╚══════╝ ╚═════╝" ].

Definition repoLink : string :=
  "This project's source code can be found in this project's " ++ ESC
  ++ "[38;2;6;182;212m" ++ ESC
  ++ "]8;;https://github.com/antik1108/Terminal-Portfolio-ANTEC" ++ ESC
  ++ chr 92 ++ "GitHub repo" ++ ESC ++ "]8;;" ++ ESC ++ chr 92 ++ ESC ++ "[0m.".

(** showWelcome() *)
Definition showWelcome (t : Terminal) : Terminal :=
  let t := emit Clear t in
  let t := writeToTerminal (ESC ++ "[38;2;155;124;255m" ++ asciiLogo ++ ESC ++ "[0m") true t in
  let t := writeToTerminal "" true t in
  let t := writeToTerminal "Welcome to my terminal portfolio. (Version 1.3.1)" true t in
  let t := writeToTerminal "----" true t in
  let t := writeToTerminal "" true t in
  let t := writeToTerminal repoLink true t in
  let t := writeToTerminal "----" true t in
  let t := writeToTerminal "" true t in
  let t := writeToTerminal "For a list of available commands, type 'help'." true t in
  let t := writeToTerminal "" true t in
  showPrompt t.

(** startPortfolio() *)
Definition startPortfolio (t : Terminal) : Terminal := setReady (showWelcome t).

(** processCommand(cmd): the state it leaves, and [true] when it returns,
    [false] when the call of the command throws (the history has the
    command by then, nothing has been written). *)
Definition processCommandM (cmd : string) (t : Terminal) : Terminal * bool :=
  let trimmedCmd := trim cmd in
  if String.eqb trimmedCmd "" then (showPrompt t, true)
  else
    let t := pushHistory cmd t in
    let t := setIndex (Z.of_nat (List.length (commandHistory t))) t in
    let parts := splitSpace trimmedCmd in
    let baseCmd := default "" (head parts) in
    let args := drop 1 parts in
    let compound :=
      match parts with
      | p0 :: p1 :: _ => lookupCommand (p0 ++ " " ++ p1) commands
      | _ => None
      end in
    match compound with
    | Some member =>
        match callMember member (drop 2 parts) t with
        | (None, t) => (t, false)
        | (Some output, t) =>
            if ObjectPrototype.strictEquals output "CLEAR"
            then (showPrompt (emit Clear t), true)
            else (showPrompt (writeToTerminal (ObjectPrototype.toText output) true t), true)
        end
    | None =>
        match lookupCommand baseCmd commands with
        | Some member =>
            match callMember member args t with
            | (None, t) => (t, false)
            | (Some output, t) =>
                if ObjectPrototype.strictEquals output "CLEAR"
                then (showPrompt (emit Clear t), true)
                else if ObjectPrototype.strictEquals output "WELCOME"
                then (showWelcome t, true)
                else (showPrompt (writeToTerminal (ObjectPrototype.toText output) true t),
                      true)
            end
        | None =>
            (showPrompt (writeToTerminal ("Command not found: " ++ trimmedCmd) true t), true)
        end
    end.

(** The state that processCommand(cmd) leaves, whether it returns or throws. *)
Definition processCommand (cmd : string) (t : Terminal) : Terminal :=
  fst (processCommandM cmd t).

(** [commandHistory.current[i]]; the dispatcher only reads positions
    that exist (see [recall_in_range]). *)
Definition recall (i : Z) (t : Terminal) : string :=
  default "" (commandHistory t !! Z.to_nat i).

(** Object.keys(commands).filter(cmd => !cmd.includes(' ')) *)
Definition availableCommands : list string :=
  filter (fun cmd => negb (includes cmd " ")) (map fst commands).

(** availableCommands.filter(cmd => cmd.startsWith(line.toLowerCase())) *)
Definition matchesFor (line : string) : list string :=
  filter (fun cmd => startsWith cmd (toLowerCase line)) availableCommands.

(** The callback registered with [terminal.onData]. An exception that
    escapes it leaves the state as it was when it was thrown: after a
    command whose call throws, the line is not cleared. *)
Definition onData (data : string) (t : Terminal) : Terminal :=
  if negb (terminalReady t) then t
  else
    match charCodeAt0 data with
    | None => t
    | Some code =>
        if Nat.eqb code 13 then
          let t := writeToTerminal "" true t in
          match processCommandM (currentLine t) t with
          | (t, true) => setLine "" t
          | (t, false) => t
          end
        else if Nat.eqb code 127 then
          if Nat.ltb 0 (String.length (currentLine t)) then
            emit (Write (BS ++ " " ++ BS)) (setLine (dropLast (currentLine t)) t)
          else t
        else if Nat.eqb code 9 then
          match matchesFor (currentLine t) with
          | [m] =>
              let completion := sliceFrom (String.length (currentLine t)) m in
              emit (Write completion) (setLine (currentLine t ++ completion) t)
          | _ => t
          end
        else if Nat.eqb code 12 then
          setLine "" (showPrompt (emit Clear t))
        else if Nat.eqb code 27 then
          let seq := sliceFrom 1 data in
          if String.eqb seq "[A" then
            if (0 <? historyIndex t)%Z then
              let t := showPrompt (emit (Write (CR ++ ESC ++ "[K")) t) in
              let t := setIndex (historyIndex t - 1) t in
              let t := setLine (recall (historyIndex t) t) t in
              emit (Write (currentLine t)) t
            else t
          else if String.eqb seq "[B" then
            if (historyIndex t <? Z.of_nat (List.length (commandHistory t)) - 1)%Z then
              let t := showPrompt (emit (Write (CR ++ ESC ++ "[K")) t) in
              let t := setIndex (historyIndex t + 1) t in
              let t := setLine (recall (historyIndex t) t) t in
              emit (Write (currentLine t)) t
            else if (historyIndex t =? Z.of_nat (List.length (commandHistory t)) - 1)%Z then
              let t := showPrompt (emit (Write (CR ++ ESC ++ "[K")) t) in
              setLine "" (setIndex (Z.of_nat (List.length (commandHistory t))) t)
            else t
          else t
        else if Nat.leb 32 code && Nat.leb code 126 then
          emit (Write data) (setLine (currentLine t ++ data) t)
        else t
    end.

(** Feeding a sequence of input events, oldest first. *)
Definition feed (inputs : list string) (t : Terminal) : Terminal :=
  foldl (fun t d => onData d t) t inputs.

(** Typing a command: one event per character, then Enter. *)
Definition typed (cmd : string) : list string :=
  (map (fun c => String c EmptyString) (chars cmd) ++ [CR])%list.

(** The range of the history cursor. *)
Definition indexInRange (t : Terminal) : Prop :=
  (-1 <= historyIndex t <= Z.of_nat (List.length (commandHistory t)))%Z.

Definition keyUp : string := ESC ++ "[A".
Definition keyDown : string := ESC ++ "[B".
Definition keyTab : string := chr 9.

End Legacy.

(** ** apps/web TerminalPortfolio.jsx: the dispatcher with accounts *)
Module Web.
Import JS Term Shared AuthClient AuthContext.

(** The refs of the component. [authRef] is [authRef.current], the
    context value that [getAuth()] returns; [authContext] is the context
    value that the installed closures captured. The handler carries the
    shared terminal and the session store. The handler and the prompt
    manager exist from the moment the input callback is registered. *)
Record Terminal : Type := mkTerminal {
  terminalReady : bool;
  currentLine : string;
  commandHistory : list string;
  historyIndex : Z;
  currentTheme : string;
  opened : list string;
  authRef : option Auth;
  authContext : Auth;
  authHandler : AuthCmd.Handler
}.

Definition onHandler (f : AuthCmd.Handler -> AuthCmd.Handler) (t : Terminal) : Terminal :=
  mkTerminal (terminalReady t) (currentLine t) (commandHistory t) (historyIndex t)
    (currentTheme t) (opened t) (authRef t) (authContext t) (f (authHandler t)).

Definition setLine (s : string) (t : Terminal) : Terminal :=
  mkTerminal (terminalReady t) s (commandHistory t) (historyIndex t)
    (currentTheme t) (opened t) (authRef t) (authContext t) (authHandler t).

Definition setIndex (i : Z) (t : Terminal) : Terminal :=
  mkTerminal (terminalReady t) (currentLine t) (commandHistory t) i
    (currentTheme t) (opened t) (authRef t) (authContext t) (authHandler t).

Definition pushHistory (cmd : string) (t : Terminal) : Terminal :=
  mkTerminal (terminalReady t) (currentLine t) (commandHistory t ++ [cmd])%list
    (historyIndex t) (currentTheme t) (opened t) (authRef t) (authContext t)
    (authHandler t).

Definition windowOpen (url : string) (t : Terminal) : Terminal :=
  mkTerminal (terminalReady t) (currentLine t) (commandHistory t) (historyIndex t)
    (currentTheme t) (opened t ++ [url])%list (authRef t) (authContext t)
    (authHandler t).

Definition setCurrentTheme (n : string) (t : Terminal) : Terminal :=
  mkTerminal (terminalReady t) (currentLine t) (commandHistory t) (historyIndex t)
    n (opened t) (authRef t) (authContext t) (authHandler t).

Definition setReady (t : Terminal) : Terminal :=
  mkTerminal true (currentLine t) (commandHistory t) (historyIndex t)
    (currentTheme t) (opened t) (authRef t) (authContext t) (authHandler t).

(** What has been written to the terminal. *)
Definition screen (t : Terminal) : list Op := AuthCmd.output (authHandler t).

Definition termWrite (s : string) : Terminal -> Terminal :=
  onHandler (AuthCmd.termWrite s).

Definition termClear : Terminal -> Terminal := onHandler AuthCmd.termClear.

Definition writeToTerminal (text : string) (newLine : bool) : Terminal -> Terminal :=
  termWrite (text ++ (if newLine then CRLF else "")).

(** showPrompt(), through the prompt manager. *)
Definition showPrompt (t : Terminal) : Terminal :=
  termWrite (Prompt.getCurrentPrompt (authRef t)) t.

Definition isAuthProcessing (t : Terminal) : bool :=
  AuthCmd.isAuthProcessing (authHandler t).

(** [auth.getCurrentUser()] of a context value: its user, else the
    stored one. *)
Definition getCurrentUser (a : Auth) (t : Terminal) : option User :=
  match auth_user a with
  | Some u => Some u
  | None => getStoredUser (local (AuthCmd.provider (authHandler t)))
  end.

Definition helpText (t : Terminal) : string :=
  lines [
    "about        - about Antik Mondal";
    "clear        - clear the terminal";
    "echo         - print out anything";
    "education    - my education background";
    "email        - send an email to me";
    "github       - view my GitHub profile";
    "help         - check available commands";
    "history      - view command history";
    "projects     - view projects that I've coded";
    "pwd          - print current working directory";
    "socials      - check out my social accounts";
    "themes       - check available themes";
    "whoami       - about current user";
    "";
    "Authentication Commands:";
    AuthCmd.getAuthCommandsHelp;
    "";
    "Tab or Ctrl + i => autocompletes the command";
    "Up Arrow => go back to previous command";
    "Ctrl + l => clear the terminal" ]
  ++ (if isAuthProcessing t then
        LF ++ LF ++ ESC ++ "[33m⚠ Authentication in progress - some commands are disabled"
        ++ ESC ++ "[0m" ++ LF ++ "Ctrl + C => cancel current authentication operation"
      else "").

Definition aboutText : string :=
  lines [
    "Hi, I’m Antik Mondal.";
    "";
    "I’m an CS engineer and a problem solver.";
    "I like building systems and working close to the core.";
    "";
    "I’m building my own startups, mainly focused on healthcare,";
    "where I try to solve real problems using technology.";
    "";
    "I enjoy writing code, designing systems,";
    "and turning ideas into working products.";
    "" ].

Definition projectsText : string :=
  lines [
    DQ ++ "Talk is cheap. Show me the code" ++ DQ ++ "? I got you.";
    "Here are some of my projects you shouldn't miss";
    "";
    "1. ANTEC Terminal Portfolio";
    "   My personal terminal-style portfolio where I showcase";
    "   my projects and skills.";
    "";
    "2. SnehoAyu (mHealth Platform)";
    "   A mobile-first health application designed to support mothers";
    "   of preterm infants through post-NICU care and home-based newborn monitoring.";
    "";
    "3. Authra (Parcel Management System)";
    "   A smart, paperless parcel management system for universities ";
    "   and workplaces with secure logging, notifications, and pickup tracking.";
    "";
    "Usage: projects go <project-no>";
    "eg: projects go 1";
    "";
    "These are selected projects.";
    "More work and experiments live on GitHub.";
    "Type: github" ].

Definition opening (r : string * option string) (t : Terminal) : string * Terminal :=
  match r with
  | (output, Some url) => (output, windowOpen url t)
  | (output, None) => (output, t)
  end.

Definition Handler : Type := list string -> Terminal -> string * Terminal.

Definition const (s : string) : Handler := fun _ t => (s, t).

(** The [commands] object, in property order. *)
Definition commands : list (string * Handler) :=
  [ ("welcome", const "WELCOME");
    ("help", fun _ t => (helpText t, t));
    ("about", const aboutText);
    ("clear", const "CLEAR");
    ("echo", fun args t => (join " " args, t));
    ("education", const Legacy.educationText);
    ("email", const "antik.mondal2024@nst.rishihood.edu.in");
    ("gui", fun _ t => ("Opening GUI version...", windowOpen "https://antik.dev" t));
    ("history", fun _ t =>
       (if Nat.eqb (List.length (commandHistory t)) 0 then "No commands in history."
        else join LF (imap (fun i cmd => natToString (i + 1) ++ "  " ++ cmd)
                        (commandHistory t)), t));
    ("projects", const projectsText);
    ("pwd", const "/home/antik");
    ("socials", const Legacy.socialsText);
    ("themes", const Legacy.themesText);
    ("whoami", fun _ t =>
       let auth := default (authContext t) (authRef t) in
       (match getCurrentUser auth t with
        | Some u => if truthy (Some (username u)) then username u else "guest"
        | None => "guest"
        end, t));
    ("github", const "GitHub: https://github.com/antik1108");
    ("projects go", fun args =>
       opening (Legacy.goTo "Project" Legacy.projectLinks "projects" args));
    ("socials go", fun args =>
       opening (Legacy.goTo "Social" Legacy.socialLinks "socials" args));
    ("themes set", fun args t =>
       let themeName := default "undefined" (head args) in
       if Legacy.hasTheme themeName
       then ("Theme set to " ++ themeName, setCurrentTheme themeName t)
       else ("Theme '" ++ themeName ++ "' not found. Use 'themes' to see available themes.", t));
    ("antec signup", fun _ t =>
       ("AUTH_COMMAND", onHandler (AuthCmd.handleSignupCommand (authRef t)) t));
    ("antec login", fun _ t =>
       ("AUTH_COMMAND", onHandler (AuthCmd.handleLoginCommand (authRef t)) t));
    ("antec logout", fun _ t =>
       match getCurrentUser (authContext t) t with
       | None => ("You are not logged in.", t)
       | Some _ =>
           ("AUTH_COMMAND", onHandler (AuthCmd.handleLogoutCommand (authRef t)) t)
       end) ].

(** The own property [key] of the table. *)
Fixpoint ownProperty (key : string) (tbl : list (string * Handler)) : option Handler :=
  match tbl with
  | [] => None
  | (k, h) :: tbl' => if String.eqb k key then Some h else ownProperty key tbl'
  end.

(** What [commands[key]] can be: a handler of the table, or a member that
    the table inherits from Object.prototype. *)
Inductive Member : Type :=
| Own (h : Handler)
| Inherited (name : string).

(** [commands[key]]; every value that it finds is truthy. *)
Definition lookupCommand (key : string) (tbl : list (string * Handler)) : option Member :=
  match ownProperty key tbl with
  | Some h => Some (Own h)
  | None =>
      if bool_decide (key ∈ ObjectPrototype.members) then Some (Inherited key) else None
  end.

(** [commands[key](args)]: the value of the call ([None] when it throws)
    and the state it leaves. *)
Definition callMember (m : Member) (args : list string) (t : Terminal)
  : option ObjectPrototype.Value * Terminal :=
  match m with
  | Own h => let '(output, t) := h args t in (Some (ObjectPrototype.Str output), t)
  | Inherited name => (ObjectPrototype.call (map fst commands) name args, t)
  end.

(** showWelcome() *)
Definition showWelcome (t : Terminal) : Terminal :=
  let t := termClear t in
  let t := writeToTerminal (ESC ++ "[38;2;155;124;255m" ++ Legacy.asciiLogo ++ ESC ++ "[0m") true t in
  let t := writeToTerminal "" true t in
  let t := writeToTerminal "Welcome to my terminal portfolio. (Version 2.0.0)" true t in
  let t := writeToTerminal "----" true t in
  let t := writeToTerminal "" true t in
  let t := writeToTerminal Legacy.repoLink true t in
  let t := writeToTerminal "----" true t in
  let t := writeToTerminal "" true t in
  let t := writeToTerminal "For a list of available commands, type 'help'." true t in
  let t := writeToTerminal "" true t in
  showPrompt t.

Definition startPortfolio (t : Terminal) : Terminal := setReady (showWelcome t).

(** What the dispatcher does with the value of the call. *)
Definition finishCommand (single : bool) (output : ObjectPrototype.Value) (t : Terminal)
  : Terminal :=
  if ObjectPrototype.strictEquals output "CLEAR" then showPrompt (termClear t)
  else if single && ObjectPrototype.strictEquals output "WELCOME" then showWelcome t
  else if ObjectPrototype.strictEquals output "AUTH_COMMAND" then t
  else showPrompt (writeToTerminal (ObjectPrototype.toText output) true t).

(** processCommand(cmd): the state it leaves, and [true] when it returns,
    [false] when the call of the command throws (the history has the
    command by then, nothing has been written). *)
Definition processCommandM (cmd : string) (t : Terminal) : Terminal * bool :=
  let trimmedCmd := trim cmd in
  if String.eqb trimmedCmd "" then (showPrompt t, true)
  else if isAuthProcessing t
          && negb (bool_decide
                     (toLowerCase (default "" (head (splitSpace trimmedCmd)))
                        ∈ ["help"; "clear"]))
          && negb (startsWith trimmedCmd "antec")
  then
    (showPrompt
       (onHandler
          (AuthCmd.displayStateMessage
             "Authentication in progress. Please complete the current operation or use Ctrl+C to cancel."
             "warning") t), true)
  else
    let t := pushHistory cmd t in
    let t := setIndex (Z.of_nat (List.length (commandHistory t))) t in
    let parts := splitSpace trimmedCmd in
    let baseCmd := default "" (head parts) in
    let args := drop 1 parts in
    let compound :=
      match parts with
      | p0 :: p1 :: _ => lookupCommand (p0 ++ " " ++ p1) commands
      | _ => None
      end in
    match compound with
    | Some member =>
        match callMember member (drop 2 parts) t with
        | (None, t) => (t, false)
        | (Some output, t) => (finishCommand false output t, true)
        end
    | None =>
        match lookupCommand baseCmd commands with
        | Some member =>
            match callMember member args t with
            | (None, t) => (t, false)
            | (Some output, t) => (finishCommand true output t, true)
            end
        | None =>
            (showPrompt (writeToTerminal ("Command not found: " ++ trimmedCmd) true t), true)
        end
    end.

(** The state that processCommand(cmd) leaves, whether it returns or throws. *)
Definition processCommand (cmd : string) (t : Terminal) : Terminal :=
  fst (processCommandM cmd t).

(** [commandHistory.current[i]] *)
Definition recall (i : Z) (t : Terminal) : string :=
  default "" (commandHistory t !! Z.to_nat i).

(** Object.keys(commands).filter(cmd => !cmd.includes(' ')) *)
Definition availableCommands : list string :=
  filter (fun cmd => negb (includes cmd " ")) (map fst commands).

(** availableCommands.filter(cmd => cmd.startsWith(line.toLowerCase())) *)
Definition matchesFor (line : string) : list string :=
  filter (fun cmd => startsWith cmd (toLowerCase line)) availableCommands.

(** The Tab branch of the input callback. *)
Definition onTab (t : Terminal) : Terminal :=
  if isAuthProcessing t then
    onHandler
      (AuthCmd.displayStateMessage "Autocomplete disabled during authentication"
         "warning") t
  else
    match matchesFor (currentLine t) with
    | [] => t
    | [m] =>
        let completion := sliceFrom (String.length (currentLine t)) m in
        termWrite completion (setLine (currentLine t ++ completion) t)
    | matches =>
        let t := writeToTerminal "" true t in
        let t := writeToTerminal (join "  " matches) true t in
        let t := showPrompt t in
        termWrite (currentLine t) t
    end.

(** The arrow-key branch of the input callback. *)
Definition onEscape (data : string) (t : Terminal) : Terminal :=
  if isAuthProcessing t then t
  else
    let seq := sliceFrom 1 data in
    if String.eqb seq "[A" then
      if (0 <? historyIndex t)%Z then
        let t := showPrompt (termWrite (CR ++ ESC ++ "[K") t) in
        let t := setIndex (historyIndex t - 1) t in
        let t := setLine (recall (historyIndex t) t) t in
        termWrite (currentLine t) t
      else t
    else if String.eqb seq "[B" then
      if (historyIndex t <? Z.of_nat (List.length (commandHistory t)) - 1)%Z then
        let t := showPrompt (termWrite (CR ++ ESC ++ "[K") t) in
        let t := setIndex (historyIndex t + 1) t in
        let t := setLine (recall (historyIndex t) t) t in
        termWrite (currentLine t) t
      else if (historyIndex t =? Z.of_nat (List.length (commandHistory t)) - 1)%Z then
        let t := showPrompt (termWrite (CR ++ ESC ++ "[K") t) in
        setLine "" (setIndex (Z.of_nat (List.length (commandHistory t))) t)
      else t
    else t.

(** The Enter branch of the input callback. *)
Definition onEnter (t : Terminal) : Terminal :=
  let t := writeToTerminal "" true t in
  if isAuthProcessing t then
    match AuthCmd.handleRegularFieldComplete (currentLine t) (authHandler t) with
    | (h, Form.Ok _) => setLine "" (onHandler (fun _ => h) t)
    | (h, Form.Thrown) => onHandler (fun _ => h) t
    end
  else
    match processCommandM (currentLine t) t with
    | (t, true) => setLine "" t
    | (t, false) => t
    end.

(** The callback registered with [terminal.onData]. An exception that
    escapes it leaves the state as it was when it was thrown. *)
Definition onData (data : string) (t : Terminal) : Terminal :=
  if negb (terminalReady t) then t
  else
    match AuthCmd.handleInput data (authHandler t) with
    | (h, Form.Thrown) => onHandler (fun _ => h) t
    | (h, Form.Ok true) => onHandler (fun _ => h) t
    | (h, Form.Ok false) =>
        let t := onHandler (fun _ => h) t in
        match charCodeAt0 data with
        | None => t
        | Some code =>
            if Nat.eqb code 13 then onEnter t
            else if Nat.eqb code 127 then
              if Nat.ltb 0 (String.length (currentLine t)) then
                termWrite (BS ++ " " ++ BS) (setLine (dropLast (currentLine t)) t)
              else t
            else if Nat.eqb code 9 then onTab t
            else if Nat.eqb code 12 then setLine "" (showPrompt (termClear t))
            else if Nat.eqb code 3 then
              if isAuthProcessing t then
                setLine "" (onHandler AuthCmd.cancelAuthCommand t)
              else showPrompt (setLine "" (writeToTerminal "^C" true t))
            else if Nat.eqb code 27 then onEscape data t
            else if Nat.leb 32 code && Nat.leb code 126 then
              termWrite data (setLine (currentLine t ++ data) t)
            else t
        end
    end.

Definition feed (inputs : list string) (t : Terminal) : Terminal :=
  foldl (fun t d => onData d t) t inputs.

(** The component once mounted over a session store [p], before the
    welcome screen. *)
Definition mounted (p : Provider) : Terminal :=
  mkTerminal false "" [] (-1) "dark" [] (Some (value p)) (value p) (AuthCmd.new p).

End Web.

(** ** APIClient.request: how a finished [fetch] becomes a result or an APIError *)
Module ApiClient.
Import JS Shared AuthClient.

Definition UNAUTHORIZED : string := "Authentication required".
Definition FORBIDDEN : string := "Access denied".
Definition NETWORK_ERROR : string := "Connection error. Please try again.".
Definition CONNECTION_TIMEOUT : string :=
  "Connection timed out. Please check your internet connection.".
Definition SERVICE_UNAVAILABLE : string :=
  "Service temporarily unavailable. Please try again later.".
Definition RATE_LIMITED : string :=
  "Too many requests. Please wait a moment and try again.".
Definition TOKEN_EXPIRED : string := "Your session has expired. Please log in again.".
Definition TOKEN_INVALID : string := "Invalid authentication token. Please log in again.".
Definition UNKNOWN_ERROR : string := "An unexpected error occurred. Please try again.".
Definition OPERATION_CANCELLED : string := "Operation cancelled by user".

(** The body of a response: the parsed JSON object, or [{ message: text }]
    for any other content type. *)
Record Body : Type := mkBody {
  b_success : bool;
  b_message : option string;
  b_code : option string;
  b_errors : option (list ValidationError);
  b_user : option User;
  b_token : option string
}.

(** What [await fetch(url, config)] and the reading of the body gave: a
    response with its status, or an exception with its name and message. *)
Inductive FetchResult : Type :=
| Responded : nat -> Body -> FetchResult
| Failed : string -> string -> FetchResult.

(** response.ok *)
Definition responseOk (status : nat) : bool :=
  Nat.leb 200 status && Nat.leb status 299.

(** [v || d] *)
Definition pick (v : option string) (d : string) : string :=
  if truthy v then default "" v else d.

(** request(endpoint, options) from the point where [fetch] has settled. *)
Definition request (fetched : FetchResult) : Outcome Response :=
  match fetched with
  | Responded status data =>
      if negb (responseOk status) then
        let errorMessage := pick (b_message data) "Request failed" in
        let errorCode := pick (b_code data) "REQUEST_FAILED" in
        let '(errorMessage, errorCode) :=
          if Nat.eqb status 400 then
            match b_errors data with
            | Some (e :: _) => (pick (ve_message e) errorMessage, errorCode)
            | _ => (errorMessage, errorCode)
            end
          else if Nat.eqb status 401 then (UNAUTHORIZED, "UNAUTHORIZED")
          else if Nat.eqb status 403 then (FORBIDDEN, "FORBIDDEN")
          else if Nat.eqb status 404 then ("Resource not found", "NOT_FOUND")
          else if Nat.eqb status 409 then (errorMessage, errorCode)
          else if Nat.eqb status 429 then (RATE_LIMITED, "RATE_LIMITED")
          else if Nat.eqb status 503 then (SERVICE_UNAVAILABLE, "SERVICE_UNAVAILABLE")
          else (SERVER_ERROR, "SERVER_ERROR") in
        Rejected (mkAPIError errorMessage status errorCode (default [] (b_errors data)))
      else
        Resolved (mkResponse (b_success data) (b_message data) (b_user data)
                    (b_token data))
  | Failed name message =>
      if String.eqb name "TypeError" && includes message "fetch" then
        Rejected (mkAPIError NETWORK_ERROR 0 "NETWORK_ERROR" [])
      else if String.eqb name "TypeError" && includes message "timeout" then
        Rejected (mkAPIError CONNECTION_TIMEOUT 0 "CONNECTION_TIMEOUT" [])
      else if String.eqb name "AbortError" then
        Rejected (mkAPIError OPERATION_CANCELLED 0 "OPERATION_CANCELLED" [])
      else
        Rejected (mkAPIError (pick (Some message) UNKNOWN_ERROR) 0 "UNKNOWN_ERROR" [])
  end.

(** AuthClient.getCurrentUser() once [this.get('/auth/me')] settled as [net]. *)
Definition getCurrentUserSettle (net : Outcome Response) (st : Storage)
  : Outcome Response * Storage :=
  match net with
  | Resolved response => (Resolved response, st)
  | Rejected error =>
      if Nat.eqb (err_status error) 401 then
        if String.eqb (err_code error) "TokenExpiredError"
           || includes (err_message error) "expired"
        then (Rejected (mkAPIError TOKEN_EXPIRED (err_status error) "TOKEN_EXPIRED" []),
              clearAuthData st)
        else (Rejected (mkAPIError TOKEN_INVALID (err_status error) "TOKEN_INVALID" []),
              clearAuthData st)
      else (Rejected error, st)
  end.

(** getCurrentUser() over the request it makes. *)
Definition getCurrentUser (fetched : FetchResult) (st : Storage)
  : Outcome Response * Storage :=
  getCurrentUserSettle (request fetched) st.

End ApiClient.

(** ** AuthProvider's mount effect and the remaining accessors of the store *)
Module Session.
Import JS Shared AuthClient AuthContext ApiClient.

(** initializeAuth() up to its [await]; [None] when no token is stored and
    the effect does nothing. *)
Definition initializeBegin (p : Provider) : option Provider :=
  if isAuthenticated (local p)
  then Some (sending (mkNetCall EP_ME ∅) (dispatch (SET_LOADING true) p))
  else None.

Definition signedOut (p : Provider) : Provider :=
  dispatch LOGOUT (onStorage clearAuthData p).

(** The rest of initializeAuth() once [getCurrentUser()]'s request settled. *)
Definition initializeSettle (net : Outcome Response) (p : Provider) : Provider :=
  let '(o, st) := getCurrentUserSettle net (local p) in
  let p1 := onStorage (fun _ => st) p in
  match o with
  | Resolved response =>
      if success response && bool_decide (is_Some (user response))
      then dispatch (SET_USER (user response)) p1
      else signedOut p1
  | Rejected _ => signedOut p1
  end.

(** initializeAuth() run to completion. *)
Definition initializeAuth (net : Outcome Response) (p : Provider) : Provider :=
  match initializeBegin p with
  | Some p1 => initializeSettle net p1
  | None => p
  end.

(** getCurrentUser(): [state.user || authClient.getStoredUser()] *)
Definition getCurrentUser (p : Provider) : option User :=
  match st_user (state p) with
  | Some u => Some u
  | None => getStoredUser (local p)
  end.

(** isAuthenticated(): [state.isAuthenticated && !!state.user] *)
Definition isAuthenticated (p : Provider) : bool :=
  st_isAuthenticated (state p) && bool_decide (is_Some (st_user (state p))).

(** getToken() *)
Definition getToken (p : Provider) : option string := getStoredToken (local p).

(** The invariant of the reducer state: the flag says whether a user is
    attached, and the two settled phases agree with it. *)
Definition Consistent (s : AuthState) : Prop :=
  st_isAuthenticated s = bool_decide (is_Some (st_user s))
  /\ (st_authState s = AUTHENTICATED -> is_Some (st_user s))
  /\ (st_authState s = UNAUTHENTICATED -> st_user s = None).

(** A state in which no action is in flight and no error is shown. *)
Definition Settled (s : AuthState) : Prop :=
  st_isAuthenticated s = bool_decide (is_Some (st_user s))
  /\ st_loading s = false
  /\ st_error s = None
  /\ st_authState s = match st_user s with
                      | Some _ => AUTHENTICATED
                      | None => UNAUTHENTICATED
                      end.

End Session.

(** ** PromptManager as an object: the remembered prompt and the colours *)
Module PromptManager.
Import JS AuthClient AuthContext.

Record Colors : Type := mkColors {
  c_username : string;
  c_host : string;
  c_path : string;
  c_symbol : string;
  c_reset : string
}.

Definition defaultColors : Colors :=
  mkColors Prompt.colorUsername Prompt.colorHost Prompt.colorPath
    Prompt.colorSymbol Prompt.colorReset.

(** The argument of setPromptColors: any of the five keys may be absent. *)
Record ColorPatch : Type := mkColorPatch {
  p_username : option string;
  p_host : option string;
  p_path : option string;
  p_symbol : option string;
  p_reset : option string
}.

(** [{ ...promptColors, ...colors }] *)
Definition spread (c : Colors) (p : ColorPatch) : Colors :=
  mkColors (default (c_username c) (p_username p)) (default (c_host c) (p_host p))
    (default (c_path c) (p_path p)) (default (c_symbol c) (p_symbol p))
    (default (c_reset c) (p_reset p)).

(** [terminal] tells whether a terminal was given to the constructor. *)
Record PromptManager : Type := mkPromptManager {
  terminal : bool;
  currentPrompt : option string;
  promptColors : Colors
}.

Definition new (terminal : bool) : PromptManager :=
  mkPromptManager terminal None defaultColors.

Definition setCurrentPrompt (s : string) (this : PromptManager) : PromptManager :=
  mkPromptManager (terminal this) (Some s) (promptColors this).

Definition setColors (c : Colors) (this : PromptManager) : PromptManager :=
  mkPromptManager (terminal this) (currentPrompt this) c.

(** getCurrentPrompt(); [auth] is what [this.getAuth()] returns. *)
Definition getCurrentPrompt (auth : option Auth) (this : PromptManager)
  : string * PromptManager :=
  let c := promptColors this in
  match Prompt.promptUser auth with
  | Some u =>
      let userPrompt :=
        c_username c ++ username u ++ "@antec" ++ c_reset c ++ ":" ++ c_path c
        ++ "~" ++ c_reset c ++ c_symbol c ++ "$" ++ c_reset c ++ " " in
      (userPrompt, setCurrentPrompt userPrompt this)
  | None =>
      let guestPrompt :=
        c_host c ++ "guest@antec" ++ c_reset c ++ ":" ++ c_path c
        ++ "~" ++ c_reset c ++ c_symbol c ++ "$" ++ c_reset c ++ " " in
      (guestPrompt, setCurrentPrompt guestPrompt this)
  end.

(** showPrompt(newLine): the object afterwards and what was written. *)
Definition showPrompt (newLine : bool) (auth : option Auth) (this : PromptManager)
  : PromptManager * list Term.Op :=
  if negb (terminal this) then (this, [])
  else
    let '(prompt, this1) := getCurrentPrompt auth this in
    (this1, [Term.Write (if newLine then CRLF ++ prompt else prompt)]).

(** updatePrompt(display) *)
Definition updatePrompt (display : bool) (auth : option Auth) (this : PromptManager)
  : PromptManager * list Term.Op :=
  let '(newPrompt, this1) := getCurrentPrompt auth this in
  if negb (bool_decide (Some newPrompt = currentPrompt this1)) then
    let this2 := setCurrentPrompt newPrompt this1 in
    if display then showPrompt false auth this2 else (this2, [])
  else (this1, []).

(** refreshPrompt() *)
Definition refreshPrompt (auth : option Auth) (this : PromptManager)
  : PromptManager * list Term.Op :=
  if negb (terminal this) then (this, [])
  else
    let '(this1, written) := showPrompt false auth this in
    (this1, Term.Write (CR ++ ESC ++ "[K") :: written).

(** handleAuthStateChange(event, user): every case of the switch is the
    same call. *)
Definition handleAuthStateChange (event : string) (auth : option Auth)
  (this : PromptManager) : PromptManager * list Term.Op :=
  updatePrompt true auth this.

(** handleSessionRestore(hasValidSession, user) *)
Definition handleSessionRestore (hasValidSession : bool) (auth : option Auth)
  (this : PromptManager) : PromptManager * list Term.Op :=
  updatePrompt false auth this.

(** initialize() *)
Definition initialize (auth : option Auth) (this : PromptManager)
  : PromptManager * list Term.Op :=
  updatePrompt false auth this.

(** setPromptColors(colors) *)
Definition setPromptColors (colors : ColorPatch) (auth : option Auth)
  (this : PromptManager) : PromptManager * list Term.Op :=
  updatePrompt false auth (setColors (spread (promptColors this) colors) this).

(** resetPromptColors() *)
Definition resetPromptColors (auth : option Auth) (this : PromptManager)
  : PromptManager * list Term.Op :=
  updatePrompt false auth (setColors defaultColors this).

End PromptManager.

(** ** Vocabulary for the properties of the password input and the field
    collector *)
Module FormSpec.
Import JS Shared Form.

(** A chunk of input that the password input takes as text: its first
    character code is in 32..126. *)
Definition printable (data : string) : bool :=
  match charCodeAt0 data with
  | Some code => Nat.leb 32 code && Nat.leb code 126
  | None => false
  end.

(** A run of inputs on the password input alone, with what it wrote; the
    callbacks it asks for are left to the owner. *)
Definition typeInto (ds : list string) (this : PasswordInput)
  : PasswordInput * list Term.Op :=
  foldl (fun '(t, o) d =>
           let s := PasswordInput.handleInput d t in
           (PasswordInput.after s, (o ++ PasswordInput.written s)%list))
    (this, []) ds.

(** Two password inputs that an observer of the screen cannot tell apart:
    both active or both not, with buffers of the same length. *)
Definition sameShape (a b : PasswordInput) : Prop :=
  pw_isActive a = pw_isActive b
  /\ String.length (password a) = String.length (password b).

(** Two chunks of the same length that are the same key or both text. *)
Definition sameKey (d1 d2 : string) : Prop :=
  String.length d1 = String.length d2
  /\ (charCodeAt0 d1 = charCodeAt0 d2 \/ (printable d1 = true /\ printable d2 = true)).

(** What is entered for one field: the value of a text field, which the
    dispatcher hands over when Enter is pressed, or the chunks typed into
    a password field before Enter. *)
Inductive Entry : Type :=
| TextEntry : string -> Entry
| PasswordEntry : list string -> Entry.

Definition entered (e : Entry) : string :=
  match e with
  | TextEntry value => value
  | PasswordEntry chunks => foldl String.append "" chunks
  end.

(** The events by which an entry reaches the form. *)
Definition keys (e : Entry) : list Event :=
  match e with
  | TextEntry value => [RegularFieldComplete value]
  | PasswordEntry chunks => (map Input chunks ++ [Input enter])%list
  end.

(** The entry is of the kind the field takes. *)
Definition fits (f : Field) (e : Entry) : bool :=
  match e with
  | TextEntry _ => negb (String.eqb (type f) "password")
  | PasswordEntry chunks => String.eqb (type f) "password" && forallb printable chunks
  end.

(** What the form writes for a field and its entry: the label, a mask per
    chunk of a password, and the line break once the field is complete. *)
Definition echo (f : Field) (e : Entry) : list Term.Op :=
  (Term.Write (prompt f ++ ": ")
   :: match e with
      | TextEntry _ => []
      | PasswordEntry chunks => map (fun _ => Term.Write PASSWORD_MASK) chunks
      end
   ++ [Term.Write (CR ++ LF)])%list.

(** The data object after the entries have been stored under the names
    of their fields, in order. *)
Definition collected (fs : list Field) (es : list Entry) : FormData :=
  foldl (fun m '(f, e) => <[name f := entered e]> m) ∅ (zip fs es).

(** The form is about to prompt for field number [length pre] of
    [pre ++ suf], with the data [m] collected so far and the password
    input at rest. *)
Definition Ready (cb : FormData -> Behaviour) (oc : option Behaviour)
  (pre suf : list Field) (m : FormData) (f : SequentialFormHandler) : Prop :=
  fields f = (pre ++ suf)%list
  /\ currentFieldIndex f = List.length pre
  /\ formData f = m
  /\ isActive f = true
  /\ onComplete f = Some cb
  /\ onCancel f = oc
  /\ pw_isActive (passwordInput f) = false.

(** The password input is only ever active with the form's own cancel
    closure. *)
Definition OwnsInput (f : SequentialFormHandler) : Prop :=
  pw_isActive (passwordInput f) = true ->
  pw_onCancel (passwordInput f) = Some CancelForm.

End FormSpec.

(** ** The timers of AuthCommandHandler *)
Module Timers.
Import JS AuthContext AuthCmd.

Definition setTimers (l : list Timer) (h : Handler) : Handler :=
  mkHandler (formHandler h) (isProcessing h) (currentCommand h)
    (loadingIndicator h) (notified h) l (awaiting h) (provider h).

(** The callback of a timer runs; [auth] is what [getAuth()] returns at
    that moment. The handler's prompt manager has a terminal and the
    default colours (nothing in the application changes them). *)
Definition fire (t : Timer) (auth : option Auth) (h : Handler) : Handler :=
  match t with
  | FinishAuthCommandTimer => finishAuthCommand h
  | RefreshPromptTimer =>
      foldl (fun h' o => onForm (fun w => fst (Form.emit o w)) h') h
        (snd (PromptManager.refreshPrompt auth (PromptManager.new true)))
  end.

(** The oldest pending timer expires (all delays are equal). *)
Definition expire (auth : option Auth) (h : Handler) : Handler :=
  match timers h with
  | [] => h
  | t :: rest => fire t auth (setTimers rest h)
  end.

(** The terminal accepts commands again and nothing of the command in
    progress is left. *)
Definition Idle (h : Handler) : Prop :=
  isProcessing h = false
  /\ currentCommand h = None
  /\ loadingIndicator h = None
  /\ Form.form (formHandler h) = Form.new.

(** What writing to the terminal leaves alone in the handler. *)
Definition sameControl (h h' : Handler) : Prop :=
  isProcessing h' = isProcessing h /\ currentCommand h' = currentCommand h
  /\ loadingIndicator h' = loadingIndicator h /\ timers h' = timers h
  /\ awaiting h' = awaiting h /\ provider h' = provider h
  /\ Form.form (formHandler h') = Form.form (formHandler h).

(** [h'] is what the end of a command made of [h]: the command has been
    finished on the spot, or a finishAuthCommand timer has been set behind
    the pending ones and the handler is idle once the timers up to and
    including that one have expired. *)
Definition Finishes (auth : option Auth) (h h' : Handler) : Prop :=
  (Idle h' /\ timers h' = (timers h ++ [RefreshPromptTimer])%list)
  \/ (timers h' = (timers h ++ [FinishAuthCommandTimer])%list
      /\ Idle (Nat.iter (S (List.length (timers h))) (expire auth) h')).

End Timers.

(** ** Vocabulary for the properties of the dispatcher *)
Module TerminalSpec.
Import JS.

(** Every address that a command can open. *)
Definition knownUrls : list string :=
  "https://antik.dev" :: (map snd Legacy.projectLinks ++ map snd Legacy.socialLinks)%list.

(** From [t0] to [t] the theme is kept or set to a name that the
    [themes] object has, own or inherited, and only known addresses have
    been opened. *)
Definition Tame (t0 t : Legacy.Terminal) : Prop :=
  (Legacy.currentTheme t = Legacy.currentTheme t0
   \/ Legacy.currentTheme t ∈ (Legacy.themeNames ++ ObjectPrototype.members)%list)
  /\ exists new, Legacy.opened t = (Legacy.opened t0 ++ new)%list
                 /\ Forall (fun u => u ∈ knownUrls) new.

End TerminalSpec.

(** * Properties *)

(** ** The session store *)
Module AuthContextFacts.
Import JS Shared AuthClient AuthContext.

(** CLEAR_ERROR recomputes the phase from the identity alone. *)
Lemma clear_error_phase (s : AuthState) :
  st_authState (authReducer s CLEAR_ERROR)
  = match st_user s with Some _ => AUTHENTICATED | None => UNAUTHENTICATED end.
Proof. reflexivity. Qed.

Lemma authPrefix_state (p : Provider) :
  state (authPrefix p)
  = mkAuthState (st_user (state p)) (st_isAuthenticated (state p)) true None
      (match st_user (state p) with
       | Some _ => AUTHENTICATED
       | None => UNAUTHENTICATED
       end).
Proof. reflexivity. Qed.

Lemma signupBegin_state (userData : FormData) (p : Provider) :
  state (fst (signupBegin userData p)) = state (authPrefix p).
Proof.
  unfold signupBegin. destruct (AuthClient.signupBegin userData); reflexivity.
Qed.

Lemma loginBegin_state (credentials : FormData) (p : Provider) :
  state (fst (loginBegin credentials p)) = state (authPrefix p).
Proof.
  unfold loginBegin. destruct (AuthClient.loginBegin credentials); reflexivity.
Qed.

(** C1, as the code behaves: when [signup(data)] or [login(data)] reaches
    its await, the store is loading but its phase is never
    'authenticating': the CLEAR_ERROR dispatched right after
    SET_LOADING(true) has put it back to 'authenticated' or
    'unauthenticated' according to the identity present. [logout], which
    dispatches SET_LOADING(true) alone, does wait in 'authenticating'. *)
Theorem auth_prefix_phase_not_authenticating (data : FormData) (p : Provider) :
  let s1 := state (fst (signupBegin data p)) in
  let s2 := state (fst (loginBegin data p)) in
  st_loading s1 = true /\ st_loading s2 = true
  /\ st_authState s1 <> AUTHENTICATING /\ st_authState s2 <> AUTHENTICATING
  /\ st_authState s1
     = match st_user (state p) with Some _ => AUTHENTICATED | None => UNAUTHENTICATED end
  /\ st_authState s2 = st_authState s1
  /\ st_authState (state (logoutBegin p)) = AUTHENTICATING.
Proof.
  cbv zeta. rewrite signupBegin_state, loginBegin_state, authPrefix_state.
  cbn [st_loading st_authState].
  repeat split; try reflexivity; destruct (st_user (state p)); discriminate.
Qed.

(** The failing input of C1: the first signup of a fresh session. *)
Example signup_from_initial_state :
  st_authState
    (state (fst (signupBegin ∅ (initialProvider (mkStorage true ∅)))))
  = UNAUTHENTICATED.
Proof. reflexivity. Qed.

(** LOGOUT forgets everything. *)
Lemma logout_state (net : Outcome Response) (p : Provider) :
  state (fst (logout net p)) = initialState.
Proof. unfold logout, logoutSettle. destruct (AuthClient.logoutSettle _ _); reflexivity. Qed.

Lemma clearAuthData_token (st : Storage) : getStoredToken (clearAuthData st) = None.
Proof.
  unfold getStoredToken, clearAuthData, removeUser, removeToken, removeItem.
  destruct (available st) eqn:Ha; cbn; rewrite ?Ha; [|reflexivity].
  rewrite lookup_delete_ne by discriminate. rewrite lookup_delete_eq. reflexivity.
Qed.

Lemma clearAuthData_user (st : Storage) : getStoredUser (clearAuthData st) = None.
Proof.
  unfold getStoredUser, clearAuthData, removeUser, removeToken, removeItem.
  destruct (available st) eqn:Ha; cbn; rewrite ?Ha; [|reflexivity].
  rewrite lookup_delete_eq. reflexivity.
Qed.

Lemma logout_local (net : Outcome Response) (p : Provider) :
  local (fst (logout net p)) = clearAuthData (clearAuthData (local p)).
Proof. unfold logout, logoutSettle. destruct net; reflexivity. Qed.

(** The guest prompt is what an unauthenticated session shows. *)
Lemma guest_prompt (a : Auth) :
  Prompt.promptUser (Some a) = None -> Prompt.getPlainPrompt (Some a) = "guest@antec:~$ ".
Proof. unfold Prompt.getPlainPrompt. intros ->. reflexivity. Qed.

(** C5: whatever the login attempt and the remote logout call did, after
    [login] then [logout] the session is unauthenticated with no identity,
    no stored token and no stored user, and the plain prompt is the guest
    prompt that was shown before the login. *)
Theorem login_logout_round_trip
  (credentials : FormData) (netLogin netLogout : Outcome Response) (p : Provider)
  (Hguest : Prompt.promptUser (Some (value p)) = None) :
  let p1 := fst (login credentials netLogin p) in
  let p2 := fst (logout netLogout p1) in
  st_authState (state p2) = UNAUTHENTICATED
  /\ st_user (state p2) = None
  /\ st_isAuthenticated (state p2) = false
  /\ getStoredToken (local p2) = None
  /\ getStoredUser (local p2) = None
  /\ Prompt.getPlainPrompt (Some (value p2)) = "guest@antec:~$ "
  /\ Prompt.getPlainPrompt (Some (value p2)) = Prompt.getPlainPrompt (Some (value p)).
Proof.
  cbv zeta.
  set (p1 := fst (login credentials netLogin p)).
  assert (Hs : state (fst (logout netLogout p1)) = initialState) by apply logout_state.
  assert (Hl := logout_local netLogout p1).
  unfold value. rewrite Hs, Hl. cbn [initialState st_authState st_user st_isAuthenticated
    st_loading st_error].
  rewrite clearAuthData_token, clearAuthData_user.
  repeat split; try reflexivity.
  symmetry. apply (guest_prompt (value p) Hguest).
Qed.

Lemma login_logout_round_trip_witness :
  let p := initialProvider (mkStorage true ∅) in
  let credentials : FormData := {[ "emailOrUsername" := "bob"; "password" := "Aa1!aaaa" ]} in
  let ok := Resolved (mkResponse true (Some "ok")
                        (Some (mkUser "1" "bob" "bob@x.com")) (Some "jwt")) in
  let p1 := fst (login credentials ok p) in
  let p2 := fst (logout (Rejected (mkAPIError "down" 0 "NETWORK_ERROR" [])) p1) in
  Prompt.promptUser (Some (value p)) = None
  /\ Prompt.getPlainPrompt (Some (value p1)) = "bob@antec:~$ "
  /\ getStoredToken (local p1) = Some "jwt"
  /\ getStoredToken (local p2) = None
  /\ Prompt.getPlainPrompt (Some (value p2)) = Prompt.getPlainPrompt (Some (value p)).
Proof.
  cbv zeta. split; [reflexivity|]. split; [reflexivity|]. split; [reflexivity|].
  destruct (login_logout_round_trip
              {[ "emailOrUsername" := "bob"; "password" := "Aa1!aaaa" ]}
              (Resolved (mkResponse true (Some "ok")
                           (Some (mkUser "1" "bob" "bob@x.com")) (Some "jwt")))
              (Rejected (mkAPIError "down" 0 "NETWORK_ERROR" []))
              (initialProvider (mkStorage true ∅)) eq_refl)
    as (_ & _ & _ & Ht & _ & _ & Hp).
  split; [exact Ht|exact Hp].
Defined.

End AuthContextFacts.

(** ** The form collector *)
Module FormFacts.
Import JS Shared Form.

Ltac unfold_M := unfold mbind, mret, M_bind, M_ret in *.

Lemma stopped_new (f : SequentialFormHandler) : stopped f = new.
Proof. reflexivity. Qed.

Lemma stop_eq (w : World) : stop w = (mkWorld new (out w) (fired w), Ok tt).
Proof. reflexivity. Qed.

Lemma completeForm_eq (w : World) :
  completeForm w =
  match onComplete (form w) with
  | None => (mkWorld new (out w) (fired w), Ok tt)
  | Some cb =>
      let fd := (fired w ++ [FiredComplete (formData (form w))])%list in
      match cb (formData (form w)) with
      | Throws => (mkWorld (setActive false (form w)) (out w) fd, Thrown)
      | _ => (mkWorld new (out w) fd, Ok tt)
      end
  end.
Proof.
  unfold completeForm, invoke, stop, record, modify, get, throw. unfold_M. cbn.
  destruct (onComplete (form w)) as [cb|]; [|reflexivity].
  destruct (cb (formData (form w))); reflexivity.
Qed.

Lemma handleCancel_eq (w : World) :
  handleCancel w =
  let o := (out w ++ [cancelNotice])%list in
  match onCancel (form w) with
  | None => (mkWorld new o (fired w), Ok tt)
  | Some Throws => (mkWorld (form w) o (fired w ++ [FiredCancel])%list, Thrown)
  | Some _ => (mkWorld new o (fired w ++ [FiredCancel])%list, Ok tt)
  end.
Proof.
  unfold handleCancel, invoke, stop, record, modify, get, throw, write, emit.
  unfold_M. cbn.
  destruct (onCancel (form w)) as [[]|]; reflexivity.
Qed.

Lemma promptCurrentField_eq (w : World) :
  promptCurrentField w =
  match fields (form w) !! currentFieldIndex (form w) with
  | None => completeForm w
  | Some field =>
      let o := (out w ++ [Term.Write (prompt field ++ ": ")])%list in
      if String.eqb (type field) "password" then
        (mkWorld
           (setPasswordInput
              (PasswordInput.start (FieldCompleteOf (name field)) (Some CancelForm)
                 (passwordInput (form w))) (form w)) o (fired w), Ok tt)
      else (mkWorld (form w) o (fired w), Ok tt)
  end.
Proof.
  unfold promptCurrentField, modify, get, write, emit. unfold_M. cbn.
  destruct (fields (form w) !! currentFieldIndex (form w)) as [field|]; [|reflexivity].
  cbn. destruct (String.eqb (type field) "password"); reflexivity.
Qed.

Lemma handleFieldComplete_eq (n v : string) (w : World) :
  handleFieldComplete n v w =
  promptCurrentField
    (mkWorld (advance n v (form w)) (out w ++ [Term.Write (CR ++ LF)])%list (fired w)).
Proof. reflexivity. Qed.

Lemma setPasswordInput_id (f : SequentialFormHandler) :
  setPasswordInput (passwordInput f) f = f.
Proof. destruct f; reflexivity. Qed.

Lemma change_refl (w : World) : Change w w.
Proof. apply (Quiet w w (passwordInput (form w))); [reflexivity|]. symmetry. apply setPasswordInput_id. Qed.

(** A change seen from a world that differs only in the password input
    and in the terminal output. *)
Lemma change_from (w : World) (pi : PasswordInput) (o : list Term.Op) (w' : World) :
  Change (mkWorld (setPasswordInput pi (form w)) o (fired w)) w' -> Change w w'.
Proof.
  destruct w as [f o0 fd]. destruct f. cbn.
  intros [pi' Hf Hm|n v pi' Ha Hf Hm| Hf Hm|x Ha Hf Hm|n v pi' cb Ha Hc Hb Hf Hm|pi' Ha Hc Hf Hm];
    cbn in *.
  - apply (Quiet _ _ pi'); assumption.
  - apply (Advanced _ _ n v pi'); assumption.
  - apply TornDown; assumption.
  - apply (FiredThenTornDown _ _ x); assumption.
  - apply (CompleteThrew _ _ n v pi' cb); assumption.
  - apply (CancelThrew _ _ pi'); assumption.
Qed.

Lemma handleCancel_change (w : World) :
  isActive (form w) = true -> Change w (fst (handleCancel w)).
Proof.
  intros Ha. rewrite handleCancel_eq. cbv zeta.
  destruct (onCancel (form w)) as [[]|] eqn:Hc; cbn.
  - eapply FiredThenTornDown; eauto.
  - eapply (CancelThrew _ _ (passwordInput (form w))); eauto;
      cbn; symmetry; apply setPasswordInput_id.
  - eapply FiredThenTornDown; eauto.
  - eapply TornDown; reflexivity.
Qed.

Lemma handleFieldComplete_change (n v : string) (w : World) :
  isActive (form w) = true -> Change w (fst (handleFieldComplete n v w)).
Proof.
  intros Ha. rewrite handleFieldComplete_eq, promptCurrentField_eq. cbn [form out fired].
  destruct (fields (advance n v (form w)) !! currentFieldIndex (advance n v (form w)))
    as [field|] eqn:Hl.
  - cbv zeta. destruct (String.eqb (type field) "password"); cbn.
    + eapply Advanced; eauto.
    + eapply (Advanced _ _ n v (passwordInput (form w))); eauto;
        cbn; destruct (form w); reflexivity.
  - rewrite completeForm_eq. cbn [form out fired].
    destruct (onComplete (advance n v (form w))) as [cb|] eqn:Hc.
    + cbv zeta. destruct (cb (formData (advance n v (form w)))) eqn:Hb; cbn.
      * eapply FiredThenTornDown; eauto.
      * eapply (CompleteThrew _ _ n v (passwordInput (form w)) cb); eauto;
          cbn; destruct (form w); reflexivity.
      * eapply FiredThenTornDown; eauto.
    + cbn. eapply TornDown; reflexivity.
Qed.

Theorem step_change (e : Event) (w : World) : Change w (step e w).
Proof.
  destruct e as [data|value|]; cbn [step].
  - unfold handleInput, get. unfold_M. cbn.
    destruct (isActive (form w)) eqn:Ha; cbn; [|apply change_refl].
    destruct (PasswordInput.isPasswordMode (passwordInput (form w))) eqn:Hp.
    + set (s := PasswordInput.handleInput data (passwordInput (form w))).
      unfold modify, emitAll. cbn.
      destruct (PasswordInput.call s) as [[[fieldName] pw|[]]|] eqn:Hcall; cbn.
      * match goal with
        | |- context [handleFieldComplete ?a ?b ?x] =>
            pose proof (handleFieldComplete_change a b x) as Hch;
            destruct (handleFieldComplete a b x) as [w' []]
        end; cbn in *; eapply change_from; apply Hch; destruct (form w); exact Ha.
      * match goal with
        | |- context [handleCancel ?x] =>
            pose proof (handleCancel_change x) as Hch;
            destruct (handleCancel x) as [w' []]
        end; cbn in *; eapply change_from; apply Hch; destruct (form w); exact Ha.
      * eapply Quiet; reflexivity.
    + destruct (charCodeAt0 data) as [[|[|[|[|n]]]]|]; cbn; try apply change_refl.
      pose proof (handleCancel_change w Ha) as Hch.
      destruct (handleCancel w) as [w' []]; exact Hch.
  - unfold handleRegularFieldComplete, get. unfold_M. cbn.
    destruct (isActive (form w)) eqn:Ha; cbn; [|apply change_refl].
    destruct (fields (form w) !! currentFieldIndex (form w)) as [field|];
      [|apply change_refl].
    destruct (String.eqb (type field) "password"); cbn; [apply change_refl|].
    apply handleFieldComplete_change, Ha.
  - eapply TornDown; reflexivity.
Qed.


Lemma run_cons (e : Event) (es : list Event) (w : World) :
  run (e :: es) w = run es (step e w).
Proof. reflexivity. Qed.

(** Once inactive, a form ignores every event. *)
Lemma dead_step (e : Event) (w : World) :
  isActive (form w) = false ->
  fired (step e w) = fired w /\ isActive (form (step e w)) = false.
Proof.
  intros Hd.
  destruct (step_change e w)
    as [pi Hf Hm|n v pi Ha Hf Hm|Hf Hm|x Ha Hf Hm|n v pi cb Ha Hc Hb Hf Hm|pi Ha Hc Hf Hm];
    try congruence; rewrite Hm; split; auto.
Qed.

Lemma dead_run (es : list Event) (w : World) :
  isActive (form w) = false ->
  fired (run es w) = fired w /\ isActive (form (run es w)) = false.
Proof.
  revert w. induction es as [|e es IH]; intros w Hd; [auto|].
  rewrite run_cons. destruct (dead_step e w Hd) as [Hf Ha].
  destruct (IH _ Ha) as [Hf' Ha']. split; congruence.
Qed.

Lemma atMostOnce_step (base : list Fired) (e : Event) (w : World) :
  AtMostOnce base w -> AtMostOnce base (step e w).
Proof.
  intros [[Hc Hb]|[Hd [x Hx]]].
  - destruct (step_change e w)
      as [pi Hf Hm|n v pi Ha Hf Hm|Hf Hm|x Ha Hf Hm|n v pi cb Ha Hc' Hb' Hf Hm|pi Ha Hc' Hf Hm].
    + left. rewrite Hm, Hf. split; [destruct (form w); exact Hc|exact Hb].
    + left. rewrite Hm, Hf. split; [destruct (form w); exact Hc|exact Hb].
    + left. rewrite Hm, Hf. split; [discriminate|exact Hb].
    + right. rewrite Hm, Hf, Hb. split; [reflexivity|eauto].
    + right. rewrite Hm, Hf, Hb. split; [reflexivity|eauto].
    + congruence.
  - right. destruct (dead_step e w Hd) as [Hf Ha]. rewrite Hf. eauto.
Qed.

Lemma atMostOnce_run (base : list Fired) (es : list Event) (w : World) :
  AtMostOnce base w -> AtMostOnce base (run es w).
Proof.
  revert w. induction es as [|e es IH]; intros w H; [exact H|].
  rewrite run_cons. apply IH, atMostOnce_step, H.
Qed.

Lemma atMostOnce_started (fs : list Field) (oc : option (FormData -> Behaviour))
  (occ : option Behaviour) (w : World) :
  occ <> Some Throws -> AtMostOnce (fired w) (started fs oc occ w).
Proof.
  intros Hocc. unfold started, start, modify. unfold_M. cbn.
  rewrite promptCurrentField_eq. cbn [form out fired fields currentFieldIndex].
  destruct (fs !! 0) as [field|].
  - cbv zeta. destruct (String.eqb (type field) "password"); left; cbn; auto.
  - rewrite completeForm_eq. cbn [form out fired onComplete formData].
    destruct oc as [cb|]; [|left; cbn; split; [discriminate|reflexivity]].
    cbv zeta. destruct (cb ∅); right; cbn; eauto.
Qed.


(** With an [onCancel] that returns or stops the form (and whatever
    [onComplete] does), the two callbacks fire at most once in total over
    any sequence of input, field-completion and stop events after
    [start(fields, onComplete, onCancel)]. *)
Lemma settled_callbacks_fire_at_most_once
  (fs : list Field) (oc : option (FormData -> Behaviour)) (occ : option Behaviour)
  (w : World) (es : list Event) (Hocc : occ <> Some Throws) :
  exists l : list Fired,
    fired (run es (started fs oc occ w)) = (fired w ++ l)%list
    /\ List.length l <= 1.
Proof.
  destruct (atMostOnce_run (fired w) es _ (atMostOnce_started fs oc occ w Hocc))
    as [[_ Hb]|[_ [x Hx]]].
  - exists []. rewrite Hb, app_nil_r. auto.
  - exists [x]. auto.
Qed.

Lemma handleCancel_calling (w : World) :
  handleCancel w
  = handleCancelCalling (match onCancel (form w) with
                         | Some b => behave b
                         | None => mret tt
                         end) w.
Proof.
  unfold handleCancel, handleCancelCalling, invoke, behave, stop, record, modify, get,
    throw, write, emit.
  unfold_M. cbn. destruct (onCancel (form w)) as [[]|]; reflexivity.
Qed.

Lemma completeForm_calling (w : World) :
  completeForm w
  = completeFormCalling (fun data => match onComplete (form w) with
                                     | Some cb => behave (cb data)
                                     | None => mret tt
                                     end) w.
Proof.
  unfold completeForm, completeFormCalling, invoke, behave, stop, record, modify, get,
    throw.
  unfold_M. cbn. destruct (onComplete (form w)) as [cb|]; [|reflexivity].
  destruct (cb (formData (form w))); reflexivity.
Qed.

(** C2 does not hold of the code: [handleCancel] invokes [onCancel] while
    the form is still active and before [stop()], so both callbacks can
    fire for one form. With a single text field and an [onCancel] that
    calls [handleRegularFieldComplete("bob")] and returns, one Ctrl+C
    fires [onCancel] and then [onComplete]; with an [onCancel] that throws,
    Ctrl+C fires it and the next field completion fires [onComplete].
    [completeForm] does what [handleCancel] misses: it clears the active
    flag before its callback, so that an [onComplete] that calls back into
    the form, with whatever events, fires nothing more. *)
Theorem cancel_callback_runs_on_active_form :
  let fs := [mkField "username" "Username" "text"] in
  let data : FormData := {["username" := "bob"]} in
  fired (fst (handleCancelCalling (handleRegularFieldComplete "bob")
                (started fs (Some (fun _ => Returns)) (Some Returns) initialWorld)))
  = [FiredCancel; FiredComplete data]
  /\ fired (run [Input ctrlC; RegularFieldComplete "bob"]
              (started fs (Some (fun _ => Returns)) (Some Throws) initialWorld))
     = [FiredCancel; FiredComplete data]
  /\ (forall (es : list Event) (w : World),
        fired (fst (completeFormCalling (fun _ w' => (run es w', Ok tt)) w))
        = (fired w ++ match onComplete (form w) with
                      | Some _ => [FiredComplete (formData (form w))]
                      | None => []
                      end)%list).
Proof.
  cbv zeta. split; [vm_compute; reflexivity|]. split; [vm_compute; reflexivity|].
  intros es w. unfold completeFormCalling, stop, record, modify, get. unfold_M. cbn.
  destruct (onComplete (form w)) as [cb|]; cbn; [|rewrite app_nil_r; reflexivity].
  match goal with |- fired (run es ?x) = _ =>
    destruct (dead_run es x eq_refl) as [Hf _]; rewrite Hf
  end.
  reflexivity.
Qed.

(** With an [onCancel] that throws, a second Ctrl+C fires it a second time. *)
Example throwing_cancel_twice :
  fired (run [Input ctrlC; Input ctrlC]
           (started [mkField "u" "U" "text"] (Some (fun _ => Returns)) (Some Throws)
              initialWorld))
  = [FiredCancel; FiredCancel].
Proof. vm_compute. reflexivity. Qed.

(** C3, as amended: when the last field completes, [onComplete] is
    invoked exactly once with the collected values, and nothing fires
    afterwards. If the callback returns, the whole collector state is
    discarded (the form is as freshly constructed). If it throws, the
    exception escapes before [stop()]: the active flag is already cleared,
    but fields, index, collected values and callbacks stay. *)
Theorem final_field_completion
  (n v : string) (w : World) (cb : FormData -> Behaviour)
  (Hcb : onComplete (form w) = Some cb)
  (Hlast : S (currentFieldIndex (form w)) = List.length (fields (form w))) :
  let data := <[n := v]> (formData (form w)) in
  let r := handleFieldComplete n v w in
  fired (fst r) = (fired w ++ [FiredComplete data])%list
  /\ (cb data <> Throws -> snd r = Ok tt /\ form (fst r) = new)
  /\ (cb data = Throws ->
      snd r = Thrown /\ form (fst r) = setActive false (advance n v (form w)))
  /\ (forall es, fired (run es (fst r)) = fired (fst r)).
Proof.
  cbv zeta. rewrite handleFieldComplete_eq, promptCurrentField_eq.
  cbn [form out fired].
  assert (Hnone : fields (advance n v (form w)) !! currentFieldIndex (advance n v (form w))
                  = None).
  { apply lookup_ge_None_2. cbn. rewrite Hlast. lia. }
  rewrite Hnone, completeForm_eq. cbn [form out fired onComplete advance formData].
  rewrite Hcb. cbv zeta.
  destruct (cb (<[n := v]> (formData (form w)))) eqn:Hb; cbn [fst snd form fired].
  - repeat split; try congruence. intros es. apply dead_run. reflexivity.
  - repeat split; try congruence. intros es. apply dead_run. reflexivity.
  - repeat split; try congruence. intros es. apply dead_run. reflexivity.
Qed.

Lemma final_field_completion_witness :
  let w := run [RegularFieldComplete "ann"]
             (started createLoginFields (Some (fun _ => Returns)) None initialWorld) in
  onComplete (form w) = Some (fun _ => Returns)
  /\ S (currentFieldIndex (form w)) = List.length (fields (form w))
  /\ form (fst (handleFieldComplete "password" "secret" w)) = new.
Proof.
  cbv zeta. split; [reflexivity|]. split; [reflexivity|].
  refine (proj2 (proj1 (proj2 (final_field_completion "password" "secret" _ _ _ _)) _)).
  - reflexivity.
  - reflexivity.
  - discriminate.
Defined.

(** C3 fails as stated: when [onComplete] throws, the collected values,
    the fields, the index and the callbacks are all still there. *)
Lemma throwing_complete_keeps_state :
  let w := step (RegularFieldComplete "x")
             (started [mkField "u" "U" "text"] (Some (fun _ => Throws)) None
                initialWorld) in
  fired w = [FiredComplete {["u" := "x"]}]
  /\ formData (form w) = {["u" := "x"]}
  /\ fields (form w) = [mkField "u" "U" "text"]
  /\ currentFieldIndex (form w) = 1
  /\ is_Some (onComplete (form w))
  /\ isActive (form w) = false.
Proof. vm_compute. repeat split; eauto. Qed.





Lemma password_after_fieldComplete (n v : string) (w : World) :
  password (passwordInput (form w)) = "" ->
  password (passwordInput (form (fst (handleFieldComplete n v w)))) = "".
Proof.
  intros Hp. rewrite handleFieldComplete_eq, promptCurrentField_eq. cbn [form out fired].
  destruct (fields (advance n v (form w)) !! currentFieldIndex (advance n v (form w)))
    as [field|].
  - cbv zeta. destruct (String.eqb (type field) "password"); cbn; auto.
  - rewrite completeForm_eq. cbn [form out fired].
    destruct (onComplete (advance n v (form w))) as [cb|]; [|reflexivity].
    cbv zeta. destruct (cb _); cbn; auto.
Qed.

Lemma password_after_cancel (w : World) :
  password (passwordInput (form w)) = "" ->
  password (passwordInput (form (fst (handleCancel w)))) = "".
Proof.
  intros Hp. rewrite handleCancel_eq. cbv zeta.
  destruct (onCancel (form w)) as [[]|]; cbn; auto.
Qed.

(** C9: on Enter and on Ctrl+C an active password input has emptied its
    buffer and left password mode by the time it invokes [onComplete]
    (with the text that was typed) or [onCancel]; and when the form's
    [handleInput] returns or throws for such a key, the buffer of its
    password input is empty. *)
Theorem password_buffer_discarded (data : string) (code : nat)
  (Hcode : charCodeAt0 data = Some code) (Hkey : code = 13 \/ code = 3) :
  (forall this : PasswordInput,
      pw_isActive this = true ->
      let s := PasswordInput.handleInput data this in
      password (PasswordInput.after s) = ""
      /\ pw_isActive (PasswordInput.after s) = false
      /\ PasswordInput.handled s = true
      /\ PasswordInput.call s
         = (if Nat.eqb code 13
            then option_map (fun cb => PasswordInput.CallOnComplete cb (password this))
                   (pw_onComplete this)
            else option_map PasswordInput.CallOnCancel (pw_onCancel this)))
  /\ (forall w : World,
         isActive (form w) = true ->
         pw_isActive (passwordInput (form w)) = true ->
         password (passwordInput (form (step (Input data) w))) = "").
Proof.
  split.
  - intros this Ha. unfold PasswordInput.handleInput. rewrite Ha, Hcode. cbn.
    destruct Hkey as [-> | ->]; cbn; auto.
  - intros w Ha Hp. cbn [step]. unfold handleInput, get. unfold_M. cbn.
    rewrite Ha. cbn. unfold PasswordInput.isPasswordMode. rewrite Hp.
    unfold PasswordInput.handleInput. rewrite Hp, Hcode. cbn.
    destruct Hkey as [-> | ->]; cbn.
    + destruct (pw_onComplete (passwordInput (form w))) as [[fieldName]|]; cbn;
        [|reflexivity].
      match goal with
      | |- context [handleFieldComplete ?a ?b ?x] =>
          pose proof (password_after_fieldComplete a b x eq_refl) as Hq;
          destruct (handleFieldComplete a b x) as [w' []]
      end; exact Hq.
    + destruct (pw_onCancel (passwordInput (form w))) as [[]|]; cbn; [|reflexivity].
      match goal with
      | |- context [handleCancel ?x] =>
          pose proof (password_after_cancel x eq_refl) as Hq;
          destruct (handleCancel x) as [w' []]
      end; exact Hq.
Qed.

Lemma password_buffer_discarded_witness :
  let this := mkPasswordInput "hunter2" true (Some (FieldCompleteOf "password"))
                (Some CancelForm) in
  charCodeAt0 enter = Some 13
  /\ pw_isActive this = true
  /\ password (PasswordInput.after (PasswordInput.handleInput enter this)) = ""
  /\ PasswordInput.call (PasswordInput.handleInput enter this)
     = Some (PasswordInput.CallOnComplete (FieldCompleteOf "password") "hunter2").
Proof.
  cbv zeta. split; [reflexivity|]. split; [reflexivity|].
  destruct (proj1 (password_buffer_discarded enter 13 eq_refl (or_introl eq_refl))
              (mkPasswordInput "hunter2" true (Some (FieldCompleteOf "password"))
                 (Some CancelForm)) eq_refl) as (H1 & _ & _ & H4).
  split; [exact H1|exact H4].
Defined.

End FormFacts.

(** ** The command handler *)
Module AuthCmdFacts.
Import JS Shared AuthClient AuthContext AuthCmd.

Lemma output_termWrite (s : string) (h : Handler) :
  output (termWrite s h) = (output h ++ [Term.Write s])%list.
Proof. reflexivity. Qed.

Lemma provider_termWrite (s : string) (h : Handler) :
  provider (termWrite s h) = provider h.
Proof. reflexivity. Qed.

Lemma output_writeColoredText (text color : string) (h : Handler) :
  output (writeColoredText text color h)
  = (output h ++ [Term.Write (coloured text color)])%list.
Proof. reflexivity. Qed.

Lemma writeFieldErrors_spec (errs : list ValidationError) (h : Handler) :
  exists rest,
    output (writeFieldErrors errs h)
    = (output h ++ Term.Write (coloured "Validation errors:" "red") :: rest)%list
    /\ provider (writeFieldErrors errs h) = provider h
    /\ awaiting (writeFieldErrors errs h) = awaiting h.
Proof.
  unfold writeFieldErrors.
  set (h0 := writeColoredText "Validation errors:" "red" h).
  assert (H0 : exists rest,
             output h0
             = (output h ++ Term.Write (coloured "Validation errors:" "red") :: rest)%list
             /\ provider h0 = provider h /\ awaiting h0 = awaiting h).
  { exists []. split; [reflexivity|split; reflexivity]. }
  clearbody h0. revert h0 H0.
  induction errs as [|e errs IH]; intros h0 H0; [exact H0|].
  cbn [foldl]. apply IH.
  destruct H0 as (rest & Ho & Hp & Ha).
  exists (rest ++ [Term.Write
                     (coloured ("  " ++ ve_field e ++ ": " ++ default "undefined" (ve_message e))
                        "red")])%list.
  rewrite output_writeColoredText, Ho, <- app_assoc. repeat split; assumption.
Qed.

Lemma stopLoadingIndicator_spec (h : Handler) :
  (exists l, output (stopLoadingIndicator h) = (output h ++ l)%list)
  /\ provider (stopLoadingIndicator h) = provider h
  /\ awaiting (stopLoadingIndicator h) = awaiting h
  /\ isProcessing (stopLoadingIndicator h) = isProcessing h.
Proof.
  unfold stopLoadingIndicator. destruct (loadingIndicator h).
  - split; [|repeat split]. eexists. reflexivity.
  - split; [|repeat split]. exists []. symmetry. apply app_nil_r.
Qed.

Lemma finishAuthCommand_spec (h : Handler) :
  (exists l, output (finishAuthCommand h) = (output h ++ l)%list)
  /\ provider (finishAuthCommand h) = provider h
  /\ awaiting (finishAuthCommand h) = awaiting h
  /\ isProcessing (finishAuthCommand h) = false
  /\ Form.form (formHandler (finishAuthCommand h)) = Form.new.
Proof.
  unfold finishAuthCommand, setTerminalIdle.
  destruct (stopLoadingIndicator_spec h) as ([l1 H1] & Hp1 & Ha1 & _).
  set (h1 := stopLoadingIndicator h) in *.
  set (h2 := setProcessing false None (onForm (fun w => fst (Form.stop w)) h1)).
  destruct (stopLoadingIndicator_spec h2) as ([l2 H2] & Hp2 & Ha2 & Hi2).
  assert (Hf : Form.form (formHandler (stopLoadingIndicator h2)) = Form.new).
  { unfold stopLoadingIndicator. destruct (loadingIndicator h2); reflexivity. }
  split; [|repeat split].
  - exists (l1 ++ l2)%list.
    change (output (stopLoadingIndicator h2) = (output h ++ (l1 ++ l2))%list).
    rewrite H2. change (output h2) with (output h1). rewrite H1, app_assoc. reflexivity.
  - cbn. rewrite Hp2. exact Hp1.
  - cbn. rewrite Ha2. exact Ha1.
  - cbn. rewrite Hi2. reflexivity.
  - exact Hf.
Qed.

(** A failed validation has at least one error. *)
Lemma invalid_has_errors (formData : FormData) :
  isValid (validateSignupRequest formData) = false ->
  0 < List.length (errors (validateSignupRequest formData)).
Proof.
  unfold validateSignupRequest. cbn [isValid errors].
  intros H. apply Nat.eqb_neq in H. lia.
Qed.

(** What [writeErrorMessage] writes for a list of field errors: the
    header and one line per error, all in red. *)
Lemma writeFieldErrors_output (errs : list ValidationError) (h : Handler) :
  output (writeFieldErrors errs h)
  = (output h
     ++ Term.Write (coloured "Validation errors:" "red")
        :: map (fun e => Term.Write
                           (coloured ("  " ++ ve_field e ++ ": "
                                      ++ default "undefined" (ve_message e)) "red"))
             errs)%list
  /\ loadingIndicator (writeFieldErrors errs h) = loadingIndicator h.
Proof.
  unfold writeFieldErrors.
  set (h0 := writeColoredText "Validation errors:" "red" h).
  assert (H0 : output h0
               = (output h ++ Term.Write (coloured "Validation errors:" "red") :: map (fun e => Term.Write
                           (coloured ("  " ++ ve_field e ++ ": "
                                      ++ default "undefined" (ve_message e)) "red")) [])%list
               /\ loadingIndicator h0 = loadingIndicator h) by (split; reflexivity).
  clearbody h0. revert h0 H0.
  assert (G : forall (done errs : list ValidationError) h0,
             output h0
             = (output h ++ Term.Write (coloured "Validation errors:" "red")
                  :: map (fun e => Term.Write
                           (coloured ("  " ++ ve_field e ++ ": "
                                      ++ default "undefined" (ve_message e)) "red")) done)%list
             /\ loadingIndicator h0 = loadingIndicator h ->
             output (foldl (fun h' e =>
                       writeColoredText
                         ("  " ++ ve_field e ++ ": " ++ default "undefined" (ve_message e))
                         "red" h') h0 errs)
             = (output h ++ Term.Write (coloured "Validation errors:" "red")
                  :: map (fun e => Term.Write
                           (coloured ("  " ++ ve_field e ++ ": "
                                      ++ default "undefined" (ve_message e)) "red"))
                       (done ++ errs))%list
             /\ loadingIndicator (foldl (fun h' e =>
                       writeColoredText
                         ("  " ++ ve_field e ++ ": " ++ default "undefined" (ve_message e))
                         "red" h') h0 errs) = loadingIndicator h).
  { intros done errs0. revert done. induction errs0 as [|e errs0 IH]; intros done h0 [Ho Hl].
    - rewrite app_nil_r. cbn [foldl]. auto.
    - cbn [foldl]. replace (done ++ e :: errs0)%list with ((done ++ [e]) ++ errs0)%list
        by (rewrite <- app_assoc; reflexivity).
      apply IH. split; [|exact Hl].
      rewrite output_writeColoredText, Ho, map_app, <- app_assoc. reflexivity. }
  intros h0 H0. exact (G [] errs h0 H0).
Qed.

(** finishAuthCommand() writes nothing but the sequence that erases a
    spinner line, and only when a spinner is on. *)
Lemma finishAuthCommand_output (h : Handler) :
  output (finishAuthCommand h)
  = (output h ++ match loadingIndicator h with
                 | Some _ => [Term.Write (CR ++ ESC ++ "[K")]
                 | None => []
                 end)%list.
Proof.
  unfold finishAuthCommand, setTerminalIdle, stopLoadingIndicator.
  destruct (loadingIndicator h) eqn:E; cbn; rewrite ?E; cbn; [reflexivity|].
  rewrite app_nil_r. reflexivity.
Qed.

(** Data whose confirmation differs from the password, or is missing,
    fails the validation with an error on the confirmation field. *)
Lemma mismatch_is_invalid (formData : FormData) :
  formData !! "password" <> formData !! "confirmPassword" ->
  isValid (validateSignupRequest formData) = false
  /\ (verr "confirmPassword" PASSWORD_MISMATCH ∈ errors (validateSignupRequest formData)
      \/ verr "confirmPassword" "Password confirmation is required"
         ∈ errors (validateSignupRequest formData)).
Proof.
  intros Hne. unfold validateSignupRequest. cbn [isValid errors].
  match goal with |- context [(?a ++ ?b ++ ?c ++ ?d)%list] =>
    set (eU := a); set (eE := b); set (eP := c); set (eC := d)
  end.
  assert (HC : verr "confirmPassword" PASSWORD_MISMATCH ∈ eC
               \/ verr "confirmPassword" "Password confirmation is required" ∈ eC).
  { subst eC. destruct (missing (formData !! "confirmPassword")).
    - right. apply list_elem_of_here.
    - left. rewrite bool_decide_eq_false_2 by exact Hne. apply list_elem_of_here. }
  split.
  - apply Nat.eqb_neq. rewrite !length_app.
    destruct HC as [HC|HC]; destruct eC; try (inversion HC; fail); cbn; lia.
  - destruct HC as [HC|HC]; [left|right]; rewrite !elem_of_app; auto.
Qed.

(** C8: when the collected signup data fails the client-side checks (the
    field validation, which includes the password confirmation),
    [processSignup] surfaces the error at once and finishes the command:
    it writes, in red, the header line and one line per failed check,
    naming the field and giving the message, and nothing else apart from
    erasing a spinner line if one is on; no store action is started,
    nothing is awaited and no request is sent. A confirmation that
    differs from the password is among the failed checks. The API
    client's own [signup] likewise rejects invalid data before sending. *)
Theorem invalid_signup_sends_nothing (formData : FormData) (h : Handler)
  (Hbad : isValid (validateSignupRequest formData) = false
          \/ formData !! "password" <> formData !! "confirmPassword") :
  let r := processSignupBegin formData h in
  snd r = None
  /\ provider (fst r) = provider h
  /\ sent (provider (fst r)) = sent (provider h)
  /\ awaiting (fst r) = awaiting h
  /\ isProcessing (fst r) = false
  /\ (exists line rest,
        output (fst r) = (output h ++ Term.Write line :: rest)%list
        /\ startsWith line (ESC ++ "[31m") = true)
  /\ (forall p : Provider,
        isValid (validateSignupRequest formData) = false ->
        sent (fst (AuthContext.signupBegin formData p)) = sent p
        /\ is_Some (snd (AuthContext.signupBegin formData p)))
  /\ output (fst r)
     = (output h
        ++ Term.Write (coloured "Validation errors:" "red")
           :: map (fun e => Term.Write
                              (coloured ("  " ++ ve_field e ++ ": "
                                         ++ default "undefined" (ve_message e)) "red"))
                (errors (validateSignupRequest formData))
        ++ match loadingIndicator h with
           | Some _ => [Term.Write (CR ++ ESC ++ "[K")]
           | None => []
           end)%list
  /\ errors (validateSignupRequest formData) <> []
  /\ (formData !! "password" <> formData !! "confirmPassword" ->
      verr "confirmPassword" PASSWORD_MISMATCH ∈ errors (validateSignupRequest formData)
      \/ verr "confirmPassword" "Password confirmation is required"
         ∈ errors (validateSignupRequest formData)).
Proof.
  cbv zeta.
  assert (Hv : isValid (validateSignupRequest formData) = false).
  { destruct Hbad as [Hv|Hne]; [exact Hv|apply mismatch_is_invalid, Hne]. }
  assert (Hclient : forall p : Provider,
             isValid (validateSignupRequest formData) = false ->
             sent (fst (AuthContext.signupBegin formData p)) = sent p
             /\ is_Some (snd (AuthContext.signupBegin formData p))).
  { intros p _. unfold AuthContext.signupBegin, AuthClient.signupBegin.
    rewrite Hv. cbn. split; [reflexivity|eauto]. }
  unfold processSignupBegin. rewrite Hv. cbn [negb fst snd].
  pose proof (invalid_has_errors formData Hv) as Hlen.
  assert (Hw : writeErrorMessage (ErrList (errors (validateSignupRequest formData))) h
               = writeFieldErrors (errors (validateSignupRequest formData)) h).
  { cbn [writeErrorMessage]. apply Nat.ltb_lt in Hlen. rewrite Hlen. reflexivity. }
  rewrite Hw.
  destruct (finishAuthCommand_spec
              (writeFieldErrors (errors (validateSignupRequest formData)) h))
    as (_ & Hp & Ha & Hi & _).
  destruct (writeFieldErrors_spec (errors (validateSignupRequest formData)) h)
    as (_ & _ & Hp' & Ha').
  destruct (writeFieldErrors_output (errors (validateSignupRequest formData)) h)
    as [Ho Hl].
  rewrite Hp, Ha, Hp', Ha', finishAuthCommand_output, Ho, Hl, <- app_assoc.
  do 5 (split; [auto|]).
  split; [|split; [intros p _; apply Hclient, Hv|split; [reflexivity|split]]].
  - eexists _, _. split; [reflexivity|reflexivity].
  - intros E. rewrite E in Hlen. cbn in Hlen. lia.
  - intros Hne. apply mismatch_is_invalid, Hne.
Qed.

Lemma invalid_signup_sends_nothing_witness :
  let formData : FormData :=
    {[ "username" := "bob"; "email" := "bob@x.com";
       "password" := "Aa1!aaaa"; "confirmPassword" := "Aa1!aaab" ]} in
  let h := AuthCmd.new (initialProvider (mkStorage true ∅)) in
  (isValid (validateSignupRequest formData) = false
   \/ formData !! "password" <> formData !! "confirmPassword")
  /\ snd (processSignupBegin formData h) = None
  /\ sent (provider (fst (processSignupBegin formData h))) = []
  /\ output (fst (processSignupBegin formData h))
     = [Term.Write (coloured "Validation errors:" "red");
        Term.Write (coloured "  confirmPassword: Passwords do not match" "red")].
Proof.
  cbv zeta.
  assert (Hbad : isValid (validateSignupRequest
                            {[ "username" := "bob"; "email" := "bob@x.com";
                               "password" := "Aa1!aaaa";
                               "confirmPassword" := "Aa1!aaab" ]}) = false
                 \/ ({[ "username" := "bob"; "email" := "bob@x.com";
                        "password" := "Aa1!aaaa";
                        "confirmPassword" := "Aa1!aaab" ]} : FormData) !! "password"
                    <> ({[ "username" := "bob"; "email" := "bob@x.com";
                           "password" := "Aa1!aaaa";
                           "confirmPassword" := "Aa1!aaab" ]} : FormData)
                         !! "confirmPassword").
  { left. vm_compute. reflexivity. }
  split; [exact Hbad|].
  destruct (invalid_signup_sends_nothing _
              (AuthCmd.new (initialProvider (mkStorage true ∅))) Hbad)
    as (H1 & _ & H3 & _ & _ & _ & _ & H8 & _).
  split; [exact H1|]. split; [exact H3|].
  rewrite H8. vm_compute. reflexivity.
Defined.

(** Valid data does start the signup action: one request is sent and the
    handler waits for it. *)
Example valid_signup_is_sent :
  let formData : FormData :=
    {[ "username" := "bob"; "email" := "bob@x.com";
       "password" := "Aa1!aaaa"; "confirmPassword" := "Aa1!aaaa" ]} in
  let r := processSignupBegin formData (AuthCmd.new (initialProvider (mkStorage true ∅))) in
  sent (provider (fst r)) = [mkNetCall EP_SIGNUP formData]
  /\ awaiting (fst r) = Some PendingSignup.
Proof. vm_compute. split; reflexivity. Qed.

End AuthCmdFacts.

(** ** The dispatchers *)
Module DispatcherFacts.
Import JS Term.

(** Every handler of the table leaves the history and its cursor alone. *)
Lemma legacy_handler_frame (key : string) (h : Legacy.Handler) :
  Legacy.ownProperty key Legacy.commands = Some h ->
  forall args t,
    Legacy.commandHistory (snd (h args t)) = Legacy.commandHistory t
    /\ Legacy.historyIndex (snd (h args t)) = Legacy.historyIndex t
    /\ Legacy.currentLine (snd (h args t)) = Legacy.currentLine t
    /\ Legacy.terminalReady (snd (h args t)) = Legacy.terminalReady t.
Proof.
  unfold Legacy.commands. cbn [Legacy.ownProperty].
  repeat (match goal with
          | |- (if String.eqb ?k key then _ else _) = _ -> _ =>
              destruct (String.eqb k key)
          end;
          [intros [= <-] args t; cbn; auto|]); try discriminate.
  all: try (unfold Legacy.opening;
            match goal with |- context [Legacy.goTo ?a ?b ?c ?d] =>
              destruct (Legacy.goTo a b c d) as [o [u|]] end; cbn; auto).
  all: try (destruct (Legacy.hasTheme _); cbn; auto).
Qed.

(** So does a call of anything that [commands[key]] finds. *)
Lemma legacy_member_frame (key : string) (m : Legacy.Member) :
  Legacy.lookupCommand key Legacy.commands = Some m ->
  forall args t,
    Legacy.commandHistory (snd (Legacy.callMember m args t)) = Legacy.commandHistory t
    /\ Legacy.historyIndex (snd (Legacy.callMember m args t)) = Legacy.historyIndex t
    /\ Legacy.currentLine (snd (Legacy.callMember m args t)) = Legacy.currentLine t
    /\ Legacy.terminalReady (snd (Legacy.callMember m args t)) = Legacy.terminalReady t.
Proof.
  unfold Legacy.lookupCommand.
  destruct (Legacy.ownProperty key Legacy.commands) as [h|] eqn:E.
  - intros [= <-] args t. cbn [Legacy.callMember].
    pose proof (legacy_handler_frame key h E args t) as H.
    destruct (h args t) as [o t2]. exact H.
  - case_bool_decide; [|discriminate]. intros [= <-] args t. cbn. auto.
Qed.

Lemma legacy_blank_commandM (cmd : string) (t : Legacy.Terminal) :
  trim cmd = "" ->
  Legacy.processCommandM cmd t = (Legacy.showPrompt t, true).
Proof. intros H. unfold Legacy.processCommandM. rewrite H. reflexivity. Qed.

Lemma legacy_blank_command (cmd : string) (t : Legacy.Terminal) :
  trim cmd = "" ->
  Legacy.processCommand cmd t = Legacy.showPrompt t.
Proof. intros H. unfold Legacy.processCommand. rewrite legacy_blank_commandM by exact H. reflexivity. Qed.

(** A command that is not blank is appended to the history, and the
    cursor is put past the end. *)
Lemma legacy_command_history (cmd : string) (t : Legacy.Terminal) :
  trim cmd <> "" ->
  Legacy.commandHistory (Legacy.processCommand cmd t)
  = (Legacy.commandHistory t ++ [cmd])%list
  /\ Legacy.historyIndex (Legacy.processCommand cmd t)
     = Z.of_nat (List.length (Legacy.commandHistory t ++ [cmd])).
Proof.
  intros H. unfold Legacy.processCommand, Legacy.processCommandM.
  destruct (String.eqb_spec (trim cmd) "") as [E|_]; [contradiction|].
  set (t1 := Legacy.setIndex _ (Legacy.pushHistory cmd t)).
  assert (H1 : Legacy.commandHistory t1 = (Legacy.commandHistory t ++ [cmd])%list
               /\ Legacy.historyIndex t1
                  = Z.of_nat (List.length (Legacy.commandHistory t ++ [cmd])))
    by (split; reflexivity).
  clearbody t1.
  assert (Hh : forall key m args,
             Legacy.lookupCommand key Legacy.commands = Some m ->
             Legacy.commandHistory (snd (Legacy.callMember m args t1))
             = (Legacy.commandHistory t ++ [cmd])%list
             /\ Legacy.historyIndex (snd (Legacy.callMember m args t1))
                = Z.of_nat (List.length (Legacy.commandHistory t ++ [cmd]))).
  { intros key m args Hk.
    destruct (legacy_member_frame key m Hk args t1) as (-> & -> & _). exact H1. }
  destruct (match splitSpace (trim cmd) with
            | p0 :: p1 :: _ => Legacy.lookupCommand (p0 ++ " " ++ p1) Legacy.commands
            | _ => None
            end) as [m|] eqn:Hc.
  - assert (Hk : exists key, Legacy.lookupCommand key Legacy.commands = Some m).
    { destruct (splitSpace (trim cmd)) as [|p0 [|p1 ?]]; try discriminate. eauto. }
    destruct Hk as [key Hk].
    specialize (Hh key m (drop 2 (splitSpace (trim cmd))) Hk).
    destruct (Legacy.callMember m (drop 2 (splitSpace (trim cmd))) t1) as [[o|] t2];
      cbn [snd] in Hh; [|exact Hh].
    destruct (ObjectPrototype.strictEquals o "CLEAR"); cbn; exact Hh.
  - destruct (Legacy.lookupCommand (default "" (head (splitSpace (trim cmd))))
                Legacy.commands) as [m|] eqn:Hb.
    + specialize (Hh _ m (drop 1 (splitSpace (trim cmd))) Hb).
      destruct (Legacy.callMember m (drop 1 (splitSpace (trim cmd))) t1) as [[o|] t2];
        cbn [snd] in Hh; [|exact Hh].
      destruct (ObjectPrototype.strictEquals o "CLEAR"); [cbn; exact Hh|].
      destruct (ObjectPrototype.strictEquals o "WELCOME"); cbn; exact Hh.
    + cbn. exact H1.
Qed.

Lemma legacy_command_index (cmd : string) (t : Legacy.Terminal) :
  Legacy.indexInRange t -> Legacy.indexInRange (Legacy.processCommand cmd t).
Proof.
  intros Hi. destruct (decide (trim cmd = "")) as [E|E].
  - rewrite (legacy_blank_command _ _ E). exact Hi.
  - destruct (legacy_command_history cmd t E) as [Hh Hx].
    unfold Legacy.indexInRange. rewrite Hh, Hx. lia.
Qed.

(** The Enter branch of the input callback: the state that processCommand
    leaves, with the line cleared unless the call threw. *)
Lemma legacy_enter (t : Legacy.Terminal) :
  let t1 := Legacy.writeToTerminal "" true t in
  match Legacy.processCommandM (Legacy.currentLine t1) t1 with
  | (t2, true) => Legacy.setLine "" t2
  | (t2, false) => t2
  end
  = if snd (Legacy.processCommandM (Legacy.currentLine t1) t1)
    then Legacy.setLine "" (Legacy.processCommand (Legacy.currentLine t1) t1)
    else Legacy.processCommand (Legacy.currentLine t1) t1.
Proof.
  cbv zeta. unfold Legacy.processCommand.
  destruct (Legacy.processCommandM _ _) as [t2 []]; reflexivity.
Qed.

(** The history cursor stays between -1 and the length of the history. *)
Lemma legacy_index_in_range (data : string) (t : Legacy.Terminal) :
  Legacy.indexInRange t -> Legacy.indexInRange (Legacy.onData data t).
Proof.
  intros Hi. unfold Legacy.onData.
  destruct (Legacy.terminalReady t); cbn [negb]; [|exact Hi].
  destruct (charCodeAt0 data) as [code|]; [|exact Hi].
  destruct (Nat.eqb code 13).
  { rewrite legacy_enter.
    pose proof (legacy_command_index (Legacy.currentLine (Legacy.writeToTerminal "" true t))
                  (Legacy.writeToTerminal "" true t) Hi) as Hc.
    destruct (snd _); exact Hc. }
  destruct (Nat.eqb code 127). { destruct (Nat.ltb _ _); exact Hi. }
  destruct (Nat.eqb code 9).
  { destruct (Legacy.matchesFor _) as [|m [|]]; exact Hi. }
  destruct (Nat.eqb code 12). { exact Hi. }
  destruct (Nat.eqb code 27).
  { unfold Legacy.indexInRange in *.
    destruct (String.eqb _ "[A").
    - destruct (Z.ltb_spec 0 (Legacy.historyIndex t)); cbn; lia.
    - destruct (String.eqb _ "[B"); [|exact Hi].
      destruct (Z.ltb_spec (Legacy.historyIndex t)
                  (Z.of_nat (List.length (Legacy.commandHistory t)) - 1)); cbn; [lia|].
      destruct (Z.eqb_spec (Legacy.historyIndex t)
                  (Z.of_nat (List.length (Legacy.commandHistory t)) - 1)); cbn; lia. }
  destruct (_ && _); exact Hi.
Qed.

(** Every position that the arrow keys read holds a command. *)
Lemma recall_in_range (t : Legacy.Terminal) :
  Legacy.indexInRange t ->
  ((0 < Legacy.historyIndex t)%Z ->
   is_Some (Legacy.commandHistory t !! Z.to_nat (Legacy.historyIndex t - 1)))
  /\ ((Legacy.historyIndex t < Z.of_nat (List.length (Legacy.commandHistory t)) - 1)%Z ->
      is_Some (Legacy.commandHistory t !! Z.to_nat (Legacy.historyIndex t + 1))).
Proof.
  unfold Legacy.indexInRange. intros Hi. split; intros H; apply lookup_lt_is_Some; lia.
Qed.


Lemma dropSpace_all (l : list ascii) :
  forallb isSpace l = true -> dropSpace l = [].
Proof.
  induction l as [|c l IH]; [reflexivity|]. cbn.
  destruct (isSpace c); [exact IH|discriminate].
Qed.

(** A line made of white space only (in particular the empty line) trims
    to the empty string. *)
Lemma trim_blank (s : string) :
  forallb isSpace (chars s) = true -> trim s = "".
Proof. intros H. unfold trim. rewrite (dropSpace_all _ H). reflexivity. Qed.

Lemma web_onHandler_id (t : Web.Terminal) :
  Web.onHandler (fun _ => Web.authHandler t) t = t.
Proof. destruct t; reflexivity. Qed.

(** In command mode the handler declines the key and the dispatcher
    decides by the first character code. *)
Lemma web_idle_key (data : string) (t : Web.Terminal) :
  Web.terminalReady t = true ->
  Web.isAuthProcessing t = false ->
  Web.onData data t =
  match charCodeAt0 data with
  | None => t
  | Some code =>
      if Nat.eqb code 13 then Web.onEnter t
      else if Nat.eqb code 127 then
        if Nat.ltb 0 (String.length (Web.currentLine t)) then
          Web.termWrite (BS ++ " " ++ BS) (Web.setLine (dropLast (Web.currentLine t)) t)
        else t
      else if Nat.eqb code 9 then Web.onTab t
      else if Nat.eqb code 12 then Web.setLine "" (Web.showPrompt (Web.termClear t))
      else if Nat.eqb code 3 then
        if Web.isAuthProcessing t then
          Web.setLine "" (Web.onHandler AuthCmd.cancelAuthCommand t)
        else Web.showPrompt (Web.setLine "" (Web.writeToTerminal "^C" true t))
      else if Nat.eqb code 27 then Web.onEscape data t
      else if Nat.leb 32 code && Nat.leb code 126 then
        Web.termWrite data (Web.setLine (Web.currentLine t ++ data) t)
      else t
  end.
Proof.
  intros Hr Hi. unfold Web.onData, AuthCmd.handleInput. rewrite Hr. cbn [negb].
  unfold Web.isAuthProcessing, AuthCmd.isAuthProcessing in Hi. rewrite Hi. cbn [negb].
  rewrite web_onHandler_id. reflexivity.
Qed.

(** A key of two words, as the compound lookup builds it, has a space and
    is the name of no inherited member. *)
Lemma compound_not_inherited (p0 p1 : string) :
  p0 ++ " " ++ p1 ∉ ObjectPrototype.members.
Proof.
  assert (Hs : includes (p0 ++ " " ++ p1) " " = true).
  { induction p0 as [|c p0 IH]; [destruct p1; reflexivity|].
    change (String.prefix " " (String c (p0 ++ " " ++ p1))
            || includes (p0 ++ " " ++ p1) " " = true).
    rewrite IH. apply orb_true_r. }
  intros Hin.
  assert (Hm : Forall (fun m => includes m " " = false) ObjectPrototype.members).
  { unfold ObjectPrototype.members.
    repeat (apply Forall_cons; split; [vm_compute; reflexivity|]). apply Forall_nil. exact I. }
  rewrite Forall_forall in Hm. rewrite (Hm _ Hin) in Hs. discriminate.
Qed.

(** What the dispatcher without accounts does with the names that
    [commands] inherits: the value of [constructor] is the argument array,
    so that its text is printed even when it reads CLEAR; [toString]
    prints the tag of the table; [hasOwnProperty] tells whether the
    argument is a command; and the call of [__proto__] throws after the
    command has been recorded, so that the line is not cleared and no
    prompt is written. *)
Example legacy_inherited_members :
  let t := Legacy.startPortfolio Legacy.initial in
  let added cmd := drop (List.length (Legacy.screen t))
                     (Legacy.screen (Legacy.feed (Legacy.typed cmd) t)) in
  added "constructor CLEAR"
  = [Write "c"; Write "o"; Write "n"; Write "s"; Write "t"; Write "r"; Write "u";
     Write "c"; Write "t"; Write "o"; Write "r"; Write " "; Write "C"; Write "L";
     Write "E"; Write "A"; Write "R"; Write CRLF; Write ("CLEAR" ++ CRLF);
     Write Legacy.promptText]
  /\ text (drop 9 (added "toString")) = "[object Object]" ++ CRLF ++ Legacy.promptText
  /\ text (drop 20 (added "hasOwnProperty help")) = "true" ++ CRLF ++ Legacy.promptText
  /\ text (drop 10 (added "__proto__")) = ""
  /\ Legacy.currentLine (Legacy.feed (Legacy.typed "__proto__") t) = "__proto__"
  /\ Legacy.commandHistory (Legacy.feed (Legacy.typed "__proto__") t) = ["__proto__"]
  /\ Legacy.currentLine (Legacy.feed (Legacy.typed "toString") t) = "".
Proof. vm_compute. repeat split; reflexivity. Qed.

(** The same in the dispatcher with accounts. *)
Example web_inherited_members :
  let t := Web.startPortfolio
             (Web.mounted (AuthContext.initialProvider (AuthClient.mkStorage true ∅))) in
  let after cmd := Web.feed (Legacy.typed cmd) t in
  Web.currentTheme (after "themes set constructor") = "constructor"
  /\ Web.currentLine (after "__proto__") = "__proto__"
  /\ Web.commandHistory (after "__proto__") = ["__proto__"]
  /\ Web.screen (after "__proto__")
     = (Web.screen t ++ map (fun c => Write (String c "")) (chars "__proto__")
        ++ [Write CRLF])%list
  /\ Web.currentLine (after "valueOf") = "".
Proof. vm_compute. repeat split; reflexivity. Qed.

(** C10: Enter on a line that is empty or all white space, in command
    mode, writes the line break of the Enter key and the prompt and
    nothing else; the history and its cursor are unchanged and the line
    is reset. [processCommand] itself only draws the prompt. This holds in
    the dispatcher without accounts and in the one with accounts. *)
Theorem blank_enter_only_redraws_prompt (data : string)
  (Henter : charCodeAt0 data = Some 13) :
  (forall t : Legacy.Terminal,
      Legacy.terminalReady t = true ->
      forallb isSpace (chars (Legacy.currentLine t)) = true ->
      let t' := Legacy.onData data t in
      Legacy.commandHistory t' = Legacy.commandHistory t
      /\ Legacy.historyIndex t' = Legacy.historyIndex t
      /\ Legacy.screen t'
         = (Legacy.screen t ++ [Write CRLF; Write Legacy.promptText])%list
      /\ Legacy.currentLine t' = ""
      /\ Legacy.opened t' = Legacy.opened t
      /\ Legacy.screen (Legacy.processCommand (Legacy.currentLine t) t)
         = (Legacy.screen t ++ [Write Legacy.promptText])%list)
  /\ (forall t : Web.Terminal,
         Web.terminalReady t = true ->
         Web.isAuthProcessing t = false ->
         forallb isSpace (chars (Web.currentLine t)) = true ->
         let t' := Web.onData data t in
         Web.commandHistory t' = Web.commandHistory t
         /\ Web.historyIndex t' = Web.historyIndex t
         /\ Web.screen t'
            = (Web.screen t
               ++ [Write CRLF; Write (Prompt.getCurrentPrompt (Web.authRef t))])%list
         /\ Web.currentLine t' = ""
         /\ Web.opened t' = Web.opened t
         /\ AuthCmd.provider (Web.authHandler t') = AuthCmd.provider (Web.authHandler t)).
Proof.
  split.
  - intros t Hr Hb. cbv zeta. apply trim_blank in Hb.
    unfold Legacy.onData. rewrite Hr, Henter. cbn [negb Nat.eqb].
    change (Legacy.currentLine (Legacy.writeToTerminal "" true t))
      with (Legacy.currentLine t).
    rewrite (legacy_blank_commandM _ _ Hb), (legacy_blank_command _ _ Hb). cbn.
    rewrite <- app_assoc. repeat split; reflexivity.
  - intros t Hr Hi Hb. cbv zeta. apply trim_blank in Hb.
    rewrite (web_idle_key data t Hr Hi), Henter. cbn [Nat.eqb].
    unfold Web.onEnter.
    change (Web.isAuthProcessing (Web.writeToTerminal "" true t))
      with (Web.isAuthProcessing t).
    rewrite Hi. unfold Web.processCommandM.
    change (Web.currentLine (Web.writeToTerminal "" true t)) with (Web.currentLine t).
    rewrite Hb.
    change (String.eqb "" "") with true. cbv iota.
    unfold Web.screen, AuthCmd.output, Web.showPrompt, Web.writeToTerminal,
      Web.termWrite, Web.onHandler, Web.setLine, AuthCmd.termWrite, AuthCmd.onForm.
    cbn [Web.authHandler Web.currentLine Web.commandHistory Web.historyIndex
         Web.authRef Web.opened AuthCmd.formHandler AuthCmd.provider Form.out
         Form.write Form.emit fst].
    rewrite <- !app_assoc. repeat split; reflexivity.
Qed.

Lemma blank_enter_only_redraws_prompt_witness :
  let t := Legacy.feed [" "; " "] (Legacy.startPortfolio Legacy.initial) in
  charCodeAt0 CR = Some 13
  /\ Legacy.terminalReady t = true
  /\ forallb isSpace (chars (Legacy.currentLine t)) = true
  /\ Legacy.commandHistory (Legacy.onData CR t) = Legacy.commandHistory t
  /\ Legacy.screen (Legacy.onData CR t)
     = (Legacy.screen t ++ [Write CRLF; Write Legacy.promptText])%list.
Proof.
  cbv zeta. split; [reflexivity|]. split; [reflexivity|]. split; [reflexivity|].
  destruct (proj1 (blank_enter_only_redraws_prompt CR eq_refl)
              (Legacy.feed [" "; " "] (Legacy.startPortfolio Legacy.initial))
              eq_refl eq_refl) as (H1 & _ & H3 & _).
  split; [exact H1|exact H3].
Defined.

(** C6: in a ready terminal with an empty history and an empty line,
    after the commands whoami and help have been typed and submitted, Up
    twice shows whoami, Down then shows help, and Down again leaves the
    line empty. This holds in the dispatcher without accounts from any
    such state, and in the dispatcher with accounts as mounted for a
    guest. *)
Theorem history_recall_scenario :
  (forall t : Legacy.Terminal,
      Legacy.terminalReady t = true ->
      Legacy.commandHistory t = [] ->
      Legacy.currentLine t = "" ->
      let t2 := Legacy.feed (Legacy.typed "whoami" ++ Legacy.typed "help") t in
      Legacy.commandHistory t2 = ["whoami"; "help"]
      /\ Legacy.currentLine t2 = ""
      /\ Legacy.currentLine (Legacy.feed [Legacy.keyUp; Legacy.keyUp] t2) = "whoami"
      /\ Legacy.currentLine (Legacy.feed [Legacy.keyUp; Legacy.keyUp; Legacy.keyDown] t2)
         = "help"
      /\ Legacy.currentLine
           (Legacy.feed [Legacy.keyUp; Legacy.keyUp; Legacy.keyDown; Legacy.keyDown] t2)
         = "")
  /\ (let t := Web.startPortfolio
                 (Web.mounted (AuthContext.initialProvider (AuthClient.mkStorage true ∅))) in
      let t2 := Web.feed (Legacy.typed "whoami" ++ Legacy.typed "help") t in
      Web.commandHistory t = []
      /\ Web.commandHistory t2 = ["whoami"; "help"]
      /\ Web.currentLine t2 = ""
      /\ Web.currentLine (Web.feed [Legacy.keyUp; Legacy.keyUp] t2) = "whoami"
      /\ Web.currentLine (Web.feed [Legacy.keyUp; Legacy.keyUp; Legacy.keyDown] t2)
         = "help"
      /\ Web.currentLine
           (Web.feed [Legacy.keyUp; Legacy.keyUp; Legacy.keyDown; Legacy.keyDown] t2)
         = "").
Proof.
  split.
  - intros [r l h i th sc op] Hready Hhist Hline.
    cbn in Hready, Hhist, Hline. subst r l h.
    vm_compute. repeat split; reflexivity.
  - vm_compute. repeat split; reflexivity.
Qed.

Lemma history_recall_scenario_witness :
  let t := Legacy.startPortfolio Legacy.initial in
  let t2 := Legacy.feed (Legacy.typed "whoami" ++ Legacy.typed "help") t in
  Legacy.terminalReady t = true
  /\ Legacy.commandHistory t = []
  /\ Legacy.currentLine t = ""
  /\ Legacy.currentLine (Legacy.feed [Legacy.keyUp; Legacy.keyUp] t2) = "whoami"
  /\ Legacy.currentLine (Legacy.feed [Legacy.keyUp; Legacy.keyUp; Legacy.keyDown] t2)
     = "help".
Proof.
  cbv zeta. do 3 (split; [reflexivity|]).
  destruct (proj1 history_recall_scenario (Legacy.startPortfolio Legacy.initial)
              eq_refl eq_refl eq_refl) as (_ & _ & H3 & H4 & _).
  split; [exact H3|exact H4].
Defined.

(** The single-token command names that Tab chooses from. *)
Example web_availableCommands :
  Web.availableCommands
  = ["welcome"; "help"; "about"; "clear"; "echo"; "education"; "email"; "gui";
     "history"; "projects"; "pwd"; "socials"; "themes"; "whoami"; "github"].
Proof. vm_compute. reflexivity. Qed.

(** The candidates are the names that start with the lower-cased line. *)
Lemma web_matchesFor_spec (line m : string) :
  m ∈ Web.matchesFor line
  <-> m ∈ Web.availableCommands /\ startsWith m (toLowerCase line) = true.
Proof.
  unfold Web.matchesFor. rewrite list_elem_of_filter.
  split; intros [H1 H2]; split; auto; destruct (startsWith m (toLowerCase line)); auto.
Qed.

(** C7, as amended: in command mode of the dispatcher with accounts, Tab
    on a line that more than one single-token command name starts with
    writes a line break, the matching names joined by two spaces and a
    line break, the prompt, and the line again; the line, the history and
    its cursor are unchanged. The dispatcher without accounts does nothing
    at all unless exactly one name matches. *)
Theorem tab_lists_matches (data : string) (Htab : charCodeAt0 data = Some 9) :
  (forall t : Web.Terminal,
      Web.terminalReady t = true ->
      Web.isAuthProcessing t = false ->
      1 < List.length (Web.matchesFor (Web.currentLine t)) ->
      let t' := Web.onData data t in
      Web.screen t'
      = (Web.screen t
         ++ [Write CRLF;
             Write (join "  " (Web.matchesFor (Web.currentLine t)) ++ CRLF);
             Write (Prompt.getCurrentPrompt (Web.authRef t));
             Write (Web.currentLine t)])%list
      /\ Web.currentLine t' = Web.currentLine t
      /\ Web.commandHistory t' = Web.commandHistory t
      /\ Web.historyIndex t' = Web.historyIndex t)
  /\ (forall t : Legacy.Terminal,
         List.length (Legacy.matchesFor (Legacy.currentLine t)) <> 1 ->
         Legacy.onData data t = t).
Proof.
  split.
  - intros t Hr Hi Hm. cbv zeta.
    rewrite (web_idle_key data t Hr Hi), Htab. cbn [Nat.eqb].
    unfold Web.onTab. rewrite Hi.
    destruct (Web.matchesFor (Web.currentLine t)) as [|m1 [|m2 ms]] eqn:E;
      cbn [List.length] in Hm; try lia.
    unfold Web.screen, AuthCmd.output, Web.showPrompt, Web.writeToTerminal,
      Web.termWrite, Web.onHandler, AuthCmd.termWrite, AuthCmd.onForm.
    cbn [Web.authHandler Web.currentLine Web.commandHistory Web.historyIndex
         Web.authRef AuthCmd.formHandler Form.out Form.write Form.emit fst].
    rewrite <- !app_assoc. repeat split; reflexivity.
  - intros t Hm. unfold Legacy.onData.
    destruct (Legacy.terminalReady t); cbn [negb]; [|reflexivity].
    rewrite Htab. cbn [Nat.eqb].
    destruct (Legacy.matchesFor (Legacy.currentLine t)) as [|m1 [|m2 ms]];
      cbn in Hm; try reflexivity. lia.
Qed.

Lemma tab_lists_matches_witness :
  let t := Web.feed ["e"]
             (Web.startPortfolio (Web.mounted
                (AuthContext.initialProvider (AuthClient.mkStorage true ∅)))) in
  charCodeAt0 Legacy.keyTab = Some 9
  /\ Web.terminalReady t = true
  /\ Web.isAuthProcessing t = false
  /\ Web.matchesFor (Web.currentLine t) = ["echo"; "education"; "email"]
  /\ Web.currentLine (Web.onData Legacy.keyTab t) = "e".
Proof.
  cbv zeta. do 4 (split; [reflexivity|]).
  refine (proj1 (proj2 (proj1 (tab_lists_matches Legacy.keyTab eq_refl) _ _ _ _))).
  - reflexivity.
  - reflexivity.
  - vm_compute. lia.
Defined.

(** C7 fails as stated: with the line h, which help and history start
    with, the dispatcher with accounts writes the two names separated by
    two spaces, so the space-joined list occurs nowhere in what it writes;
    and the dispatcher without accounts writes nothing. *)
Lemma tab_list_not_space_joined :
  let web := Web.feed ["h"]
               (Web.startPortfolio (Web.mounted
                  (AuthContext.initialProvider (AuthClient.mkStorage true ∅)))) in
  let old := Legacy.feed ["h"] (Legacy.startPortfolio Legacy.initial) in
  let added := drop (List.length (Web.screen web))
                 (Web.screen (Web.onData Legacy.keyTab web)) in
  Web.matchesFor (Web.currentLine web) = ["help"; "history"]
  /\ text added
     = CRLF ++ "help  history" ++ CRLF ++ Prompt.getCurrentPrompt (Web.authRef web) ++ "h"
  /\ includes (text added) (join " " ["help"; "history"]) = false
  /\ Legacy.matchesFor (Legacy.currentLine old) = ["help"; "history"]
  /\ Legacy.screen (Legacy.onData Legacy.keyTab old) = Legacy.screen old.
Proof. vm_compute. repeat split; reflexivity. Qed.

(** With the line he only help matches, and Tab completes it. *)
Example tab_completes_single_match :
  let web := Web.feed ["h"; "e"]
               (Web.startPortfolio (Web.mounted
                  (AuthContext.initialProvider (AuthClient.mkStorage true ∅)))) in
  Web.currentLine (Web.onData Legacy.keyTab web) = "help".
Proof. vm_compute. reflexivity. Qed.

(** A signup whose confirmation does not match is rejected by the
    dispatcher as a whole without any request; a matching one is sent. *)
Example web_signup_mismatch_sends_nothing :
  let t := Web.feed (Legacy.typed "antec signup" ++ Legacy.typed "bob"
                     ++ Legacy.typed "bob@x.com" ++ Legacy.typed "Aa1!aaaa"
                     ++ Legacy.typed "Aa1!aaab")
             (Web.startPortfolio (Web.mounted
                (AuthContext.initialProvider (AuthClient.mkStorage true ∅)))) in
  AuthContext.sent (AuthCmd.provider (Web.authHandler t)) = []
  /\ AuthCmd.awaiting (Web.authHandler t) = None
  /\ Web.isAuthProcessing t = false.
Proof. vm_compute. repeat split; reflexivity. Qed.

Example web_signup_valid_is_sent :
  let t := Web.feed (Legacy.typed "antec signup" ++ Legacy.typed "bob"
                     ++ Legacy.typed "bob@x.com" ++ Legacy.typed "Aa1!aaaa"
                     ++ Legacy.typed "Aa1!aaaa")
             (Web.startPortfolio (Web.mounted
                (AuthContext.initialProvider (AuthClient.mkStorage true ∅)))) in
  List.length (AuthContext.sent (AuthCmd.provider (Web.authHandler t))) = 1
  /\ AuthCmd.awaiting (Web.authHandler t) = Some AuthCmd.PendingSignup
  /\ AuthContext.st_authState (AuthContext.state (AuthCmd.provider (Web.authHandler t)))
     = Shared.UNAUTHENTICATED
  /\ AuthContext.st_loading (AuthContext.state (AuthCmd.provider (Web.authHandler t)))
     = true.
Proof. vm_compute. repeat split; reflexivity. Qed.

End DispatcherFacts.

(** ** Request validation *)
Module ValidationFacts.
Import JS Regex Shared.

Lemma str_chars (s : string) : str (chars s) = s.
Proof. apply string_of_list_ascii_of_string. Qed.

Lemma chars_str (l : list ascii) : chars (str l) = l.
Proof. apply list_ascii_of_string_of_list_ascii. Qed.

Lemma length_chars (s : string) : List.length (chars s) = String.length s.
Proof. induction s; simpl; congruence. Qed.

(** A regular expression that matches nothing stays so under sequencing. *)
Lemma test_seq_dead (a b : re) :
  (forall s, test a s = false) -> forall s, test (Seq a b) s = false.
Proof.
  intros Ha s. revert a Ha. induction s as [|c s IH]; intros a Ha.
  - pose proof (Ha "") as Hn. simpl in Hn. simpl. rewrite Hn. reflexivity.
  - simpl. pose proof (Ha "") as Hn. simpl in Hn. rewrite Hn.
    apply IH. intros s'. apply (Ha (String c s')).
Qed.

Lemma test_void (s : string) : test Void s = false.
Proof. induction s; simpl; auto. Qed.

Lemma test_alt (a b : re) (s : string) :
  test (Alt a b) s = test a s || test b s.
Proof. revert a b. induction s as [|c s IH]; intros a b; simpl; auto. Qed.

Lemma test_eps_seq (r : re) (s : string) : test (Seq Eps r) s = test r s.
Proof.
  destruct s as [|c s]; simpl; [reflexivity|].
  rewrite test_alt, (test_seq_dead Void r test_void). reflexivity.
Qed.

Lemma test_star_cls (p : ascii -> bool) (s : string) :
  test (Star (Cls p)) s = forallb p (chars s).
Proof.
  induction s as [|c s IH]; simpl; [reflexivity|].
  destruct (p c); simpl.
  - rewrite test_eps_seq. exact IH.
  - apply test_seq_dead, test_void.
Qed.

(** The matcher on a one-or-more repetition of a character class. *)
Lemma test_plus_cls (p : ascii -> bool) (s : string) :
  test (Plus (Cls p)) s = negb (Nat.eqb (String.length s) 0) && forallb p (chars s).
Proof.
  destruct s as [|c s]; simpl; [reflexivity|].
  destruct (p c); simpl.
  - rewrite test_eps_seq. apply test_star_cls.
  - apply test_seq_dead, test_void.
Qed.

(** A match of [p+ r] starts with a character of the class. *)
Lemma test_plus_head (p : ascii -> bool) (r : re) (s : string) :
  test (Seq (Plus (Cls p)) r) s = true ->
  exists c s', s = String c s' /\ p c = true.
Proof.
  destruct s as [|c s]; simpl; [discriminate|].
  destruct (p c) eqn:Hp; [eauto|].
  intros H. rewrite test_seq_dead in H; [discriminate|].
  apply test_seq_dead, test_void.
Qed.

Lemma dropSpace_nil (l : list ascii) :
  dropSpace l = [] -> forallb isSpace l = true.
Proof.
  induction l as [|c l IH]; simpl; [auto|].
  destruct (isSpace c); simpl; [auto|discriminate].
Qed.

Lemma trim_nonblank (c : ascii) (s : string) :
  isSpace c = false -> String.length (trim (String c s)) <> 0.
Proof.
  intros Hc. unfold trim. simpl chars. simpl dropSpace. rewrite Hc.
  intros H.
  assert (Hn : dropSpace (rev (c :: chars s)) = []).
  { destruct (dropSpace (rev (c :: chars s))) as [|x l] eqn:E; [reflexivity|].
    exfalso. revert H. rewrite <- (length_chars (str _)), chars_str, length_rev.
    simpl. lia. }
  apply dropSpace_nil in Hn. rewrite forallb_forall in Hn.
  specialize (Hn c). rewrite Hc in Hn. 
  assert (Hin : In c (rev (c :: chars s))) by (apply in_rev; rewrite rev_involutive; left; reflexivity).
  specialize (Hn Hin). discriminate.
Qed.

Lemma username_errors (u : string) :
  fv_errors (validateField "username" u) =
  ((if Nat.ltb (String.length u) 3 then ["Must be at least 3 characters long"] else [])
   ++ (if Nat.ltb 50 (String.length u)
       then ["Must be no more than 50 characters long"] else [])
   ++ (if negb (test usernamePattern u)
       then ["Username must be 3-50 characters, alphanumeric and underscore only"]
       else []))%list.
Proof. reflexivity. Qed.

Lemma validateField_isValid (f v : string) :
  fv_isValid (validateField f v) = Nat.eqb (List.length (fv_errors (validateField f v))) 0.
Proof. unfold validateField. destruct (VALIDATION f); reflexivity. Qed.

Lemma validateField_message (f v : string) :
  fv_message (validateField f v) = head (fv_errors (validateField f v)).
Proof. unfold validateField. destruct (VALIDATION f); reflexivity. Qed.

Lemma username_valid (u : string) :
  fv_isValid (validateField "username" u) = true <->
  3 <= String.length u <= 50 /\ forallb isWordChar (chars u) = true.
Proof.
  rewrite validateField_isValid, username_errors.
  unfold usernamePattern. rewrite test_plus_cls.
  destruct (Nat.ltb_spec (String.length u) 3), (Nat.ltb_spec 50 (String.length u)),
    (forallb isWordChar (chars u));
    destruct (Nat.eqb_spec (String.length u) 0); simpl; split; intros H';
    try discriminate; try reflexivity; try (split; [lia|reflexivity]);
    destruct H' as [H1 H2]; try discriminate; try lia.

Qed.

Lemma email_valid (e : string) :
  fv_isValid (validateField "email" e) = test emailPattern e.
Proof.
  rewrite validateField_isValid. unfold validateField. cbn.
  destruct (test emailPattern e); reflexivity.
Qed.

Lemma password_valid (p : string) :
  fv_isValid (validateField "password" p) = Nat.leb 8 (String.length p).
Proof.
  rewrite validateField_isValid.
  change (fv_errors (validateField "password" p))
    with ((if Nat.ltb (String.length p) 8
           then ["Must be at least 8 characters long"] else []) ++ [] ++ [])%list.
  destruct (Nat.ltb_spec (String.length p) 8), (Nat.leb_spec 8 (String.length p));
    simpl; try reflexivity; lia.
Qed.

Lemma word_not_space (c : ascii) : isWordChar c = true -> isSpace c = false.
Proof.
  destruct c as [[] [] [] [] [] [] [] []]; vm_compute; intros H;
    first [reflexivity | discriminate].
Qed.

Lemma notSpaceAt_not_space (c : ascii) : notSpaceAt c = true -> isSpace c = false.
Proof. unfold notSpaceAt. destruct (isSpace c); simpl; [discriminate|reflexivity]. Qed.

Lemma blank_false (v : option string) :
  blank v = false <->
  exists c s, v = Some (String c s) /\ String.length (trim (String c s)) <> 0.
Proof.
  unfold blank. destruct v as [[|c s]|]; simpl.
  - split; [discriminate|]. intros (c & s & H & _). discriminate.
  - destruct (Nat.eqb_spec (String.length (trim (String c s))) 0) as [E|E]; split.
    + discriminate.
    + intros (c' & s' & H & Hn). inversion H; subst. contradiction.
    + intros _. eauto.
    + reflexivity.
  - split; [discriminate|]. intros (c & s & H & _). discriminate.
Qed.

Lemma missing_false (v : option string) :
  missing v = false <-> exists c s, v = Some (String c s).
Proof.
  unfold missing. destruct v as [[|c s]|]; simpl; split; try discriminate; eauto;
    intros (c' & s' & H); discriminate.
Qed.

Lemma test_eps (s : string) : test Eps s = true <-> s = "".
Proof.
  destruct s as [|c s]; simpl; [tauto|]. rewrite test_void. split; discriminate.
Qed.

(** A character class matches exactly the one-character strings of the class. *)
Lemma test_cls (p : ascii -> bool) (s : string) :
  test (Cls p) s = true <-> exists c, s = String c "" /\ p c = true.
Proof.
  destruct s as [|c s]; simpl.
  - split; [discriminate|]. intros (c & H & _). discriminate.
  - destruct (p c) eqn:Hp.
    + rewrite test_eps. split.
      * intros ->. eauto.
      * intros (c' & [= -> ->] & _). reflexivity.
    + rewrite test_void. split; [discriminate|].
      intros (c' & [= -> ->] & H). congruence.
Qed.

(** A sequence matches exactly the concatenations of a match of each part. *)
Lemma test_seq (a b : re) (s : string) :
  test (Seq a b) s = true <->
  exists s1 s2, s = s1 ++ s2 /\ test a s1 = true /\ test b s2 = true.
Proof.
  revert a. induction s as [|c s IH]; intros a.
  - simpl. rewrite andb_true_iff. split.
    + intros [H1 H2]. exists "", "". auto.
    + intros (s1 & s2 & E & H1 & H2).
      destruct s1; [|discriminate]. destruct s2; [|discriminate]. auto.
  - change (test (Seq a b) (String c s)) with (test (deriv c (Seq a b)) s).
    cbn [deriv]. destruct (nullable a) eqn:Hn.
    + rewrite test_alt, orb_true_iff, IH. split.
      * intros [(s1 & s2 & -> & H1 & H2)|H].
        -- exists (String c s1), s2. auto.
        -- exists "", (String c s). auto.
      * intros (s1 & s2 & E & H1 & H2). destruct s1 as [|c1 s1].
        -- right. change (String c s = s2) in E. rewrite <- E in H2. exact H2.
        -- left. change (String c s = String c1 (s1 ++ s2)) in E.
           injection E as -> ->. exists s1, s2. auto.
    + rewrite IH. split.
      * intros (s1 & s2 & -> & H1 & H2). exists (String c s1), s2. auto.
      * intros (s1 & s2 & E & H1 & H2). destruct s1 as [|c1 s1].
        -- simpl in H1. congruence.
        -- change (String c s = String c1 (s1 ++ s2)) in E.
           injection E as -> ->. exists s1, s2. auto.
Qed.

Lemma test_plus_spec (p : ascii -> bool) (s : string) :
  test (Plus (Cls p)) s = true <-> s <> "" /\ forallb p (chars s) = true.
Proof.
  rewrite test_plus_cls, andb_true_iff, negb_true_iff, Nat.eqb_neq.
  destruct s; simpl; split; intros [H1 H2]; split; auto; try congruence; lia.
Qed.

(** The e-mail pattern accepts exactly the strings [local@domain.tld] whose
    three parts are non-empty and contain neither white space nor [@]. *)
Lemma email_pattern_spec (e : string) :
  test emailPattern e = true <->
  exists l d t,
    e = l ++ "@" ++ d ++ "." ++ t
    /\ l <> "" /\ d <> "" /\ t <> ""
    /\ forallb notSpaceAt (chars l) = true
    /\ forallb notSpaceAt (chars d) = true
    /\ forallb notSpaceAt (chars t) = true.
Proof.
  unfold emailPattern. rewrite test_seq. split.
  - intros (l & r1 & -> & Hl & H1).
    apply test_seq in H1 as (at' & r2 & -> & Hat & H2).
    apply test_seq in H2 as (d & r3 & -> & Hd & H3).
    apply test_seq in H3 as (dot & t & -> & Hdot & Ht).
    apply test_cls in Hat as (c1 & -> & Hc1). apply test_cls in Hdot as (c2 & -> & Hc2).
    unfold isChar in *. apply Ascii.eqb_eq in Hc1, Hc2. subst c1 c2.
    apply test_plus_spec in Hl as [? ?], Hd as [? ?], Ht as [? ?].
    exists l, d, t. auto 10.
  - intros (l & d & t & -> & Hl & Hd & Ht & Fl & Fd & Ft).
    exists l, ("@" ++ d ++ "." ++ t). split; [reflexivity|].
    split; [apply test_plus_spec; auto|].
    apply test_seq. exists "@", (d ++ "." ++ t). split; [reflexivity|].
    split; [reflexivity|].
    apply test_seq. exists d, ("." ++ t). split; [reflexivity|].
    split; [apply test_plus_spec; auto|].
    apply test_seq. exists ".", t. split; [reflexivity|].
    split; [reflexivity|apply test_plus_spec; auto].
Qed.

(** Validity of a signup request, with the e-mail condition as the
    pattern test. *)
Lemma signup_valid_spec (data : FormData) :
  isValid (validateSignupRequest data) = true <->
  exists u e p,
    data !! "username" = Some u /\ data !! "email" = Some e
    /\ data !! "password" = Some p /\ data !! "confirmPassword" = Some p
    /\ 3 <= String.length u <= 50 /\ forallb isWordChar (chars u) = true
    /\ test emailPattern e = true
    /\ 8 <= String.length p.
Proof.
  unfold validateSignupRequest. cbn [isValid].
  match goal with
  | |- context [Nat.eqb (List.length (?a ++ ?b ++ ?c ++ ?d)%list) 0] =>
      set (A := a); set (B := b); set (C := c); set (D := d)
  end.
  assert (HA : A = [] <->
    exists u, data !! "username" = Some u /\ 3 <= String.length u <= 50
              /\ forallb isWordChar (chars u) = true).
  { subst A. destruct (blank (data !! "username")) eqn:Hb.
    - split; [discriminate|]. intros (u & Hu & Hlen & Hw).
      rewrite Hu in Hb.
      destruct u as [|c s]; [simpl in Hlen; lia|].
      simpl in Hw. apply andb_prop in Hw as [Hc _].
      apply word_not_space in Hc.
      pose proof (trim_nonblank c s Hc) as Hn.
      unfold blank in Hb. simpl in Hb.
      destruct (Nat.eqb_spec (String.length (trim (String c s))) 0); [contradiction|discriminate].
    - apply blank_false in Hb as (c & s & Hv & _). rewrite Hv.
      change (default "" (Some (String c s))) with (String c s).
      destruct (fv_isValid (validateField "username" (String c s))) eqn:Hv'.
      + cbn [negb]. split; [intros _|reflexivity].
        apply username_valid in Hv'. exists (String c s). tauto.
      + cbn [negb]. split.
        * repeat match goal with |- context [if ?b then _ else _] => destruct b end;
            discriminate.
        * intros (u & Hu & Hrest). inversion Hu; subst u.
          apply username_valid in Hrest. congruence. }
  assert (HB : B = [] <->
    exists e, data !! "email" = Some e /\ test emailPattern e = true).
  { subst B. destruct (blank (data !! "email")) eqn:Hb.
    - split; [discriminate|]. intros (e & He & Ht). rewrite He in Hb.
      apply test_plus_head in Ht as (c & s & -> & Hc).
      apply notSpaceAt_not_space in Hc.
      pose proof (trim_nonblank c s Hc) as Hn.
      unfold blank in Hb. simpl in Hb.
      destruct (Nat.eqb_spec (String.length (trim (String c s))) 0);
        [contradiction|discriminate].
    - apply blank_false in Hb as (c & s & Hv & _). rewrite Hv.
      change (default "" (Some (String c s))) with (String c s).
      rewrite email_valid.
      destruct (test emailPattern (String c s)) eqn:Ht; cbn [negb]; split.
      + eauto.
      + reflexivity.
      + discriminate.
      + intros (e & He & Ht'). inversion He; subst e. congruence. }
  assert (HC : C = [] <->
    exists p, data !! "password" = Some p /\ 8 <= String.length p).
  { subst C. destruct (missing (data !! "password")) eqn:Hm.
    - split; [discriminate|]. intros (p & Hp & Hlen). rewrite Hp in Hm.
      destruct p; [simpl in Hlen; lia|discriminate].
    - apply missing_false in Hm as (c & s & Hv). rewrite Hv.
      change (default "" (Some (String c s))) with (String c s).
      rewrite password_valid.
      destruct (Nat.leb_spec 8 (String.length (String c s))); cbn [negb]; split.
      + eauto.
      + reflexivity.
      + discriminate.
      + intros (p & Hp & Hlen). inversion Hp; subst p. lia. }
  assert (HD : D = [] <->
    missing (data !! "confirmPassword") = false
    /\ data !! "password" = data !! "confirmPassword").
  { subst D. destruct (missing (data !! "confirmPassword")).
    - split; [discriminate|]. intros [? _]. discriminate.
    - destruct (bool_decide_reflect (data !! "password" = data !! "confirmPassword"));
        cbn [negb]; split; try discriminate; try tauto. }
  assert (Hall : Nat.eqb (List.length (A ++ B ++ C ++ D)%list) 0 = true <->
                 A = [] /\ B = [] /\ C = [] /\ D = []).
  { split.
    - intros H. apply Nat.eqb_eq in H. rewrite !length_app in H.
      repeat split; apply length_zero_iff_nil; lia.
    - intros (-> & -> & -> & ->). reflexivity. }
  rewrite Hall, HA, HB, HC, HD. split.
  - intros ((u & Hu & Hlen & Hw) & (e & He & Ht) & (p & Hp & Hp8) & _ & Heq).
    exists u, e, p. rewrite <- Heq. tauto.
  - intros (u & e & p & Hu & He & Hp & Hc & Hlen & Hw & Ht & Hp8).
    repeat split; eauto.
    + rewrite Hc. destruct p; [simpl in Hp8; lia|reflexivity].
    + congruence.
Qed.

(** X1: validateSignupRequest accepts exactly the requests whose four fields
    are present, with a username of 3 to 50 characters that are letters,
    digits or underscores, an e-mail address of the form local@domain.tld
    whose three parts are non-empty and free of white space and of [@], a
    password of at least 8 characters and a confirmation equal to the
    password. *)
Theorem signup_request_valid_iff (data : FormData) :
  isValid (validateSignupRequest data) = true <->
  exists u e p,
    data !! "username" = Some u /\ data !! "email" = Some e
    /\ data !! "password" = Some p /\ data !! "confirmPassword" = Some p
    /\ 3 <= String.length u <= 50 /\ forallb isWordChar (chars u) = true
    /\ (exists l d t,
          e = l ++ "@" ++ d ++ "." ++ t
          /\ l <> "" /\ d <> "" /\ t <> ""
          /\ forallb notSpaceAt (chars l) = true
          /\ forallb notSpaceAt (chars d) = true
          /\ forallb notSpaceAt (chars t) = true)
    /\ 8 <= String.length p.
Proof.
  rewrite signup_valid_spec. split.
  - intros (u & e & p & Hu & He & Hp & Hc & Hlen & Hw & Ht & Hp8).
    exists u, e, p. apply email_pattern_spec in Ht. auto 10.
  - intros (u & e & p & Hu & He & Hp & Hc & Hlen & Hw & Ht & Hp8).
    exists u, e, p. apply email_pattern_spec in Ht. auto 10.
Qed.


(** A request that is accepted. *)
Example signup_request_accepted :
  isValid (validateSignupRequest
             {[ "username" := "bob_1"; "email" := "bob@x.com";
                "password" := "Aa1!aaaa"; "confirmPassword" := "Aa1!aaaa" ]}) = true.
Proof. vm_compute. reflexivity. Qed.

(** X2: the message USERNAME_INVALID_FORMAT is never reported by
    validateSignupRequest: a username of legal length with an illegal
    character is reported with the rule's own message and carries the
    offending value. *)
Theorem signup_never_reports_invalid_format (data : FormData) :
  Forall (fun e => ve_message e <> Some USERNAME_INVALID_FORMAT)
    (errors (validateSignupRequest data))
  /\ forall u, data !! "username" = Some u -> trim u <> "" ->
       3 <= String.length u <= 50 ->
       forallb isWordChar (chars u) = false ->
       head (errors (validateSignupRequest data)) =
       Some (mkValidationError "username"
               (Some "Username must be 3-50 characters, alphanumeric and underscore only")
               (Some u)).
Proof.
  split.
  - unfold validateSignupRequest. cbn [errors].
    match goal with
    | |- context [(?a ++ ?b ++ ?c ++ ?d)%list] =>
        set (A := a); set (B := b); set (C := c); set (D := d)
    end.
    repeat apply Forall_app_2.
    + subst A. destruct (blank (data !! "username")) eqn:Hb;
        [repeat constructor; discriminate|].
      apply blank_false in Hb as (c & s & Hv & _). rewrite Hv.
      change (default "" (Some (String c s))) with (String c s).
      rewrite validateField_isValid, validateField_message, username_errors.
      destruct (Nat.ltb (String.length (String c s)) 3);
        [repeat constructor; discriminate|].
      destruct (Nat.ltb 50 (String.length (String c s)));
        [repeat constructor; discriminate|].
      destruct (test usernamePattern (String c s)); repeat constructor; discriminate.
    + subst B. repeat match goal with |- context [if ?b then _ else _] => destruct b end;
        repeat constructor; discriminate.
    + subst C. repeat match goal with |- context [if ?b then _ else _] => destruct b end;
        repeat constructor; discriminate.
    + subst D. repeat match goal with |- context [if ?b then _ else _] => destruct b end;
        repeat constructor; discriminate.
  - intros u Hu Ht Hlen Hw.
    unfold validateSignupRequest. cbn [errors]. rewrite Hu.
    assert (Hb : blank (Some u) = false).
    { unfold blank. destruct u as [|c s]; [simpl in Hlen; lia|]. simpl.
      destruct (Nat.eqb_spec (String.length (trim (String c s))) 0) as [E|E];
        [|reflexivity].
      destruct (trim (String c s)); [contradiction|discriminate]. }
    rewrite Hb. change (default "" (Some u)) with u.
    rewrite validateField_isValid, validateField_message, username_errors.
    unfold usernamePattern. rewrite test_plus_cls, Hw, andb_false_r.
    destruct (Nat.ltb_spec (String.length u) 3); [lia|].
    destruct (Nat.ltb_spec 50 (String.length u)); [lia|].
    reflexivity.
Qed.

Lemma signup_never_reports_invalid_format_witness :
  head (errors (validateSignupRequest {[ "username" := "not ok" ]})) =
  Some (mkValidationError "username"
          (Some "Username must be 3-50 characters, alphanumeric and underscore only")
          (Some "not ok")).
Proof.
  destruct (signup_never_reports_invalid_format {[ "username" := "not ok" ]}) as [_ H].
  apply H.
  - reflexivity.
  - vm_compute. discriminate.
  - simpl. lia.
  - reflexivity.
Defined.

(** X3: validateSignupRequest reports at most one error per field, in the
    order username, email, password, confirmPassword. *)
Theorem signup_errors_in_field_order (data : FormData) :
  sublist (map ve_field (errors (validateSignupRequest data)))
    ["username"; "email"; "password"; "confirmPassword"].
Proof.
  unfold validateSignupRequest. cbn [errors].
  match goal with
  | |- context [(?a ++ ?b ++ ?c ++ ?d)%list] =>
      set (A := a); set (B := b); set (C := c); set (D := d)
  end.
  rewrite !map_app.
  change ["username"; "email"; "password"; "confirmPassword"]
    with (["username"] ++ ["email"] ++ ["password"] ++ ["confirmPassword"])%list.
  repeat apply sublist_app.
  - subst A.
    repeat match goal with |- context [if ?b then _ else _] => destruct b end;
      first [reflexivity | apply sublist_nil_l].
  - subst B.
    repeat match goal with |- context [if ?b then _ else _] => destruct b end;
      first [reflexivity | apply sublist_nil_l].
  - subst C.
    repeat match goal with |- context [if ?b then _ else _] => destruct b end;
      first [reflexivity | apply sublist_nil_l].
  - subst D.
    repeat match goal with |- context [if ?b then _ else _] => destruct b end;
      first [reflexivity | apply sublist_nil_l].
Qed.

End ValidationFacts.

(** ** The API client, the restore on mount and the outcomes of the store actions *)
Module SessionFacts.
Import JS Shared AuthClient AuthContext ApiClient Session.

Lemma getStoredToken_storeToken (t : string) (st : Storage) :
  getStoredToken (storeToken t st) = if available st then Some t else None.
Proof.
  unfold getStoredToken, storeToken, setItem.
  destruct (available st) eqn:Ha; cbn; rewrite ?Ha; [|reflexivity].
  rewrite lookup_insert_eq. reflexivity.
Qed.

Lemma getStoredUser_storeUser (u : User) (st : Storage) :
  getStoredUser (storeUser u st) = if available st then Some u else None.
Proof.
  unfold getStoredUser, storeUser, setItem.
  destruct (available st) eqn:Ha; cbn; rewrite ?Ha; [|reflexivity].
  rewrite lookup_insert_eq. reflexivity.
Qed.

Lemma getStoredUser_storeToken (t : string) (st : Storage) :
  getStoredUser (storeToken t st) = getStoredUser st.
Proof.
  unfold getStoredUser, storeToken, setItem.
  destruct (available st) eqn:Ha; cbn; rewrite ?Ha; [|reflexivity].
  rewrite lookup_insert_ne by discriminate. reflexivity.
Qed.

Lemma getStoredToken_storeUser (u : User) (st : Storage) :
  getStoredToken (storeUser u st) = getStoredToken st.
Proof.
  unfold getStoredToken, storeUser, setItem.
  destruct (available st) eqn:Ha; cbn; rewrite ?Ha; [|reflexivity].
  rewrite lookup_insert_ne by discriminate. reflexivity.
Qed.

Lemma available_storeToken (t : string) (st : Storage) :
  available (storeToken t st) = available st.
Proof. unfold storeToken, setItem. destruct (available st) eqn:Ha; cbn; auto. Qed.

Lemma available_storeUser (u : User) (st : Storage) :
  available (storeUser u st) = available st.
Proof. unfold storeUser, setItem. destruct (available st) eqn:Ha; cbn; auto. Qed.

(** X4: what is stored can be read back, the two keys do not disturb each
    other, clearAuthData removes both, and a storage that throws behaves
    as an empty one that forgets what it is given. *)
Theorem stored_credentials_round_trip (t : string) (u : User) (st : Storage) :
  getStoredToken (storeToken t st) = (if available st then Some t else None)
  /\ getStoredUser (storeUser u st) = (if available st then Some u else None)
  /\ getStoredUser (storeToken t st) = getStoredUser st
  /\ getStoredToken (storeUser u st) = getStoredToken st
  /\ getStoredToken (clearAuthData (storeUser u (storeToken t st))) = None
  /\ getStoredUser (clearAuthData (storeUser u (storeToken t st))) = None
  /\ AuthClient.isAuthenticated (storeToken t st)
     = available st && negb (Nat.eqb (String.length t) 0).
Proof.
  repeat split.
  - apply getStoredToken_storeToken.
  - apply getStoredUser_storeUser.
  - apply getStoredUser_storeToken.
  - apply getStoredToken_storeUser.
  - apply AuthContextFacts.clearAuthData_token.
  - apply AuthContextFacts.clearAuthData_user.
  - unfold AuthClient.isAuthenticated. rewrite getStoredToken_storeToken.
    destruct (available st), t; reflexivity.
Qed.

Lemma reducer_consistent (s : AuthState) (a : Action) :
  Consistent s -> Consistent (authReducer s a).
Proof.
  intros (Hflag & Hin & Hout).
  destruct a as [b|payload|payload| | | |]; unfold Consistent; cbn.
  - destruct b; repeat split; auto; discriminate.
  - destruct payload; repeat split; eauto; try discriminate.
  - repeat split; auto; discriminate.
  - destruct (st_user s); repeat split; eauto; discriminate.
  - repeat split; auto. intros; discriminate.
  - repeat split; auto. intros; discriminate.
  - repeat split; auto.
Qed.

Lemma initial_consistent : Consistent initialState.
Proof. unfold Consistent; cbn. repeat split; auto. intros; discriminate. Qed.

(** X7: whatever actions are dispatched from the initial state, the reducer
    keeps [isAuthenticated] equal to the presence of a user, is
    'authenticated' only with a user and 'unauthenticated' only without. *)
Theorem reducer_keeps_identity_consistent (actions : list Action) :
  Consistent (foldl authReducer initialState actions).
Proof.
  assert (H : forall s, Consistent s -> Consistent (foldl authReducer s actions)).
  { induction actions as [|a l IH]; intros s Hs; simpl; [exact Hs|].
    apply IH, reducer_consistent, Hs. }
  apply H, initial_consistent.
Qed.

Lemma afterAuthCall_consistent (o : Outcome Response) (p : Provider) :
  Consistent (state p) -> Consistent (state (fst (afterAuthCall o p))).
Proof.
  intros H. unfold afterAuthCall.
  destruct o as [r|e]; [destruct (success r); [destruct (user r)|]|]; cbn [fst];
    try exact H; apply (reducer_consistent _ _ H).
Qed.

Lemma authPrefix_consistent (p : Provider) :
  Consistent (state p) -> Consistent (state (authPrefix p)).
Proof. intros H. apply reducer_consistent, reducer_consistent, H. Qed.

Lemma login_consistent (c : FormData) (net : Outcome Response) (p : Provider) :
  Consistent (state p) -> Consistent (state (fst (login c net p))).
Proof.
  intros H. unfold login, loginBegin, loginSettle.
  destruct (AuthClient.loginBegin c).
  - apply afterAuthCall_consistent, authPrefix_consistent, H.
  - destruct (AuthClient.loginSettle net _) as [o st].
    apply afterAuthCall_consistent. apply authPrefix_consistent, H.
Qed.

Lemma signup_consistent (d : FormData) (net : Outcome Response) (p : Provider) :
  Consistent (state p) -> Consistent (state (fst (signup d net p))).
Proof.
  intros H. unfold signup, signupBegin, signupSettle.
  destruct (AuthClient.signupBegin d).
  - apply afterAuthCall_consistent, authPrefix_consistent, H.
  - destruct (AuthClient.signupSettle net _) as [o st].
    apply afterAuthCall_consistent. apply authPrefix_consistent, H.
Qed.

Lemma initializeAuth_consistent (net : Outcome Response) (p : Provider) :
  Consistent (state p) -> Consistent (state (initializeAuth net p)).
Proof.
  intros H. unfold initializeAuth, initializeBegin, initializeSettle.
  destruct (AuthClient.isAuthenticated (local p)); [|exact H].
  destruct (getCurrentUserSettle net _) as [o st].
  destruct o as [r|e]; [destruct (success r && bool_decide (is_Some (user r)))|];
    apply reducer_consistent; apply (reducer_consistent _ _ H).
Qed.

(** X8: every action of the store (signup, login, logout, clearError and
    the restore on mount) keeps the identity flag, the user and the phase
    consistent, however the request settles. *)
Theorem store_actions_keep_consistency
  (data : FormData) (net : Outcome Response) (p : Provider) :
  Consistent (state p) ->
  Consistent (state (fst (signup data net p)))
  /\ Consistent (state (fst (login data net p)))
  /\ Consistent (state (fst (logout net p)))
  /\ Consistent (state (clearError p))
  /\ Consistent (state (initializeAuth net p)).
Proof.
  intros H. split; [|split; [|split; [|split]]].
  - apply signup_consistent, H.
  - apply login_consistent, H.
  - rewrite AuthContextFacts.logout_state. apply initial_consistent.
  - apply (reducer_consistent _ _ H).
  - apply initializeAuth_consistent, H.
Qed.


Lemma store_actions_keep_consistency_witness :
  let p := initialProvider (mkStorage true ∅) in
  let data : FormData := {[ "emailOrUsername" := "bob"; "password" := "Aa1!aaaa" ]} in
  let net := Resolved (mkResponse true None (Some (mkUser "1" "bob" "bob@x.com"))
                         (Some "jwt")) in
  Consistent (state p)
  /\ Consistent (state (fst (login data net p)))
  /\ st_user (state (fst (login data net p))) = Some (mkUser "1" "bob" "bob@x.com").
Proof.
  cbv zeta.
  assert (H0 : Consistent (state (initialProvider (mkStorage true ∅)))).
  { unfold Consistent. cbn. repeat split; try reflexivity; discriminate. }
  split; [exact H0|].
  destruct (store_actions_keep_consistency
              {[ "emailOrUsername" := "bob"; "password" := "Aa1!aaaa" ]}
              (Resolved (mkResponse true None (Some (mkUser "1" "bob" "bob@x.com"))
                           (Some "jwt")))
              (initialProvider (mkStorage true ∅)) H0) as (_ & H & _).
  split; [exact H|reflexivity].
Defined.

Lemma storeSession_failed (r : Response) (st : Storage) :
  success r = false -> storeSession r st = st.
Proof. unfold storeSession. intros ->. reflexivity. Qed.

Lemma afterAuthCall_failed (o : Outcome Response) (p : Provider) :
  match o with Resolved r => success r = false | Rejected _ => True end ->
  exists m,
    fst (afterAuthCall o p) = dispatch (SET_ERROR m) p
    /\ (forall e, o = Rejected e -> exists t, m = Some t /\ t <> "").
Proof.
  unfold afterAuthCall. destruct o as [r|e].
  - intros ->. exists (message r). split; [reflexivity|]. discriminate.
  - intros _. eexists. split; [reflexivity|]. intros e' _. eexists. split; [reflexivity|].
    destruct (err_message e); cbn; discriminate.
Qed.

Lemma login_failed (c : FormData) (net : Outcome Response) (p : Provider) :
  match net with Resolved r => success r = false | Rejected _ => True end ->
  exists m q,
    fst (login c net p) = dispatch (SET_ERROR m) q
    /\ state q = state (authPrefix p) /\ local q = local p /\ emitted q = emitted p.
Proof.
  intros H. unfold login, loginBegin.
  destruct (AuthClient.loginBegin c) as [rej|].
  - destruct (afterAuthCall_failed (Rejected rej) (authPrefix p) I) as (m & -> & _).
    exists m, (authPrefix p). auto.
  - unfold loginSettle, AuthClient.loginSettle. destruct net as [r|e].
    + rewrite (storeSession_failed _ _ H).
      destruct (afterAuthCall_failed (Resolved r)
                  (onStorage (fun _ => local (sending (mkNetCall EP_LOGIN c) (authPrefix p)))
                     (sending (mkNetCall EP_LOGIN c) (authPrefix p))) H) as (m & -> & _).
      eexists _, _. split; [reflexivity|]. auto.
    + destruct (afterAuthCall_failed (Rejected (mapLoginError e))
                  (onStorage (fun _ => local (sending (mkNetCall EP_LOGIN c) (authPrefix p)))
                     (sending (mkNetCall EP_LOGIN c) (authPrefix p))) I) as (m & -> & _).
      eexists _, _. split; [reflexivity|]. auto.
Qed.

Lemma signup_failed (d : FormData) (net : Outcome Response) (p : Provider) :
  match net with Resolved r => success r = false | Rejected _ => True end ->
  exists m q,
    fst (signup d net p) = dispatch (SET_ERROR m) q
    /\ state q = state (authPrefix p) /\ local q = local p /\ emitted q = emitted p.
Proof.
  intros H. unfold signup, signupBegin.
  destruct (AuthClient.signupBegin d) as [rej|].
  - destruct (afterAuthCall_failed (Rejected rej) (authPrefix p) I) as (m & -> & _).
    exists m, (authPrefix p). auto.
  - unfold signupSettle, AuthClient.signupSettle. destruct net as [r|e].
    + rewrite (storeSession_failed _ _ H).
      destruct (afterAuthCall_failed (Resolved r)
                  (onStorage (fun _ => local (sending (mkNetCall EP_SIGNUP d) (authPrefix p)))
                     (sending (mkNetCall EP_SIGNUP d) (authPrefix p))) H) as (m & -> & _).
      eexists _, _. split; [reflexivity|]. auto.
    + destruct (afterAuthCall_failed (Rejected (mapSignupError e))
                  (onStorage (fun _ => local (sending (mkNetCall EP_SIGNUP d) (authPrefix p)))
                     (sending (mkNetCall EP_SIGNUP d) (authPrefix p))) I) as (m & -> & _).
      eexists _, _. split; [reflexivity|]. auto.
Qed.

Lemma failed_outcome (p q : Provider) (m : option string) :
  state q = state (authPrefix p) -> local q = local p -> emitted q = emitted p ->
  let p' := dispatch (SET_ERROR m) q in
  st_user (state p') = st_user (state p)
  /\ st_isAuthenticated (state p') = st_isAuthenticated (state p)
  /\ st_authState (state p') = ERROR
  /\ st_loading (state p') = false
  /\ local p' = local p
  /\ emitted p' = emitted p
  /\ Prompt.getPlainPrompt (Some (value p')) = Prompt.getPlainPrompt (Some (value p))
  /\ (Settled (state p) -> state (clearError p') = state p).
Proof.
  intros Hs Hl He. cbv zeta. unfold clearError, dispatch, value.
  cbn [state local emitted]. rewrite Hs, Hl, He. cbn.
  repeat split; try reflexivity.
  intros (Hflag & Hload & Herr & Hphase).
  destruct (state p) as [u a l e ph]; cbn in *. subst. reflexivity.
Qed.

(** X9: a signup or login that fails (the request is rejected, or the
    service answers without success) leaves the identity, the stored
    credentials and the prompt as they were, emits no auth-change event
    and puts the store in phase 'error' with loading off. *)
Theorem failed_auth_keeps_identity
  (data : FormData) (net : Outcome Response) (p : Provider) :
  match net with Resolved r => success r = false | Rejected _ => True end ->
  forall p', p' = fst (signup data net p) \/ p' = fst (login data net p) ->
  st_user (state p') = st_user (state p)
  /\ st_isAuthenticated (state p') = st_isAuthenticated (state p)
  /\ st_authState (state p') = ERROR
  /\ st_loading (state p') = false
  /\ local p' = local p
  /\ emitted p' = emitted p
  /\ Prompt.getPlainPrompt (Some (value p')) = Prompt.getPlainPrompt (Some (value p)).
Proof.
  intros H p' [->| ->].
  - destruct (signup_failed data net p H) as (m & q & -> & Hs & Hl & He).
    destruct (failed_outcome p q m Hs Hl He) as (?&?&?&?&?&?&?&_). auto 10.
  - destruct (login_failed data net p H) as (m & q & -> & Hs & Hl & He).
    destruct (failed_outcome p q m Hs Hl He) as (?&?&?&?&?&?&?&_). auto 10.
Qed.


Lemma failed_auth_keeps_identity_witness :
  let u := mkUser "1" "bob" "bob@x.com" in
  let p := mkProvider (mkAuthState (Some u) true false None AUTHENTICATED)
             (storeUser u (storeToken "jwt" (mkStorage true ∅))) [] [] in
  let data : FormData := {[ "emailOrUsername" := "eve"; "password" := "guess" ]} in
  let p' := fst (login data (Rejected (mkAPIError "Unauthorized" 401 "UNAUTHORIZED" [])) p) in
  st_user (state p') = Some u
  /\ st_authState (state p') = ERROR
  /\ getStoredToken (local p') = Some "jwt"
  /\ Prompt.getPlainPrompt (Some (value p')) = "bob@antec:~$ ".
Proof.
  cbv zeta.
  destruct (failed_auth_keeps_identity
              {[ "emailOrUsername" := "eve"; "password" := "guess" ]}
              (Rejected (mkAPIError "Unauthorized" 401 "UNAUTHORIZED" []))
              (mkProvider
                 (mkAuthState (Some (mkUser "1" "bob" "bob@x.com")) true false None
                    AUTHENTICATED)
                 (storeUser (mkUser "1" "bob" "bob@x.com")
                    (storeToken "jwt" (mkStorage true ∅))) [] []) I _
              (or_intror eq_refl)) as (H1 & _ & H3 & _ & H5 & _ & H7).
  split; [exact H1|]. split; [exact H3|]. split; [rewrite H5; reflexivity|].
  rewrite H7. reflexivity.
Defined.

(** X10: from a settled store, a failed signup or login followed by
    clearError gives back exactly the state before the attempt. *)
Theorem failed_auth_then_clearError_restores
  (data : FormData) (net : Outcome Response) (p : Provider) :
  Settled (state p) ->
  match net with Resolved r => success r = false | Rejected _ => True end ->
  state (clearError (fst (signup data net p))) = state p
  /\ state (clearError (fst (login data net p))) = state p.
Proof.
  intros Hp H. split.
  - destruct (signup_failed data net p H) as (m & q & -> & Hs & Hl & He).
    destruct (failed_outcome p q m Hs Hl He) as (_&_&_&_&_&_&_&Hr). auto.
  - destruct (login_failed data net p H) as (m & q & -> & Hs & Hl & He).
    destruct (failed_outcome p q m Hs Hl He) as (_&_&_&_&_&_&_&Hr). auto.
Qed.


Lemma failed_auth_then_clearError_restores_witness :
  let p := initialProvider (mkStorage true ∅) in
  let data : FormData := {[ "emailOrUsername" := "eve"; "password" := "guess" ]} in
  let net := Resolved (mkResponse false (Some "Invalid credentials") None None) in
  Settled (state p)
  /\ st_authState (state (fst (login data net p))) = ERROR
  /\ state (clearError (fst (login data net p))) = state p.
Proof.
  cbv zeta.
  assert (H0 : Settled (state (initialProvider (mkStorage true ∅))))
    by (unfold Settled; cbn; repeat split).
  split; [exact H0|]. split; [reflexivity|].
  exact (proj2 (failed_auth_then_clearError_restores
                  {[ "emailOrUsername" := "eve"; "password" := "guess" ]}
                  (Resolved (mkResponse false (Some "Invalid credentials") None None))
                  (initialProvider (mkStorage true ∅)) H0 eq_refl)).
Defined.

Lemma afterAuthCall_success (r : Response) (u : User) (p : Provider) :
  success r = true -> user r = Some u ->
  fst (afterAuthCall (Resolved r) p)
  = emitAuthChange (Some u) (dispatch (SET_USER (Some u)) (onStorage (storeUser u) p)).
Proof. unfold afterAuthCall. intros -> ->. reflexivity. Qed.

Lemma getStoredToken_storeSession (r : Response) (st : Storage) :
  success r = true -> available st = true -> truthy (token r) = true ->
  getStoredToken (storeSession r st) = token r.
Proof.
  intros Hs Ha Ht. unfold storeSession. rewrite Hs, Ht. cbn [andb].
  destruct (token r) as [t|] eqn:E; [|discriminate]. cbn [default].
  destruct (user r).
  - rewrite getStoredToken_storeUser, getStoredToken_storeToken, Ha. reflexivity.
  - rewrite getStoredToken_storeToken, Ha. reflexivity.
Qed.

Lemma available_storeSession (r : Response) (st : Storage) :
  available (storeSession r st) = available st.
Proof.
  unfold storeSession. destruct (success r && truthy (token r)); [|reflexivity].
  destruct (user r); rewrite ?available_storeUser, available_storeToken; reflexivity.
Qed.

Lemma success_outcome (r : Response) (u : User) (q : Provider) :
  success r = true -> user r = Some u ->
  let p' := fst (afterAuthCall (Resolved r)
                   (onStorage (fun _ => storeSession r (local q)) q)) in
  state p' = mkAuthState (Some u) true false None AUTHENTICATED
  /\ emitted p' = (emitted q ++ [Some u])%list
  /\ sent p' = sent q
  /\ Prompt.getPlainPrompt (Some (value p')) = username u ++ "@antec:~$ "
  /\ (available (local q) = true ->
      getStoredUser (local p') = Some u
      /\ (truthy (token r) = true -> getStoredToken (local p') = token r))
  /\ (available (local q) = false ->
      getStoredUser (local p') = None /\ getStoredToken (local p') = None).
Proof.
  intros Hs Hu. cbv zeta. rewrite (afterAuthCall_success r u _ Hs Hu).
  cbn [emitAuthChange dispatch onStorage state local emitted sent authReducer].
  repeat split.
  - rewrite getStoredUser_storeUser, available_storeSession, H. reflexivity.
  - intros Ht. rewrite getStoredToken_storeUser.
    apply getStoredToken_storeSession; assumption.
  - rewrite getStoredUser_storeUser, available_storeSession, H. reflexivity.
  - rewrite getStoredToken_storeUser. unfold getStoredToken.
    rewrite available_storeSession, H. reflexivity.
Qed.

(** X11: a login (or signup) of valid data that the service answers with
    success and a user ends authenticated as that user, with loading off
    and no error; one auth-change event carrying the user is emitted, one
    request was sent, the plain prompt shows the username, and the user
    and token are stored when the storage works (nothing is stored, and
    the login still succeeds, when it does not). *)
Theorem successful_auth_attaches_identity
  (data : FormData) (r : Response) (u : User) (p : Provider) :
  success r = true -> user r = Some u ->
  forall p' call,
    (isValid (validateLoginRequest data) = true
     /\ p' = fst (login data (Resolved r) p) /\ call = mkNetCall EP_LOGIN data)
    \/ (isValid (validateSignupRequest data) = true
        /\ p' = fst (signup data (Resolved r) p) /\ call = mkNetCall EP_SIGNUP data) ->
  state p' = mkAuthState (Some u) true false None AUTHENTICATED
  /\ emitted p' = (emitted p ++ [Some u])%list
  /\ sent p' = (sent p ++ [call])%list
  /\ Prompt.getPlainPrompt (Some (value p')) = username u ++ "@antec:~$ "
  /\ (available (local p) = true ->
      getStoredUser (local p') = Some u
      /\ (truthy (token r) = true -> getStoredToken (local p') = token r))
  /\ (available (local p) = false ->
      getStoredUser (local p') = None /\ getStoredToken (local p') = None).
Proof.
  intros Hs Hu p' call [(Hv & -> & ->)|(Hv & -> & ->)].
  - unfold login, loginBegin, AuthClient.loginBegin. rewrite Hv. cbn [negb].
    unfold loginSettle, AuthClient.loginSettle.
    apply (success_outcome r u (sending (mkNetCall EP_LOGIN data) (authPrefix p)) Hs Hu).
  - unfold signup, signupBegin, AuthClient.signupBegin. rewrite Hv. cbn [negb].
    unfold signupSettle, AuthClient.signupSettle.
    apply (success_outcome r u (sending (mkNetCall EP_SIGNUP data) (authPrefix p)) Hs Hu).
Qed.


Lemma successful_auth_attaches_identity_witness :
  let u := mkUser "1" "bob" "bob@x.com" in
  let r := mkResponse true (Some "ok") (Some u) (Some "jwt") in
  let data : FormData :=
    {[ "username" := "bob"; "email" := "bob@x.com";
       "password" := "Aa1!aaaa"; "confirmPassword" := "Aa1!aaaa" ]} in
  let p := initialProvider (mkStorage true ∅) in
  let p' := fst (signup data (Resolved r) p) in
  isValid (validateSignupRequest data) = true
  /\ state p' = mkAuthState (Some u) true false None AUTHENTICATED
  /\ sent p' = [mkNetCall EP_SIGNUP data]
  /\ getStoredToken (local p') = Some "jwt"
  /\ getStoredUser (local p') = Some u.
Proof.
  cbv zeta.
  assert (Hv : isValid (validateSignupRequest
                          {[ "username" := "bob"; "email" := "bob@x.com";
                             "password" := "Aa1!aaaa"; "confirmPassword" := "Aa1!aaaa" ]})
               = true) by (vm_compute; reflexivity).
  split; [exact Hv|].
  destruct (successful_auth_attaches_identity
              {[ "username" := "bob"; "email" := "bob@x.com";
                 "password" := "Aa1!aaaa"; "confirmPassword" := "Aa1!aaaa" ]}
              (mkResponse true (Some "ok") (Some (mkUser "1" "bob" "bob@x.com"))
                 (Some "jwt"))
              (mkUser "1" "bob" "bob@x.com") (initialProvider (mkStorage true ∅))
              eq_refl eq_refl _ _ (or_intror (conj Hv (conj eq_refl eq_refl))))
    as (H1 & _ & H3 & _ & H5 & _).
  split; [exact H1|]. split; [exact H3|].
  destruct (H5 eq_refl) as [Hu Ht]. split; [exact (Ht eq_refl)|exact Hu].
Defined.

Lemma getCurrentUserSettle_storage (net : Outcome Response) (st : Storage) :
  snd (getCurrentUserSettle net st) = st
  \/ snd (getCurrentUserSettle net st) = clearAuthData st.
Proof.
  unfold getCurrentUserSettle. destruct net as [r|e]; [auto|].
  destruct (Nat.eqb (err_status e) 401); [|auto].
  destruct (_ || _); auto.
Qed.

Lemma signedOut_spec (p : Provider) :
  state (signedOut p) = initialState
  /\ getStoredToken (local (signedOut p)) = None
  /\ getStoredUser (local (signedOut p)) = None
  /\ sent (signedOut p) = sent p /\ emitted (signedOut p) = emitted p.
Proof.
  unfold signedOut. cbn. rewrite AuthContextFacts.clearAuthData_token,
    AuthContextFacts.clearAuthData_user. auto.
Qed.

(** X12: the restore on mount does nothing without a stored token; with one
    it sends a single request to /auth/me and ends, never loading, either
    authenticated as the user the service returned, the storage untouched,
    or in the initial state with the stored token and user removed. It
    emits no auth-change event. *)
Theorem restore_on_mount_outcomes (net : Outcome Response) (p : Provider) :
  let p' := initializeAuth net p in
  (AuthClient.isAuthenticated (local p) = false -> p' = p)
  /\ (AuthClient.isAuthenticated (local p) = true ->
      sent p' = (sent p ++ [mkNetCall EP_ME ∅])%list
      /\ emitted p' = emitted p
      /\ st_loading (state p') = false
      /\ ((exists r u, net = Resolved r /\ success r = true /\ user r = Some u
                      /\ state p' = mkAuthState (Some u) true false None AUTHENTICATED
                      /\ local p' = local p)
          \/ (state p' = initialState
              /\ getStoredToken (local p') = None
              /\ getStoredUser (local p') = None
              /\ Session.isAuthenticated p' = false
              /\ Session.getCurrentUser p' = None
              /\ Session.getToken p' = None))).
Proof.
  cbv zeta. unfold initializeAuth, initializeBegin.
  split; intros Ha; rewrite Ha; [reflexivity|].
  unfold initializeSettle.
  set (p1 := sending (mkNetCall EP_ME ∅) (dispatch (SET_LOADING true) p)).
  destruct net as [r|e].
  - cbn [getCurrentUserSettle].
    destruct (success r) eqn:Hs; [destruct (user r) as [u|] eqn:Hu|]; cbn.
    + repeat split; try reflexivity. left. exists r, u. rewrite Hu. auto.
    + unfold Session.isAuthenticated, Session.getCurrentUser, Session.getToken,
        AuthClient.isAuthenticated. cbn.
      rewrite AuthContextFacts.clearAuthData_token, AuthContextFacts.clearAuthData_user.
      repeat split; auto 10.
    + unfold Session.isAuthenticated, Session.getCurrentUser, Session.getToken,
        AuthClient.isAuthenticated. cbn.
      rewrite AuthContextFacts.clearAuthData_token, AuthContextFacts.clearAuthData_user.
      repeat split; auto 10.
  - destruct (getCurrentUserSettle (Rejected e) (local p1)) as [o st] eqn:E.
    assert (Ho : exists e', o = Rejected e').
    { unfold getCurrentUserSettle in E.
      repeat match type of E with context [if ?b then _ else _] => destruct b end;
        inversion E; eauto. }
    destruct Ho as (e' & ->).
    destruct (signedOut_spec (onStorage (fun _ => st) p1)) as (H1 & H2 & H3 & H4 & H5).
    unfold Session.isAuthenticated, Session.getCurrentUser, Session.getToken,
      AuthClient.isAuthenticated.
    rewrite H1, H2, H3, H4, H5. repeat split; auto 10.
Qed.


Lemma restore_on_mount_outcomes_witness :
  let st := storeToken "stale" (mkStorage true ∅) in
  let p := initialProvider st in
  let p' := initializeAuth (Rejected (mkAPIError UNAUTHORIZED 401 "UNAUTHORIZED" [])) p in
  AuthClient.isAuthenticated (local p) = true
  /\ sent p' = [mkNetCall EP_ME ∅]
  /\ st_loading (state p') = false
  /\ state p' = initialState
  /\ getStoredToken (local p') = None.
Proof.
  cbv zeta.
  destruct (restore_on_mount_outcomes
              (Rejected (mkAPIError UNAUTHORIZED 401 "UNAUTHORIZED" []))
              (initialProvider (storeToken "stale" (mkStorage true ∅)))) as [_ H].
  split; [reflexivity|].
  destruct (H eq_refl) as (H1 & _ & H3 & _).
  split; [exact H1|]. split; [exact H3|]. split; reflexivity.
Defined.

(** The status that a rejection of request() carries. *)
Lemma request_rejected_status (fetched : FetchResult) (e : APIError) :
  request fetched = Rejected e ->
  err_status e = match fetched with
                 | Responded status _ => status
                 | Failed _ _ => 0
                 end.
Proof.
  destruct fetched as [status data|name message]; unfold request.
  - destruct (negb (responseOk status)); [|discriminate].
    repeat match goal with
    | |- context [if Nat.eqb ?a ?b then _ else _] => destruct (Nat.eqb a b)
    | |- context [match b_errors ?d with _ => _ end] =>
        destruct (b_errors d) as [[|e0 l0]|]
    end; intros [= <-]; reflexivity.
  - repeat match goal with |- context [if ?b then _ else _] => destruct b end;
      intros [= <-]; reflexivity.
Qed.

(** X6: getCurrentUser never takes its TOKEN_EXPIRED branch. Whatever the
    fetch gave, a rejection with status 401 is reported as TOKEN_INVALID
    and clears the stored credentials (request() has replaced the message
    and code of a 401 before getCurrentUser looks at them); any other
    outcome of request() is passed on unchanged and the storage is left
    alone. *)
Theorem unauthorized_is_reported_as_invalid_token (fetched : FetchResult) (st : Storage) :
  ApiClient.getCurrentUser fetched st
  = match request fetched with
    | Resolved response => (Resolved response, st)
    | Rejected error =>
        if Nat.eqb (err_status error) 401
        then (Rejected (mkAPIError TOKEN_INVALID 401 "TOKEN_INVALID" []), clearAuthData st)
        else (Rejected error, st)
    end.
Proof.
  unfold ApiClient.getCurrentUser.
  destruct fetched as [status data|name message].
  - destruct (Nat.eqb_spec status 401) as [->|Hs]; [reflexivity|].
    pose proof (request_rejected_status (Responded status data)) as Hn.
    destruct (request (Responded status data)) as [r|e]; [reflexivity|].
    cbn [getCurrentUserSettle]. rewrite (Hn e eq_refl).
    destruct (Nat.eqb_spec status 401); [contradiction|reflexivity].
  - pose proof (request_rejected_status (Failed name message)) as Hn.
    destruct (request (Failed name message)) as [r|e]; [reflexivity|].
    cbn [getCurrentUserSettle]. rewrite (Hn e eq_refl). reflexivity.
Qed.

(** X5: request() rejects exactly the answers outside 200..299 and the
    failed fetches; the error carries the HTTP status (0 for a failed
    fetch) and always a non-empty message and code. *)
Theorem request_normalises_failures (fetched : FetchResult) :
  match request fetched with
  | Resolved r =>
      exists status data, fetched = Responded status data /\ 200 <= status <= 299
        /\ r = mkResponse (b_success data) (b_message data) (b_user data) (b_token data)
  | Rejected e =>
      err_message e <> "" /\ err_code e <> ""
      /\ match fetched with
         | Responded status _ => err_status e = status /\ ~ (200 <= status <= 299)
         | Failed _ _ => err_status e = 0 /\ err_errors e = []
         end
  end.
Proof.
  destruct fetched as [status data|name message]; unfold request.
  - unfold responseOk.
    destruct (Nat.leb_spec 200 status), (Nat.leb_spec status 299); cbn [andb negb].
    1: { exists status, data. repeat split; auto. }
    all: assert (Hp : forall v d, d <> "" -> pick v d <> "")
      by (intros [[|c v]|] d Hd; cbn; auto; discriminate).
    all: repeat match goal with
         | |- context [if Nat.eqb ?a ?b then _ else _] => destruct (Nat.eqb a b)
         | |- context [match b_errors ?d with _ => _ end] =>
             destruct (b_errors d) as [[|e0 l0]|]
         end; cbn [err_message err_code err_status];
      repeat split; try discriminate; try lia;
      repeat (apply Hp; try discriminate).
  - assert (Hp : forall v d, d <> "" -> pick v d <> "")
      by (intros [[|c v]|] d Hd; cbn; auto; discriminate).
    repeat match goal with |- context [if ?b then _ else _] => destruct b end;
      cbn; repeat split; try discriminate. apply Hp. discriminate.
Qed.

End SessionFacts.

(** ** The prompt manager *)
Module PromptFacts.
Import JS AuthClient AuthContext PromptManager.

Lemma getCurrentPrompt_this (auth : option Auth) (this : PromptManager) :
  snd (getCurrentPrompt auth this)
  = setCurrentPrompt (fst (getCurrentPrompt auth this)) this.
Proof. unfold getCurrentPrompt. destruct (Prompt.promptUser auth); reflexivity. Qed.

Lemma getCurrentPrompt_text (auth : option Auth) (this : PromptManager) (s : string) :
  fst (getCurrentPrompt auth (setCurrentPrompt s this)) = fst (getCurrentPrompt auth this).
Proof. unfold getCurrentPrompt. destruct (Prompt.promptUser auth); reflexivity. Qed.

Lemma updatePrompt_eq (display : bool) (auth : option Auth) (this : PromptManager) :
  updatePrompt display auth this
  = (setCurrentPrompt (fst (getCurrentPrompt auth this)) this, []).
Proof.
  unfold updatePrompt.
  destruct (getCurrentPrompt auth this) as [newPrompt this1] eqn:E.
  pose proof (getCurrentPrompt_this auth this) as H. rewrite E in H. cbn in H. subst this1.
  cbn [currentPrompt setCurrentPrompt].
  rewrite bool_decide_eq_true_2 by reflexivity. reflexivity.
Qed.

(** X13: updatePrompt never writes to the terminal, whatever [display] is
    and whatever prompt was remembered: getCurrentPrompt has already
    stored the new prompt when updatePrompt compares it with the stored
    one. So handleAuthStateChange, handleSessionRestore, initialize,
    setPromptColors and resetPromptColors write nothing either; only
    showPrompt and refreshPrompt draw a prompt. *)
Theorem updatePrompt_never_writes
  (display : bool) (event : string) (restored : bool) (colors : ColorPatch)
  (auth : option Auth) (this : PromptManager) :
  snd (updatePrompt display auth this) = []
  /\ currentPrompt (fst (updatePrompt display auth this))
     = Some (fst (getCurrentPrompt auth this))
  /\ snd (handleAuthStateChange event auth this) = []
  /\ snd (handleSessionRestore restored auth this) = []
  /\ snd (initialize auth this) = []
  /\ snd (setPromptColors colors auth this) = []
  /\ snd (resetPromptColors auth this) = [].
Proof.
  unfold handleAuthStateChange, handleSessionRestore, initialize, setPromptColors,
    resetPromptColors.
  rewrite !updatePrompt_eq. repeat split.
Qed.

(** X14: refreshPrompt is idempotent: a second call writes the same two
    chunks (erase line, prompt) and leaves the object as the first call
    left it; without a terminal it writes nothing. *)
Theorem refreshPrompt_idempotent (auth : option Auth) (this : PromptManager) :
  let '(this1, written1) := refreshPrompt auth this in
  let '(this2, written2) := refreshPrompt auth this1 in
  written2 = written1 /\ this2 = this1
  /\ written1 = (if terminal this
                 then [Term.Write (CR ++ ESC ++ "[K");
                       Term.Write (fst (getCurrentPrompt auth this))]
                 else []).
Proof.
  unfold refreshPrompt, showPrompt. destruct this as [[|] cp colors]; cbn [terminal negb].
  - unfold getCurrentPrompt. destruct (Prompt.promptUser auth); cbn; auto.
  - cbn. auto.
Qed.

(** X15: with default colours the object's prompt is the coloured prompt,
    and with all five colours set to the empty string it is exactly the
    plain prompt of getPlainPrompt. *)
Theorem plain_prompt_is_uncoloured_prompt (auth : option Auth) (this : PromptManager) :
  let none := mkColorPatch (Some "") (Some "") (Some "") (Some "") (Some "") in
  fst (getCurrentPrompt auth (fst (setPromptColors none auth this)))
  = Prompt.getPlainPrompt auth
  /\ fst (getCurrentPrompt auth (fst (resetPromptColors auth this)))
     = Prompt.getCurrentPrompt auth.
Proof.
  cbv zeta. unfold setPromptColors, resetPromptColors. rewrite !updatePrompt_eq.
  unfold getCurrentPrompt, Prompt.getPlainPrompt, Prompt.getCurrentPrompt.
  destruct (Prompt.promptUser auth); cbn; auto.
Qed.

End PromptFacts.

(** ** The password echo and the collection of a whole form *)
Module CollectorFacts.
Import JS Shared Form FormSpec.

Lemma length_append (a b : string) :
  String.length (a ++ b) = String.length a + String.length b.
Proof. induction a; simpl; auto. Qed.

Lemma length_str (l : list ascii) : String.length (str l) = List.length l.
Proof. induction l; simpl; auto. Qed.

Lemma length_chars' (s : string) : List.length (chars s) = String.length s.
Proof. induction s; simpl; auto. Qed.

Lemma length_removelast' {A} (l : list A) :
  List.length (removelast l) = List.length l - 1.
Proof.
  induction l as [|a [|b l] IH]; simpl in *; auto. rewrite IH. lia.
Qed.

Lemma length_dropLast (s : string) :
  String.length (dropLast s) = String.length s - 1.
Proof. unfold dropLast. rewrite length_str, length_removelast', length_chars'. reflexivity. Qed.

Lemma dropLast_append (s : string) (c : ascii) :
  dropLast (s ++ String c "") = s.
Proof.
  unfold dropLast.
  assert (H : chars (s ++ String c "") = (chars s ++ [c])%list).
  { induction s; simpl; [reflexivity|]. unfold chars in *. simpl. congruence. }
  rewrite H, removelast_last. apply string_of_list_ascii_of_string.
Qed.

Lemma step_same (d1 d2 : string) (a b : PasswordInput) :
  sameShape a b -> sameKey d1 d2 ->
  PasswordInput.written (PasswordInput.handleInput d1 a)
  = PasswordInput.written (PasswordInput.handleInput d2 b)
  /\ PasswordInput.handled (PasswordInput.handleInput d1 a)
     = PasswordInput.handled (PasswordInput.handleInput d2 b)
  /\ sameShape (PasswordInput.after (PasswordInput.handleInput d1 a))
       (PasswordInput.after (PasswordInput.handleInput d2 b)).
Proof.
  intros [Hact Hlen] [Hd Hk]. unfold PasswordInput.handleInput.
  rewrite <- Hact. destruct (pw_isActive a) eqn:Ha; cbn [negb];
    [|cbn; repeat split; auto; congruence].
  assert (Hcase :
    charCodeAt0 d1 = charCodeAt0 d2
    \/ exists c1 c2, charCodeAt0 d1 = Some c1 /\ charCodeAt0 d2 = Some c2
         /\ 32 <= c1 <= 126 /\ 32 <= c2 <= 126).
  { destruct Hk as [Hk|[H1 H2]]; [auto|]. right. unfold printable in *.
    destruct (charCodeAt0 d1) as [c1|]; [|discriminate].
    destruct (charCodeAt0 d2) as [c2|]; [|discriminate].
    exists c1, c2. apply andb_prop in H1 as [? ?], H2 as [? ?].
    repeat split; auto; apply Nat.leb_le; assumption. }
  destruct Hcase as [He|(c1 & c2 & E1 & E2 & R1 & R2)].
  - rewrite <- He. destruct (charCodeAt0 d1) as [code|];
      [|cbn; repeat split; auto; congruence].
    rewrite <- Hlen.
    repeat match goal with
    | |- context [if ?c then _ else _] => destruct c eqn:?
    end; cbn; unfold sameShape; cbn;
      rewrite ?length_dropLast, ?length_append; repeat split; auto; try lia;
      congruence.
  - rewrite E1, E2.
    assert (T1 : Nat.leb 32 c1 && Nat.leb c1 126 = true)
      by (apply andb_true_intro; split; apply Nat.leb_le; lia).
    assert (T2 : Nat.leb 32 c2 && Nat.leb c2 126 = true)
      by (apply andb_true_intro; split; apply Nat.leb_le; lia).
    destruct (Nat.eqb_spec c1 13); [lia|]. destruct (Nat.eqb_spec c2 13); [lia|].
    destruct (Nat.eqb_spec c1 127); [lia|]. destruct (Nat.eqb_spec c2 127); [lia|].
    destruct (Nat.eqb_spec c1 3); [lia|]. destruct (Nat.eqb_spec c2 3); [lia|].
    destruct (Nat.eqb_spec c1 27); [lia|]. destruct (Nat.eqb_spec c2 27); [lia|].
    rewrite T1, T2. cbn. unfold sameShape; cbn. rewrite !length_append.
    repeat split; auto; lia.
Qed.

(** X16: what the password input writes, and whether it takes a key, depends
    only on the kind and length of the chunks typed, never on the characters
    themselves: two runs over inputs that are pairwise the same key or both
    text of the same length write the same output. *)
Theorem password_echo_hides_characters (ds1 ds2 : list string) (a b : PasswordInput) :
  sameShape a b -> Forall2 sameKey ds1 ds2 ->
  snd (typeInto ds1 a) = snd (typeInto ds2 b)
  /\ sameShape (fst (typeInto ds1 a)) (fst (typeInto ds2 b)).
Proof.
  unfold typeInto. intros Hs Hf.
  generalize (@nil Term.Op). revert a b Hs.
  induction Hf as [|d1 d2 l1 l2 Hk Hf IH]; intros a b Hs o; simpl; [auto|].
  destruct (step_same d1 d2 a b Hs Hk) as (Hw & _ & Hs').
  rewrite Hw. apply IH. exact Hs'.
Qed.


Lemma password_echo_hides_characters_witness :
  let this := PasswordInput.start (FieldCompleteOf "password") (Some CancelForm)
                PasswordInput.new in
  let del := chr 127 in
  snd (typeInto ["h"; "u"; "n"; del; "t"] this)
  = snd (typeInto ["A"; "a"; "1"; del; "!"] this)
  /\ snd (typeInto ["h"; "u"; "n"; del; "t"] this)
     = [Term.Write "*"; Term.Write "*"; Term.Write "*";
        Term.Write (BS ++ " " ++ BS); Term.Write "*"].
Proof.
  cbv zeta. split; [|reflexivity].
  refine (proj1 (password_echo_hides_characters
                   ["h"; "u"; "n"; chr 127; "t"] ["A"; "a"; "1"; chr 127; "!"]
                   (PasswordInput.start (FieldCompleteOf "password") (Some CancelForm)
                      PasswordInput.new)
                   (PasswordInput.start (FieldCompleteOf "password") (Some CancelForm)
                      PasswordInput.new) _ _)).
  - split; reflexivity.
  - repeat (apply Forall2_cons_2; [split; [reflexivity|]|]);
      try apply Forall2_nil_2;
      first [left; reflexivity | right; split; reflexivity].
Defined.

Lemma run_app (es1 es2 : list Event) (w : World) :
  run (es1 ++ es2) w = run es2 (run es1 w).
Proof. unfold run. apply foldl_app. Qed.

(** A text chunk typed into the form while a password field is current. *)
Lemma handleInput_printable_eq (d : string) (w : World) :
  isActive (form w) = true ->
  pw_isActive (passwordInput (form w)) = true ->
  printable d = true ->
  handleInput d w
  = (mkWorld
       (setPasswordInput
          (mkPasswordInput (password (passwordInput (form w)) ++ d) true
             (pw_onComplete (passwordInput (form w)))
             (pw_onCancel (passwordInput (form w)))) (form w))
       (out w ++ [Term.Write PASSWORD_MASK])%list (fired w), Ok true).
Proof.
  intros Ha Hp Hd. unfold handleInput, get, modify, emitAll.
  unfold mbind, mret, M_bind, M_ret. cbn. rewrite Ha. cbn.
  unfold PasswordInput.isPasswordMode. rewrite Hp.
  unfold PasswordInput.handleInput.
  rewrite Hp. cbn [negb].
  unfold printable in Hd. destruct (charCodeAt0 d) as [code|]; [|discriminate].
  pose proof Hd as Hd'. apply andb_prop in Hd' as [H1 H2].
  apply Nat.leb_le in H1, H2.
  destruct (Nat.eqb_spec code 13); [lia|]. destruct (Nat.eqb_spec code 127); [lia|].
  destruct (Nat.eqb_spec code 3); [lia|]. destruct (Nat.eqb_spec code 27); [lia|].
  rewrite Hd. reflexivity.
Qed.

Lemma handleInput_printable (d : string) (w : World) :
  isActive (form w) = true ->
  pw_isActive (passwordInput (form w)) = true ->
  printable d = true ->
  fst (handleInput d w)
  = mkWorld
      (setPasswordInput
         (mkPasswordInput (password (passwordInput (form w)) ++ d) true
            (pw_onComplete (passwordInput (form w)))
            (pw_onCancel (passwordInput (form w)))) (form w))
      (out w ++ [Term.Write PASSWORD_MASK])%list (fired w).
Proof. intros Ha Hp Hd. rewrite handleInput_printable_eq; auto. Qed.

(** A key that the password input does not take changes nothing. *)
Lemma unhandled_key (d : string) (pi : PasswordInput) :
  PasswordInput.handled (PasswordInput.handleInput d pi) = false ->
  PasswordInput.handleInput d pi = PasswordInput.mkStep pi [] None false.
Proof.
  unfold PasswordInput.handleInput.
  repeat match goal with
  | |- context [if ?c then _ else _] => destruct c
  | |- context [match charCodeAt0 d with _ => _ end] => destruct (charCodeAt0 d)
  end; cbn; intros; try discriminate; reflexivity.
Qed.

(** When the form declines an input it has done nothing. *)
Lemma handleInput_declined (d : string) (w w' : World) :
  handleInput d w = (w', Ok false) -> fired w' = fired w /\ out w' = out w.
Proof.
  unfold handleInput, get, modify, emitAll.
  unfold mbind, mret, M_bind, M_ret. cbn [fst snd form out fired].
  destruct (isActive (form w)); cbn [negb]; [|intros [= <-]; auto].
  destruct (PasswordInput.isPasswordMode (passwordInput (form w))).
  - destruct (PasswordInput.handled (PasswordInput.handleInput d (passwordInput (form w))))
      eqn:Hh.
    + destruct (PasswordInput.call _) as [c|].
      * destruct (runCall c _) as [w1 [[]|]]; intros [= ]. 
      * intros [= ].
    + rewrite (unhandled_key _ _ Hh). cbn. intros [= <-]. cbn. rewrite app_nil_r. auto.
  - destruct (charCodeAt0 d) as [[|[|[|[|n]]]]|]; try (intros [= <-]; auto).
    destruct (handleCancel w) as [w1 [[]|]]; intros [= ].
Qed.

Lemma type_chunks (cs : list string) (w : World) :
  isActive (form w) = true ->
  pw_isActive (passwordInput (form w)) = true ->
  forallb printable cs = true ->
  run (map Input cs) w
  = mkWorld
      (setPasswordInput
         (mkPasswordInput (foldl String.append (password (passwordInput (form w))) cs)
            true (pw_onComplete (passwordInput (form w)))
            (pw_onCancel (passwordInput (form w)))) (form w))
      (out w ++ map (fun _ => Term.Write PASSWORD_MASK) cs)%list (fired w).
Proof.
  revert w. induction cs as [|d cs IH]; intros w Ha Hp Hc.
  - cbn. rewrite app_nil_r. destruct w as [f o fd]. cbn in *.
    destruct f as [pi ? ? ? ? ? ?]. cbn in *. destruct pi. cbn in *. subst. reflexivity.
  - cbn in Hc. apply andb_prop in Hc as [Hd Hc].
    cbn [map]. rewrite FormFacts.run_cons. cbn [step].
    rewrite (handleInput_printable d w Ha Hp Hd).
    rewrite IH; cbn; auto.
    rewrite <- app_assoc. reflexivity.
Qed.

(** Enter on a password field hands the buffer to handleFieldComplete. *)
Lemma handleInput_enter (n pw : string) (cc : option PwOnCancel) (w : World) :
  isActive (form w) = true ->
  passwordInput (form w) = mkPasswordInput pw true (Some (FieldCompleteOf n)) cc ->
  fst (handleInput enter w)
  = fst (handleFieldComplete n pw
           (mkWorld
              (setPasswordInput (mkPasswordInput "" false (Some (FieldCompleteOf n)) cc)
                 (form w)) (out w) (fired w))).
Proof.
  intros Ha Hp. unfold handleInput, get, modify, emitAll.
  unfold mbind, mret, M_bind, M_ret. cbn [fst snd form out fired]. rewrite Ha. cbn [negb].
  unfold PasswordInput.isPasswordMode. rewrite Hp. cbn [pw_isActive].
  assert (Hs : PasswordInput.handleInput enter
                 (mkPasswordInput pw true (Some (FieldCompleteOf n)) cc)
               = PasswordInput.mkStep
                   (mkPasswordInput "" false (Some (FieldCompleteOf n)) cc) []
                   (Some (PasswordInput.CallOnComplete (FieldCompleteOf n) pw)) true)
    by reflexivity.
  rewrite Hs.
  cbn [PasswordInput.after PasswordInput.written PasswordInput.call PasswordInput.handled
       password pw_onComplete pw_onCancel option_map runCall].
  rewrite app_nil_r.
  match goal with |- context [handleFieldComplete n pw ?x] =>
    destruct (handleFieldComplete n pw x) as [w' [[]|]] end; reflexivity.
Qed.

Lemma handleRegularFieldComplete_text (v : string) (f : Field) (w : World) :
  isActive (form w) = true ->
  fields (form w) !! currentFieldIndex (form w) = Some f ->
  String.eqb (type f) "password" = false ->
  handleRegularFieldComplete v w = handleFieldComplete (name f) v w.
Proof.
  intros Ha Hl Ht. unfold handleRegularFieldComplete, get.
  unfold mbind, mret, M_bind, M_ret. cbn [fst snd form]. rewrite Ha, Hl, Ht. reflexivity.
Qed.

Lemma ready_advance (cb : FormData -> Behaviour) (oc : option Behaviour)
  (pre suf : list Field) (m : FormData) (f : Field) (v : string)
  (g : SequentialFormHandler) (pi : PasswordInput) :
  fields g = (pre ++ f :: suf)%list -> currentFieldIndex g = List.length pre ->
  formData g = m -> isActive g = true -> onComplete g = Some cb -> onCancel g = oc ->
  pw_isActive pi = false ->
  Ready cb oc (pre ++ [f]) suf (<[name f := v]> m)
    (advance (name f) v (setPasswordInput pi g)).
Proof.
  intros Hf Hi Hm Ha Hc Ho Hp. unfold Ready. cbn.
  rewrite Hf, Hi, Hm, <- app_assoc, length_app. cbn.
  repeat split; auto. lia.
Qed.

(** From a form that is about to prompt, entering the remaining fields
    one after the other completes the form with the data collected. *)
Lemma collect_from (cb : FormData -> Behaviour) (oc : option Behaviour)
  (suf : list Field) (es : list Entry) :
  Forall2 (fun f e => fits f e = true) suf es ->
  forall (pre : list Field) (m : FormData) (w : World),
    Ready cb oc pre suf m (form w) ->
    let data := foldl (fun m '(f, e) => <[name f := entered e]> m) m (zip suf es) in
    let w' := run (concat (map keys es)) (fst (promptCurrentField w)) in
    fired w' = (fired w ++ [FiredComplete data])%list
    /\ out w' = (out w ++ concat (zip_with echo suf es))%list
    /\ (cb data <> Throws -> form w' = new).
Proof.
  induction 1 as [|f e suf es Hfit Hrest IH];
    intros pre m w (Hf & Hi & Hm & Ha & Hc & Ho & Hp); cbv zeta.
  - rewrite FormFacts.promptCurrentField_eq.
    assert (Hl : fields (form w) !! currentFieldIndex (form w) = None).
    { rewrite Hf, Hi, app_nil_r. apply lookup_ge_None. lia. }
    rewrite Hl, FormFacts.completeForm_eq, Hc, Hm. cbn.
    destruct (cb m) eqn:Hb; cbn; rewrite ?app_nil_r; repeat split; auto.
    intros; congruence.
  - rewrite FormFacts.promptCurrentField_eq.
    assert (Hl : fields (form w) !! currentFieldIndex (form w) = Some f).
    { rewrite Hf, Hi. rewrite lookup_app_r by lia. rewrite Nat.sub_diag. reflexivity. }
    rewrite Hl. cbv zeta. cbn [map concat zip zip_with foldl].
    rewrite run_app.
    destruct e as [v|cs]; cbn [fits] in Hfit.
    + apply negb_true_iff in Hfit. rewrite Hfit. cbn [fst keys].
      set (w1 := mkWorld (form w) (out w ++ [Term.Write (prompt f ++ ": ")])%list (fired w)).
      set (w2 := mkWorld (advance (name f) v (form w))
                   ((out w ++ [Term.Write (prompt f ++ ": ")]) ++ [Term.Write (CR ++ LF)])%list
                   (fired w)).
      assert (E : run [RegularFieldComplete v] w1 = fst (promptCurrentField w2)).
      { unfold run. cbn [foldl step].
        rewrite (handleRegularFieldComplete_text v f w1 Ha Hl Hfit).
        rewrite FormFacts.handleFieldComplete_eq. reflexivity. }
      rewrite E.
      assert (Hr : Ready cb oc (pre ++ [f]) suf (<[name f := v]> m) (form w2)).
      { subst w2. cbn [form].
        rewrite <- (FormFacts.setPasswordInput_id (form w)).
        apply ready_advance; auto. }
      pose proof (IH (pre ++ [f])%list (<[name f := v]> m) w2 Hr) as HI.
      cbv zeta in HI. destruct HI as (H1 & H2 & H3).
      cbn [entered]. split; [exact H1|]. split; [|exact H3].
      rewrite H2. subst w2. cbn [out echo]. rewrite <- !app_assoc. reflexivity.
    + apply andb_prop in Hfit as [Ht Hcs]. rewrite Ht. cbn [fst keys].
      set (pi0 := mkPasswordInput "" false (Some (FieldCompleteOf (name f)))
                    (Some CancelForm)).
      set (w1 := mkWorld
                   (setPasswordInput
                      (PasswordInput.start (FieldCompleteOf (name f)) (Some CancelForm)
                         (passwordInput (form w))) (form w))
                   (out w ++ [Term.Write (prompt f ++ ": ")])%list (fired w)).
      set (w2 := mkWorld
                   (advance (name f) (foldl String.append "" cs)
                      (setPasswordInput pi0 (form w)))
                   (((out w ++ [Term.Write (prompt f ++ ": ")])
                     ++ map (fun _ => Term.Write PASSWORD_MASK) cs)
                    ++ [Term.Write (CR ++ LF)])%list
                   (fired w)).
      assert (E : run (map Input cs ++ [Input enter]) w1 = fst (promptCurrentField w2)).
      { rewrite run_app.
        rewrite (type_chunks cs w1) by (subst w1; cbn; auto).
        unfold run. cbn [foldl step].
        subst w1. cbn [form out fired setPasswordInput passwordInput PasswordInput.start
          password pw_onComplete pw_onCancel].
        erewrite handleInput_enter; [|cbn; exact Ha|cbn; reflexivity].
        rewrite FormFacts.handleFieldComplete_eq. reflexivity. }
      rewrite E.
      assert (Hr : Ready cb oc (pre ++ [f]) suf
                     (<[name f := foldl String.append "" cs]> m) (form w2)).
      { subst w2. cbn [form]. apply ready_advance; auto. }
      pose proof (IH (pre ++ [f])%list _ w2 Hr) as HI.
      cbv zeta in HI. destruct HI as (H1 & H2 & H3).
      cbn [entered]. split; [exact H1|]. split; [|exact H3].
      rewrite H2. subst w2. cbn [out]. unfold echo. rewrite <- !app_assoc. cbn [app].
      rewrite <- ?app_assoc. reflexivity.
Qed.

(** X17: when every field is entered in turn (a text field by its completed
    value, a password field by chunks of text and Enter), the form invokes
    onComplete exactly once, with each entry stored under the name of its
    field; on the way it writes only the labels, one mask per password
    chunk and a line break per field, and it ends reset unless the
    callback throws. With no fields at all, start completes at once with
    the empty object. *)
Theorem form_collects_entries
  (fs : list Field) (es : list Entry) (cb : FormData -> Behaviour)
  (oc : option Behaviour) (w0 : World) :
  Forall2 (fun f e => fits f e = true) fs es ->
  pw_isActive (passwordInput (form w0)) = false ->
  let w := run (concat (map keys es)) (started fs (Some cb) oc w0) in
  fired w = (fired w0 ++ [FiredComplete (collected fs es)])%list
  /\ out w = (out w0 ++ concat (zip_with echo fs es))%list
  /\ (cb (collected fs es) <> Throws -> form w = new).
Proof.
  intros Hfit Hp.
  set (w1 := mkWorld (mkForm (passwordInput (form w0)) fs 0 ∅ true (Some cb) oc)
               (out w0) (fired w0)).
  assert (Hr : Ready cb oc [] fs ∅ (form w1)) by (subst w1; repeat split; auto).
  pose proof (collect_from cb oc fs es Hfit [] ∅ w1 Hr) as H.
  exact H.
Qed.

Lemma form_collects_entries_witness :
  let es := [TextEntry "bob"; TextEntry "bob@x.com";
             PasswordEntry ["Aa1!"; "a"; "a"; "a"; "a"]; PasswordEntry ["Aa1!aaaa"]] in
  let w := run (concat (map keys es))
             (started createSignupFields (Some (fun _ => Returns)) None initialWorld) in
  fired w = [FiredComplete
               {[ "username" := "bob"; "email" := "bob@x.com";
                  "password" := "Aa1!aaaa"; "confirmPassword" := "Aa1!aaaa" ]}]
  /\ form w = new.
Proof.
  cbv zeta.
  destruct (form_collects_entries createSignupFields
              [TextEntry "bob"; TextEntry "bob@x.com";
               PasswordEntry ["Aa1!"; "a"; "a"; "a"; "a"]; PasswordEntry ["Aa1!aaaa"]]
              (fun _ => Returns) None initialWorld) as (H1 & _ & H3).
  - repeat constructor.
  - reflexivity.
  - split; [|apply H3; discriminate].
    rewrite H1. vm_compute. reflexivity.
Defined.

Lemma owns_setPasswordInput (pi : PasswordInput) (f : SequentialFormHandler) :
  (pw_isActive pi = true -> pw_onCancel pi = Some CancelForm) ->
  OwnsInput (setPasswordInput pi f).
Proof. intros H. exact H. Qed.

Lemma owns_completeForm (w : World) :
  OwnsInput (form w) -> OwnsInput (form (fst (completeForm w))).
Proof.
  intros H. rewrite FormFacts.completeForm_eq.
  destruct (onComplete (form w)) as [cb|]; [|cbn; discriminate].
  cbv zeta. destruct (cb (formData (form w))); cbn; try discriminate. exact H.
Qed.

Lemma owns_handleCancel (w : World) :
  OwnsInput (form w) -> OwnsInput (form (fst (handleCancel w))).
Proof.
  intros H. rewrite FormFacts.handleCancel_eq. cbv zeta.
  destruct (onCancel (form w)) as [[]|]; cbn; try discriminate. exact H.
Qed.

Lemma owns_promptCurrentField (w : World) :
  OwnsInput (form w) -> OwnsInput (form (fst (promptCurrentField w))).
Proof.
  intros H. rewrite FormFacts.promptCurrentField_eq.
  destruct (fields (form w) !! currentFieldIndex (form w)) as [field|];
    [|apply owns_completeForm, H].
  cbv zeta. destruct (String.eqb (type field) "password"); cbn; [|exact H].
  intros _. reflexivity.
Qed.

Lemma owns_handleFieldComplete (n v : string) (w : World) :
  OwnsInput (form w) -> OwnsInput (form (fst (handleFieldComplete n v w))).
Proof.
  intros H. rewrite FormFacts.handleFieldComplete_eq.
  apply owns_promptCurrentField. exact H.
Qed.

Lemma owns_after (data : string) (pi : PasswordInput) :
  (pw_isActive pi = true -> pw_onCancel pi = Some CancelForm) ->
  pw_isActive (PasswordInput.after (PasswordInput.handleInput data pi)) = true ->
  pw_onCancel (PasswordInput.after (PasswordInput.handleInput data pi)) = Some CancelForm.
Proof.
  intros H. unfold PasswordInput.handleInput.
  repeat match goal with
  | |- context [if ?c then _ else _] => destruct c eqn:?
  | |- context [match charCodeAt0 data with _ => _ end] => destruct (charCodeAt0 data)
  end; cbn; try discriminate; intros; apply H;
    try assumption; apply negb_false_iff; assumption.
Qed.

Lemma owns_handleInput (data : string) (w : World) :
  OwnsInput (form w) -> OwnsInput (form (fst (handleInput data w))).
Proof.
  intros H. unfold handleInput, get, modify, emitAll.
  unfold mbind, mret, M_bind, M_ret. cbn [fst snd form out fired].
  destruct (isActive (form w)); cbn [negb]; [|exact H].
  destruct (PasswordInput.isPasswordMode (passwordInput (form w))).
  - set (s := PasswordInput.handleInput data (passwordInput (form w))).
    assert (H1 : OwnsInput (setPasswordInput (PasswordInput.after s) (form w)))
      by (apply owns_setPasswordInput, owns_after, H).
    destruct (PasswordInput.call s) as [[[n] pw|[]]|].
    + cbn [runCall].
      match goal with |- context [handleFieldComplete n pw ?x] =>
        pose proof (owns_handleFieldComplete n pw x H1) as H2;
        destruct (handleFieldComplete n pw x) as [w' [[]|]] end; exact H2.
    + cbn [runCall].
      match goal with |- context [handleCancel ?x] =>
        pose proof (owns_handleCancel x H1) as H2;
        destruct (handleCancel x) as [w' [[]|]] end; exact H2.
    + exact H1.
  - destruct (charCodeAt0 data) as [[|[|[|[|n]]]]|]; try exact H.
    pose proof (owns_handleCancel w H) as H2.
    destruct (handleCancel w) as [w' [[]|]]; exact H2.
Qed.

Lemma owns_step (e : Event) (w : World) :
  OwnsInput (form w) -> OwnsInput (form (step e w)).
Proof.
  intros H. destruct e as [data|v|]; cbn [step].
  - apply owns_handleInput, H.
  - unfold handleRegularFieldComplete, get.
    unfold mbind, mret, M_bind, M_ret. cbn [fst snd form].
    destruct (isActive (form w)); cbn [negb]; [|exact H].
    destruct (fields (form w) !! currentFieldIndex (form w)) as [f|]; [|exact H].
    destruct (String.eqb (type f) "password"); cbn [negb]; [exact H|].
    apply owns_handleFieldComplete, H.
  - cbn. discriminate.
Qed.

Lemma onCancel_step (oc : option Behaviour) (e : Event) (w : World) :
  (isActive (form w) = true -> onCancel (form w) = oc) ->
  isActive (form (step e w)) = true -> onCancel (form (step e w)) = oc.
Proof.
  intros H.
  destruct (FormFacts.step_change e w)
    as [pi Hf Hm|n v pi Ha Hf Hm|Hf Hm|x Ha Hf Hm|n v pi cb Ha Hc Hb Hf Hm|pi Ha Hc Hf Hm];
    rewrite Hm; cbn; try discriminate; auto.
Qed.

Lemma reachable_inv (oc : option Behaviour) (es : list Event) (w : World) :
  OwnsInput (form w) ->
  (isActive (form w) = true -> onCancel (form w) = oc) ->
  OwnsInput (form (run es w))
  /\ (isActive (form (run es w)) = true -> onCancel (form (run es w)) = oc).
Proof.
  revert w. induction es as [|e es IH]; intros w H1 H2; [auto|].
  rewrite FormFacts.run_cons. apply IH; [apply owns_step, H1|apply onCancel_step, H2].
Qed.

Lemma started_inv (fs : list Field) (ocb : option (FormData -> Behaviour))
  (oc : option Behaviour) (w0 : World) :
  pw_isActive (passwordInput (form w0)) = false ->
  OwnsInput (form (started fs ocb oc w0))
  /\ (isActive (form (started fs ocb oc w0)) = true ->
      onCancel (form (started fs ocb oc w0)) = oc).
Proof.
  intros Hp. unfold started, start, modify.
  unfold mbind, mret, M_bind, M_ret. cbn [fst snd].
  set (w1 := mkWorld _ _ _). split.
  - apply owns_promptCurrentField. subst w1. cbn. unfold OwnsInput. cbn. congruence.
  - rewrite FormFacts.promptCurrentField_eq.
    destruct (fields (form w1) !! currentFieldIndex (form w1)) as [f|].
    + cbv zeta. destruct (String.eqb (type f) "password"); cbn; auto.
    + rewrite FormFacts.completeForm_eq. cbn.
      destruct ocb as [cb|]; [|cbn; discriminate].
      cbv zeta. destruct (cb ∅); cbn; discriminate.
Qed.

(** X18: in any active state that a started form can reach, on a text field
    or in the middle of a password, Ctrl+C writes the cancel notice,
    invokes onCancel once if there is one and resets the form completely
    (provided the callback does not throw). *)
Theorem ctrlC_cancels_at_any_field
  (fs : list Field) (ocb : option (FormData -> Behaviour)) (oc : option Behaviour)
  (es : list Event) (w0 : World) :
  pw_isActive (passwordInput (form w0)) = false ->
  oc <> Some Throws ->
  let w := run es (started fs ocb oc w0) in
  isActive (form w) = true ->
  let w' := step (Input ctrlC) w in
  form w' = new
  /\ out w' = (out w ++ [cancelNotice])%list
  /\ fired w' = (fired w ++ match oc with Some _ => [FiredCancel] | None => [] end)%list.
Proof.
  intros Hp Hoc. cbv zeta.
  destruct (started_inv fs ocb oc w0 Hp) as [I1 I2].
  destruct (reachable_inv oc es _ I1 I2) as [H1 H2].
  set (w := run es (started fs ocb oc w0)) in *.
  intros Ha. specialize (H2 Ha).
  cbn [step]. unfold handleInput, get, modify, emitAll.
  unfold mbind, mret, M_bind, M_ret. cbn [fst snd form out fired]. rewrite Ha. cbn [negb].
  unfold PasswordInput.isPasswordMode.
  destruct (pw_isActive (passwordInput (form w))) eqn:Hact.
  - specialize (H1 Hact).
    assert (Hs : PasswordInput.handleInput ctrlC (passwordInput (form w))
                 = PasswordInput.mkStep
                     (mkPasswordInput "" false (pw_onComplete (passwordInput (form w)))
                        (Some CancelForm)) [] (Some (PasswordInput.CallOnCancel CancelForm))
                     true).
    { unfold PasswordInput.handleInput. rewrite Hact, H1. reflexivity. }
    rewrite Hs. cbn [PasswordInput.after PasswordInput.written PasswordInput.call
      PasswordInput.handled runCall].
    rewrite FormFacts.handleCancel_eq. cbn [form out fired setPasswordInput onCancel].
    rewrite H2, app_nil_r. cbv zeta.
    destruct oc as [[]|]; cbn; rewrite ?app_nil_r; auto. congruence.
  - change (charCodeAt0 ctrlC) with (Some 3). cbv beta iota.
    rewrite FormFacts.handleCancel_eq. rewrite H2. cbv zeta.
    destruct oc as [[]|]; cbn; rewrite ?app_nil_r; auto. congruence.
Qed.


Lemma ctrlC_cancels_at_any_field_witness :
  let es := [RegularFieldComplete "bob"; RegularFieldComplete "bob@x.com";
             Input "A"; Input "a"] in
  let w := run es (started createSignupFields (Some (fun _ => Returns)) (Some StopsForm)
                     initialWorld) in
  let w' := step (Input ctrlC) w in
  isActive (form w) = true
  /\ password (passwordInput (form w)) = "Aa"
  /\ form w' = new
  /\ fired w' = [FiredCancel].
Proof.
  cbv zeta. split; [reflexivity|]. split; [reflexivity|].
  destruct (ctrlC_cancels_at_any_field createSignupFields (Some (fun _ => Returns))
              (Some StopsForm)
              [RegularFieldComplete "bob"; RegularFieldComplete "bob@x.com";
               Input "A"; Input "a"] initialWorld eq_refl) as (H1 & _ & H3).
  - discriminate.
  - reflexivity.
  - split; [exact H1|]. rewrite H3. reflexivity.
Defined.

End CollectorFacts.

(** ** The command handler from submission to idle *)
Module CommandFacts.
Import JS Shared AuthClient AuthContext AuthCmd Timers.

Lemma sameControl_refl (h : Handler) : sameControl h h.
Proof. repeat split. Qed.

Lemma sameControl_trans (a b c : Handler) :
  sameControl a b -> sameControl b c -> sameControl a c.
Proof.
  intros (?&?&?&?&?&?&?) (?&?&?&?&?&?&?). repeat split; congruence.
Qed.

Lemma sameControl_colored (text color : string) (h : Handler) :
  sameControl h (writeColoredText text color h).
Proof. repeat split. Qed.

Lemma sameControl_fieldErrors (errs : list ValidationError) (h : Handler) :
  sameControl h (writeFieldErrors errs h).
Proof.
  unfold writeFieldErrors.
  set (h0 := writeColoredText "Validation errors:" "red" h).
  assert (H0 : sameControl h h0) by apply sameControl_colored.
  clearbody h0. revert h0 H0.
  induction errs as [|e errs IH]; intros h0 H0; [exact H0|].
  cbn [foldl]. apply IH. eapply sameControl_trans; [exact H0|apply sameControl_colored].
Qed.

Lemma sameControl_error (e : ErrorArg) (h : Handler) :
  sameControl h (writeErrorMessage e h).
Proof.
  destruct e as [m|errs|e]; cbn [writeErrorMessage].
  - apply sameControl_colored.
  - destruct (Nat.ltb 0 (List.length errs));
      [apply sameControl_fieldErrors|apply sameControl_colored].
  - destruct (Nat.ltb 0 (List.length (err_errors e)));
      [apply sameControl_fieldErrors|apply sameControl_colored].
Qed.


Lemma finishAuthCommand_idle (h : Handler) :
  Idle (finishAuthCommand h)
  /\ timers (finishAuthCommand h) = (timers h ++ [RefreshPromptTimer])%list
  /\ awaiting (finishAuthCommand h) = awaiting h
  /\ provider (finishAuthCommand h) = provider h.
Proof.
  unfold finishAuthCommand, setTerminalIdle, Idle.
  destruct (loadingIndicator h) eqn:E; unfold stopLoadingIndicator; rewrite E; cbn;
    rewrite ?E; cbn; repeat split; exact E.
Qed.

Lemma signup_valid_confirms (formData : FormData) :
  isValid (validateSignupRequest formData) = true ->
  Form.validateConfirmation (formData !! "password") (formData !! "confirmPassword")
  = true.
Proof.
  unfold validateSignupRequest, Form.validateConfirmation. cbn [isValid].
  intros H. apply Nat.eqb_eq in H. rewrite !length_app in H.
  destruct (missing (formData !! "confirmPassword")); [cbn in H; lia|].
  destruct (bool_decide (formData !! "password" = formData !! "confirmPassword"));
    [reflexivity|cbn in H; lia].
Qed.

(** X19: collected data that passes validation is handed to the store
    exactly once: processSignup (processLogin) starts the spinner, the
    store dispatches its two actions and sends one request carrying the
    data unchanged, and the command stays in progress awaiting the
    answer. The second check of the confirmation in processSignup and the
    validation repeated inside the API client can never fail at this
    point. *)
Theorem valid_data_is_sent_once (formData : FormData) (h : Handler) :
  (isValid (validateSignupRequest formData) = true ->
   let r := processSignupBegin formData h in
   snd r = None
   /\ sent (provider (fst r)) = (sent (provider h) ++ [mkNetCall EP_SIGNUP formData])%list
   /\ awaiting (fst r) = Some PendingSignup
   /\ loadingIndicator (fst r) = Some "Creating account"
   /\ isProcessing (fst r) = isProcessing h
   /\ timers (fst r) = timers h
   /\ st_loading (state (provider (fst r))) = true)
  /\ (isValid (validateLoginRequest formData) = true ->
      let r := processLoginBegin formData h in
      snd r = None
      /\ sent (provider (fst r)) = (sent (provider h) ++ [mkNetCall EP_LOGIN formData])%list
      /\ awaiting (fst r) = Some PendingLogin
      /\ loadingIndicator (fst r) = Some "Authenticating"
      /\ isProcessing (fst r) = isProcessing h
      /\ timers (fst r) = timers h
      /\ st_loading (state (provider (fst r))) = true).
Proof.
  split; intros Hv; cbv zeta.
  - unfold processSignupBegin. rewrite Hv, (signup_valid_confirms _ Hv). cbn [negb].
    unfold AuthContext.signupBegin, AuthClient.signupBegin. rewrite Hv. cbn [negb].
    unfold startLoadingIndicator, stopLoadingIndicator.
    destruct (loadingIndicator h); cbn; repeat split.
  - unfold processLoginBegin. rewrite Hv. cbn [negb].
    unfold AuthContext.loginBegin, AuthClient.loginBegin. rewrite Hv. cbn [negb].
    unfold startLoadingIndicator, stopLoadingIndicator.
    destruct (loadingIndicator h); cbn; repeat split.
Qed.


Lemma valid_data_is_sent_once_witness :
  let formData : FormData :=
    {[ "username" := "bob"; "email" := "bob@x.com";
       "password" := "Aa1!aaaa"; "confirmPassword" := "Aa1!aaaa" ]} in
  let h := AuthCmd.new (initialProvider (mkStorage true ∅)) in
  isValid (validateSignupRequest formData) = true
  /\ snd (processSignupBegin formData h) = None
  /\ sent (provider (fst (processSignupBegin formData h))) = [mkNetCall EP_SIGNUP formData]
  /\ awaiting (fst (processSignupBegin formData h)) = Some PendingSignup.
Proof.
  cbv zeta.
  assert (Hv : isValid (validateSignupRequest
                          {[ "username" := "bob"; "email" := "bob@x.com";
                             "password" := "Aa1!aaaa"; "confirmPassword" := "Aa1!aaaa" ]})
               = true) by (vm_compute; reflexivity).
  split; [exact Hv|].
  destruct (proj1 (valid_data_is_sent_once
                     {[ "username" := "bob"; "email" := "bob@x.com";
                        "password" := "Aa1!aaaa"; "confirmPassword" := "Aa1!aaaa" ]}
                     (AuthCmd.new (initialProvider (mkStorage true ∅)))) Hv)
    as (H1 & H2 & H3 & _).
  split; [exact H1|]. split; [exact H2|exact H3].
Defined.

Lemma timers_stopLoading (h : Handler) : timers (stopLoadingIndicator h) = timers h.
Proof. unfold stopLoadingIndicator. destruct (loadingIndicator h); reflexivity. Qed.

Lemma timers_error (e : ErrorArg) (h : Handler) : timers (writeErrorMessage e h) = timers h.
Proof. apply sameControl_error. Qed.



Lemma finishes_now (auth : option Auth) (h h0 : Handler) :
  timers h0 = timers h -> Finishes auth h (finishAuthCommand h0).
Proof.
  intros Ht. left. destruct (finishAuthCommand_idle h0) as (Hi & Hm & _).
  rewrite Hm, Ht. auto.
Qed.


Lemma processFailed_finishes' (auth : option Auth) (e : APIError) (h h0 : Handler) :
  timers h0 = timers h -> Finishes auth h (processFailed e h0).
Proof.
  intros Ht. unfold processFailed. apply finishes_now.
  rewrite timers_error, timers_stopLoading. exact Ht.
Qed.









End CommandFacts.

(** ** Line editing, history and commands of the dispatchers *)
Module TerminalFacts.
Import JS Term FormSpec TerminalSpec.

Lemma str_app (a b : list ascii) : str (a ++ b) = str a ++ str b.
Proof.
  unfold str. induction a as [|x a IH]; [reflexivity|].
  change (String x (string_of_list_ascii (a ++ b))
          = String x (string_of_list_ascii a ++ string_of_list_ascii b)).
  rewrite IH. reflexivity.
Qed.

Lemma chars_app (a b : string) : chars (a ++ b) = (chars a ++ chars b)%list.
Proof.
  unfold chars. induction a as [|x a IH]; [reflexivity|].
  change (x :: list_ascii_of_string (a ++ b)
          = x :: (list_ascii_of_string a ++ list_ascii_of_string b)%list).
  rewrite IH. reflexivity.
Qed.

Lemma str_chars' (s : string) : str (chars s) = s.
Proof. apply string_of_list_ascii_of_string. Qed.

Lemma chars_str' (l : list ascii) : chars (str l) = l.
Proof. apply list_ascii_of_string_of_list_ascii. Qed.

Lemma splitAux_cons (l cur : list ascii) :
  exists x rest, splitAux l cur = x :: rest.
Proof.
  revert cur. induction l as [|c l IH]; intros cur; simpl; [eauto|].
  destruct (Ascii.eqb c " "); eauto.
Qed.

(** Splitting at spaces and joining with a space gives the text back. *)
Lemma join_splitAux (l cur : list ascii) :
  join " " (splitAux l cur) = str (rev cur ++ l).
Proof.
  revert cur. induction l as [|c l IH]; intros cur.
  - simpl. rewrite app_nil_r. reflexivity.
  - simpl splitAux. destruct (Ascii.eqb_spec c " ") as [->|Hc].
    + destruct (splitAux_cons l []) as (x & rest & E).
      specialize (IH []). rewrite E in *.
      change (join " " (str (rev cur) :: x :: rest))
        with (str (rev cur) ++ " " ++ join " " (x :: rest)).
      rewrite IH. cbn [rev app]. rewrite str_app. reflexivity.
    + rewrite IH. cbn [rev]. rewrite <- app_assoc. reflexivity.
Qed.

Lemma join_splitSpace (s : string) : join " " (splitSpace s) = s.
Proof. unfold splitSpace. rewrite join_splitAux. apply str_chars'. Qed.

Lemma splitSpace_echo (s : string) :
  splitSpace ("echo " ++ s) = "echo" :: splitSpace s.
Proof. reflexivity. Qed.

Lemma legacy_no_echo_compound (x : string) :
  Legacy.lookupCommand ("echo" ++ " " ++ x) Legacy.commands = None.
Proof.
  unfold Legacy.lookupCommand.
  change (Legacy.ownProperty ("echo" ++ " " ++ x) Legacy.commands) with (@None Legacy.Handler).
  cbv iota. rewrite bool_decide_eq_false_2; [reflexivity|].
  unfold ObjectPrototype.members.
  intros H. repeat (apply elem_of_cons in H as [H|H]; [discriminate H|]).
  inversion H.
Qed.

Lemma legacy_echo_lookup :
  Legacy.lookupCommand "echo" Legacy.commands
  = Some (Legacy.Own (fun (args : list string) (t : Legacy.Terminal) => (join " " args, t))).
Proof. reflexivity. Qed.

(** X26: echo prints its argument text exactly as typed, repeated spaces
    included (splitting at spaces and joining with a space is the
    identity), except that the texts CLEAR and WELCOME are taken for the
    sentinels of the clear and welcome commands: echo CLEAR clears the
    screen and prints nothing, and echo WELCOME redraws the welcome
    screen. In every case the command returns and is recorded in the
    history as typed. *)
Theorem legacy_echo_prints_verbatim (s : string) (t : Legacy.Terminal) :
  trim ("echo " ++ s) = "echo " ++ s ->
  let t' := Legacy.processCommand ("echo " ++ s) t in
  (s <> "CLEAR" -> s <> "WELCOME" ->
   Legacy.screen t' = (Legacy.screen t ++ [Write (String.append s CRLF); Write Legacy.promptText])%list)
  /\ (s = "CLEAR" ->
      Legacy.screen t' = (Legacy.screen t ++ [Clear; Write Legacy.promptText])%list)
  /\ (s = "WELCOME" -> Legacy.screen t' = Legacy.screen (Legacy.showWelcome t))
  /\ Legacy.commandHistory t' = (Legacy.commandHistory t ++ [String.append "echo " s])%list
  /\ snd (Legacy.processCommandM ("echo " ++ s) t) = true.
Proof.
  intros Htrim. cbv zeta. unfold Legacy.processCommand, Legacy.processCommandM.
  rewrite Htrim.
  change (String.eqb ("echo " ++ s) "") with false. cbv iota.
  rewrite splitSpace_echo.
  destruct (splitAux_cons (chars s) []) as (x & rest & E).
  pose proof (join_splitSpace s) as Hj. unfold splitSpace in *. rewrite E in *.
  rewrite legacy_no_echo_compound.
change (default "" (head ("echo" :: x :: rest))) with "echo".
  rewrite legacy_echo_lookup.
  cbv beta iota. change (drop 1 ("echo" :: x :: rest)) with (x :: rest).
  cbn [Legacy.callMember]. rewrite Hj.
  cbn [ObjectPrototype.strictEquals ObjectPrototype.toText].
  repeat split.
  - intros H1 H2.
    destruct (String.eqb_spec s "CLEAR"); [contradiction|].
    destruct (String.eqb_spec s "WELCOME"); [contradiction|].
    cbn. rewrite <- app_assoc. reflexivity.
  - intros ->. cbn. rewrite <- app_assoc. reflexivity.
  - intros ->. reflexivity.
  - destruct (String.eqb s "CLEAR"); [reflexivity|].
    destruct (String.eqb s "WELCOME"); reflexivity.
  - destruct (String.eqb s "CLEAR"); [reflexivity|].
    destruct (String.eqb s "WELCOME"); reflexivity.
Qed.

Lemma legacy_echo_prints_verbatim_witness :
  let t := Legacy.startPortfolio Legacy.initial in
  trim "echo a  b" = "echo a  b"
  /\ Legacy.screen (Legacy.processCommand "echo a  b" t)
     = (Legacy.screen t ++ [Write (String.append "a  b" CRLF); Write Legacy.promptText])%list.
Proof.
  cbv zeta. split; [vm_compute; reflexivity|].
  refine (proj1 (legacy_echo_prints_verbatim "a  b" (Legacy.startPortfolio Legacy.initial) _)
            _ _).
  - vm_compute. reflexivity.
  - discriminate.
  - discriminate.
Defined.

Lemma web_no_echo_compound (x : string) :
  Web.lookupCommand ("echo" ++ " " ++ x) Web.commands = None.
Proof.
  unfold Web.lookupCommand.
  change (Web.ownProperty ("echo" ++ " " ++ x) Web.commands) with (@None Web.Handler).
  cbv iota. rewrite bool_decide_eq_false_2; [reflexivity|].
  unfold ObjectPrototype.members.
  intros H. repeat (apply elem_of_cons in H as [H|H]; [discriminate H|]).
  inversion H.
Qed.

Lemma web_screen_termWrite (s : string) (t : Web.Terminal) :
  Web.screen (Web.termWrite s t) = (Web.screen t ++ [Write s])%list.
Proof. reflexivity. Qed.

Lemma web_screen_termClear (t : Web.Terminal) :
  Web.screen (Web.termClear t) = (Web.screen t ++ [Clear])%list.
Proof. reflexivity. Qed.

Lemma web_authRef_termWrite (s : string) (t : Web.Terminal) :
  Web.authRef (Web.termWrite s t) = Web.authRef t.
Proof. reflexivity. Qed.

Lemma web_authRef_termClear (t : Web.Terminal) :
  Web.authRef (Web.termClear t) = Web.authRef t.
Proof. reflexivity. Qed.

(** The welcome screen depends on what is on the screen and on the
    session only. *)
Lemma web_showWelcome_frame (t1 t : Web.Terminal) :
  Web.screen t1 = Web.screen t -> Web.authRef t1 = Web.authRef t ->
  Web.screen (Web.showWelcome t1) = Web.screen (Web.showWelcome t).
Proof.
  intros Hs Hr. unfold Web.showWelcome, Web.showPrompt, Web.writeToTerminal. cbv zeta.
  rewrite !web_screen_termWrite, !web_authRef_termWrite, !web_screen_termClear,
    !web_authRef_termClear, Hs, Hr.
  reflexivity.
Qed.

Lemma web_echo_lookup :
  Web.lookupCommand "echo" Web.commands
  = Some (Web.Own (fun (args : list string) (t : Web.Terminal) => (join " " args, t))).
Proof. reflexivity. Qed.

(** X28: in the dispatcher with accounts echo also prints its argument text
    exactly as typed, with three exceptions that come from the sentinel
    strings: echo CLEAR clears the screen, echo WELCOME redraws the welcome
    screen, and echo AUTH_COMMAND prints nothing at all, not even a new
    prompt. In every case the command returns and is recorded in the
    history as typed. *)
Theorem web_echo_prints_verbatim (s : string) (t : Web.Terminal) :
  Web.isAuthProcessing t = false ->
  trim ("echo " ++ s) = "echo " ++ s ->
  let t' := Web.processCommand ("echo " ++ s) t in
  (s <> "CLEAR" -> s <> "WELCOME" -> s <> "AUTH_COMMAND" ->
   Web.screen t'
   = (Web.screen t ++ [Write (String.append s CRLF);
                       Write (Prompt.getCurrentPrompt (Web.authRef t))])%list)
  /\ (s = "AUTH_COMMAND" -> Web.screen t' = Web.screen t)
  /\ (s = "CLEAR" ->
      Web.screen t'
      = (Web.screen t ++ [Clear; Write (Prompt.getCurrentPrompt (Web.authRef t))])%list)
  /\ (s = "WELCOME" -> Web.screen t' = Web.screen (Web.showWelcome t))
  /\ Web.commandHistory t' = (Web.commandHistory t ++ [String.append "echo " s])%list
  /\ snd (Web.processCommandM ("echo " ++ s) t) = true.
Proof.
  intros Hi Htrim. cbv zeta. unfold Web.processCommand, Web.processCommandM.
  rewrite Htrim, Hi.
  change (String.eqb ("echo " ++ s) "") with false. cbv iota. cbn [andb].
  rewrite splitSpace_echo.
  destruct (splitAux_cons (chars s) []) as (x & rest & E).
  pose proof (join_splitSpace s) as Hj. unfold splitSpace in *. rewrite E in *.
  rewrite web_no_echo_compound.
change (default "" (head ("echo" :: x :: rest))) with "echo".
  rewrite web_echo_lookup.
  cbv beta iota. change (drop 1 ("echo" :: x :: rest)) with (x :: rest).
  cbn [Web.callMember]. rewrite Hj.
  unfold Web.finishCommand. cbn [andb ObjectPrototype.strictEquals ObjectPrototype.toText].
  repeat split.
  - intros H1 H2 H3.
    destruct (String.eqb_spec s "CLEAR"); [contradiction|].
    destruct (String.eqb_spec s "WELCOME"); [contradiction|].
    destruct (String.eqb_spec s "AUTH_COMMAND"); [contradiction|].
    unfold Web.screen, AuthCmd.output. cbn. rewrite <- app_assoc. reflexivity.
  - intros ->. reflexivity.
  - intros ->. unfold Web.screen, AuthCmd.output. cbn. rewrite <- app_assoc. reflexivity.
  - intros ->.
    change (String.eqb "WELCOME" "CLEAR") with false.
    change (String.eqb "WELCOME" "WELCOME") with true. cbv iota. cbn [fst].
    apply web_showWelcome_frame; reflexivity.
  - destruct (String.eqb s "CLEAR"); [reflexivity|].
    destruct (String.eqb s "WELCOME"); [reflexivity|].
    destruct (String.eqb s "AUTH_COMMAND"); reflexivity.
Qed.

Lemma web_echo_prints_verbatim_witness :
  let t := Web.startPortfolio
             (Web.mounted (AuthContext.initialProvider (AuthClient.mkStorage true ∅))) in
  Web.isAuthProcessing t = false
  /\ trim "echo AUTH_COMMAND" = "echo AUTH_COMMAND"
  /\ Web.screen (Web.processCommand "echo AUTH_COMMAND" t) = Web.screen t.
Proof.
  cbv zeta. split; [reflexivity|]. split; [vm_compute; reflexivity|].
  refine (proj1 (proj2 (web_echo_prints_verbatim "AUTH_COMMAND"
                          (Web.startPortfolio
                             (Web.mounted
                                (AuthContext.initialProvider (AuthClient.mkStorage true ∅))))
                          _ _)) _).
  - reflexivity.
  - vm_compute. reflexivity.
  - reflexivity.
Defined.

Lemma printable_code (d : string) :
  printable d = true ->
  exists code, charCodeAt0 d = Some code /\ 32 <= code <= 126.
Proof.
  unfold printable. destruct (charCodeAt0 d) as [code|]; [|discriminate].
  intros H. apply andb_prop in H as [H1 H2]. apply Nat.leb_le in H1, H2. eauto.
Qed.

Lemma legacy_printable_key (d : string) (t : Legacy.Terminal) :
  Legacy.terminalReady t = true -> printable d = true ->
  Legacy.onData d t = Legacy.emit (Write d) (Legacy.setLine (Legacy.currentLine t ++ d) t).
Proof.
  intros Hr Hd. destruct (printable_code d Hd) as (code & Hc & Hlo & Hhi).
  unfold Legacy.onData. rewrite Hr, Hc. cbn [negb].
  destruct (Nat.eqb_spec code 13); [lia|]. destruct (Nat.eqb_spec code 127); [lia|].
  destruct (Nat.eqb_spec code 9); [lia|]. destruct (Nat.eqb_spec code 12); [lia|].
  destruct (Nat.eqb_spec code 27); [lia|].
  destruct (Nat.leb_spec 32 code); [|lia]. destruct (Nat.leb_spec code 126); [|lia].
  reflexivity.
Qed.

(** X21: text typed at the prompt is appended to the current line and
    echoed chunk by chunk, and nothing else changes: not the history, its
    cursor, the theme or the opened windows. *)
Theorem legacy_typing_appends_and_echoes (ds : list string) (t : Legacy.Terminal) :
  Legacy.terminalReady t = true -> forallb printable ds = true ->
  Legacy.feed ds t
  = Legacy.mkTerminal true (foldl String.append (Legacy.currentLine t) ds)
      (Legacy.commandHistory t) (Legacy.historyIndex t) (Legacy.currentTheme t)
      (Legacy.screen t ++ map Write ds)%list (Legacy.opened t).
Proof.
  revert t. induction ds as [|d ds IH]; intros t Hr Hp.
  - cbn. rewrite app_nil_r. destruct t; cbn in *. subst. reflexivity.
  - cbn in Hp. apply andb_prop in Hp as [Hd Hp].
    unfold Legacy.feed in *. cbn [foldl]. rewrite (legacy_printable_key d t Hr Hd).
    rewrite IH by (cbn; auto). cbn. rewrite <- app_assoc. reflexivity.
Qed.


Lemma legacy_typing_appends_and_echoes_witness :
  let t := Legacy.startPortfolio Legacy.initial in
  Legacy.terminalReady t = true
  /\ Legacy.currentLine (Legacy.feed ["h"; "el"; "p"] t) = "help"
  /\ Legacy.commandHistory (Legacy.feed ["h"; "el"; "p"] t) = [].
Proof.
  cbv zeta. split; [reflexivity|].
  rewrite (legacy_typing_appends_and_echoes ["h"; "el"; "p"]
             (Legacy.startPortfolio Legacy.initial) eq_refl eq_refl).
  split; reflexivity.
Defined.

Lemma dropLast_snoc (s : string) (c : ascii) : dropLast (s ++ String c "") = s.
Proof.
  unfold dropLast. rewrite chars_app. change (chars (String c "")) with [c].
  rewrite removelast_last. apply str_chars'.
Qed.

Lemma legacy_backspace_key (t : Legacy.Terminal) :
  Legacy.terminalReady t = true ->
  Legacy.onData (chr 127) t
  = if Nat.ltb 0 (String.length (Legacy.currentLine t))
    then Legacy.emit (Write (BS ++ " " ++ BS))
           (Legacy.setLine (dropLast (Legacy.currentLine t)) t)
    else t.
Proof. intros Hr. unfold Legacy.onData. rewrite Hr. reflexivity. Qed.

(** X22: Backspace undoes a typed character: the line is as before and the
    screen shows the character followed by the erase sequence. On an
    empty line Backspace changes nothing and writes nothing. *)
Theorem legacy_backspace_undoes_character (c : ascii) (t : Legacy.Terminal) :
  Legacy.terminalReady t = true ->
  (printable (String c "") = true ->
   Legacy.feed [String c ""; chr 127] t
   = Legacy.mkTerminal true (Legacy.currentLine t) (Legacy.commandHistory t)
       (Legacy.historyIndex t) (Legacy.currentTheme t)
       (Legacy.screen t ++ [Write (String c ""); Write (BS ++ " " ++ BS)])%list
       (Legacy.opened t))
  /\ (Legacy.currentLine t = "" -> Legacy.onData (chr 127) t = t).
Proof.
  intros Hr. split.
  - intros Hp. unfold Legacy.feed. cbn [foldl].
    rewrite (legacy_printable_key _ t Hr Hp).
    rewrite legacy_backspace_key by exact Hr.
    cbn [Legacy.currentLine Legacy.emit Legacy.setLine].
    assert (Hlen : Nat.ltb 0 (String.length (Legacy.currentLine t ++ String c "")) = true).
    { apply Nat.ltb_lt. clear. induction (Legacy.currentLine t); simpl; lia. }
    rewrite Hlen, dropLast_snoc. unfold Legacy.emit, Legacy.setLine. cbn.
    rewrite Hr, <- app_assoc. reflexivity.
  - intros He. rewrite legacy_backspace_key by exact Hr. rewrite He. reflexivity.
Qed.


Lemma legacy_backspace_undoes_character_witness :
  let t := Legacy.feed ["h"; "e"] (Legacy.startPortfolio Legacy.initial) in
  Legacy.currentLine (Legacy.feed ["x"; chr 127] t) = "he"
  /\ Legacy.onData (chr 127) (Legacy.startPortfolio Legacy.initial)
     = Legacy.startPortfolio Legacy.initial.
Proof.
  cbv zeta. split.
  - rewrite (proj1 (legacy_backspace_undoes_character "x"
                      (Legacy.feed ["h"; "e"] (Legacy.startPortfolio Legacy.initial))
                      eq_refl) eq_refl).
    reflexivity.
  - exact (proj2 (legacy_backspace_undoes_character "x"
                    (Legacy.startPortfolio Legacy.initial) eq_refl) eq_refl).
Defined.

(** One key changes the history only when it is Enter on a line that is
    not blank, and then by appending the line as it stands. *)
Lemma legacy_onData_history_exact (d : string) (t : Legacy.Terminal) :
  Legacy.commandHistory (Legacy.onData d t)
  = (Legacy.commandHistory t
     ++ (if Legacy.terminalReady t && bool_decide (charCodeAt0 d = Some 13)
            && negb (String.eqb (trim (Legacy.currentLine t)) "")
         then [Legacy.currentLine t] else []))%list.
Proof.
  unfold Legacy.onData.
  destruct (Legacy.terminalReady t) eqn:Hr; cbn [negb andb];
    [|rewrite app_nil_r; reflexivity].
  destruct (charCodeAt0 d) as [code|]; [|rewrite app_nil_r; reflexivity].
  destruct (Nat.eqb_spec code 13) as [->|Hc].
  { rewrite bool_decide_eq_true_2 by reflexivity. cbn [andb].
    rewrite DispatcherFacts.legacy_enter.
    change (Legacy.currentLine (Legacy.writeToTerminal "" true t))
      with (Legacy.currentLine t).
    assert (E : Legacy.commandHistory
                  (Legacy.processCommand (Legacy.currentLine t)
                     (Legacy.writeToTerminal "" true t))
                = (Legacy.commandHistory t
                   ++ (if negb (String.eqb (trim (Legacy.currentLine t)) "")
                       then [Legacy.currentLine t] else []))%list).
    { destruct (String.eqb_spec (trim (Legacy.currentLine t)) "") as [E|E]; cbn [negb].
      - rewrite (DispatcherFacts.legacy_blank_command _ _ E), app_nil_r. reflexivity.
      - exact (proj1 (DispatcherFacts.legacy_command_history _
                        (Legacy.writeToTerminal "" true t) E)). }
    destruct (snd _); exact E. }
  rewrite bool_decide_eq_false_2 by congruence. cbn [andb]. rewrite app_nil_r.
  destruct (Nat.eqb code 127). { destruct (Nat.ltb _ _); reflexivity. }
  destruct (Nat.eqb code 9).
  { destruct (Legacy.matchesFor _) as [|m [|]]; reflexivity. }
  destruct (Nat.eqb code 12). { reflexivity. }
  destruct (Nat.eqb code 27).
  { destruct (String.eqb _ "[A").
    - destruct (Z.ltb 0 _); reflexivity.
    - destruct (String.eqb _ "[B"); [|reflexivity].
      destruct (Z.ltb _ _); [reflexivity|].
      destruct (Z.eqb _ _); reflexivity. }
  destruct (_ && _); reflexivity.
Qed.

Lemma legacy_onData_history (d : string) (t : Legacy.Terminal) :
  exists added,
    Legacy.commandHistory (Legacy.onData d t) = (Legacy.commandHistory t ++ added)%list
    /\ Forall (fun c => trim c <> "") added.
Proof.
  rewrite legacy_onData_history_exact. eexists. split; [reflexivity|].
  destruct (_ && _ && _) eqn:E; [|constructor].
  apply andb_prop in E as [_ E]. apply negb_true_iff in E.
  apply Forall_singleton. intros H. rewrite H in E. discriminate.
Qed.

(** X23: whatever is typed, the history changes only when Enter is pressed
    on a line that is not blank, and then exactly that line, as it stands
    and untrimmed, is appended (also when the call of the command throws).
    So over any input the history only grows at its end, by lines that
    are not blank; it is never reordered, shortened or rewritten, and its
    cursor stays between -1 and the length of the history. *)
Theorem legacy_history_is_append_only (ds : list string) (t : Legacy.Terminal) :
  Legacy.indexInRange t ->
  Legacy.indexInRange (Legacy.feed ds t)
  /\ (exists added,
        Legacy.commandHistory (Legacy.feed ds t) = (Legacy.commandHistory t ++ added)%list
        /\ Forall (fun c => trim c <> "") added)
  /\ (forall d,
        let u := Legacy.feed ds t in
        Legacy.commandHistory (Legacy.onData d u)
        = (Legacy.commandHistory u
           ++ (if Legacy.terminalReady u && bool_decide (charCodeAt0 d = Some 13)
                  && negb (String.eqb (trim (Legacy.currentLine u)) "")
               then [Legacy.currentLine u] else []))%list).
Proof.
  intros Hi. split; [|split].
  - revert t Hi. induction ds as [|d ds IH]; intros t Hi; [exact Hi|].
    unfold Legacy.feed in *. cbn [foldl].
    apply IH, DispatcherFacts.legacy_index_in_range, Hi.
  - clear Hi. revert t. induction ds as [|d ds IH]; intros t.
    + exists []. rewrite app_nil_r. auto.
    + unfold Legacy.feed in *. cbn [foldl].
      destruct (IH (Legacy.onData d t)) as (added' & Hh' & Hf').
      destruct (legacy_onData_history d t) as (added & Hh & Hf).
      exists (added ++ added')%list. rewrite Hh', Hh, <- app_assoc.
      split; [reflexivity|]. apply Forall_app_2; assumption.
  - intros d. cbv zeta. apply legacy_onData_history_exact.
Qed.

Lemma legacy_history_is_append_only_witness :
  let t := Legacy.startPortfolio Legacy.initial in
  let t' := Legacy.feed (Legacy.typed "pwd" ++ Legacy.typed "   " ++ Legacy.typed " help ") t in
  let u := Legacy.feed ["_"; "_"; "p"; "r"; "o"; "t"; "o"; "_"; "_"; " "] t in
  Legacy.indexInRange t
  /\ Legacy.indexInRange t'
  /\ Legacy.commandHistory t' = ["pwd"; " help "]
  /\ Legacy.commandHistory (Legacy.onData CR u) = ["__proto__ "]
  /\ Legacy.currentLine (Legacy.onData CR u) = "__proto__ ".
Proof.
  cbv zeta.
  assert (H0 : Legacy.indexInRange (Legacy.startPortfolio Legacy.initial))
    by (unfold Legacy.indexInRange; cbn; lia).
  split; [exact H0|].
  split; [|split; [vm_compute; reflexivity|]].
  - exact (proj1 (legacy_history_is_append_only
                    (Legacy.typed "pwd" ++ Legacy.typed "   " ++ Legacy.typed " help ")
                    (Legacy.startPortfolio Legacy.initial) H0)).
  - split; [|vm_compute; reflexivity].
    rewrite (proj2 (proj2 (legacy_history_is_append_only
                             ["_"; "_"; "p"; "r"; "o"; "t"; "o"; "_"; "_"; " "]
                             (Legacy.startPortfolio Legacy.initial) H0)) CR).
    vm_compute. reflexivity.
Defined.

Lemma legacy_up_key (t : Legacy.Terminal) :
  Legacy.terminalReady t = true ->
  Legacy.onData Legacy.keyUp t
  = if (0 <? Legacy.historyIndex t)%Z then
      let t1 := Legacy.showPrompt (Legacy.emit (Write (CR ++ ESC ++ "[K")) t) in
      let t2 := Legacy.setIndex (Legacy.historyIndex t1 - 1) t1 in
      let t3 := Legacy.setLine (Legacy.recall (Legacy.historyIndex t2) t2) t2 in
      Legacy.emit (Write (Legacy.currentLine t3)) t3
    else t.
Proof. intros Hr. unfold Legacy.onData. rewrite Hr. reflexivity. Qed.

Lemma legacy_down_key (t : Legacy.Terminal) :
  Legacy.terminalReady t = true ->
  Legacy.onData Legacy.keyDown t
  = if (Legacy.historyIndex t <? Z.of_nat (List.length (Legacy.commandHistory t)) - 1)%Z
    then
      let t1 := Legacy.showPrompt (Legacy.emit (Write (CR ++ ESC ++ "[K")) t) in
      let t2 := Legacy.setIndex (Legacy.historyIndex t1 + 1) t1 in
      let t3 := Legacy.setLine (Legacy.recall (Legacy.historyIndex t2) t2) t2 in
      Legacy.emit (Write (Legacy.currentLine t3)) t3
    else if (Legacy.historyIndex t =? Z.of_nat (List.length (Legacy.commandHistory t)) - 1)%Z
    then
      let t1 := Legacy.showPrompt (Legacy.emit (Write (CR ++ ESC ++ "[K")) t) in
      Legacy.setLine ""
        (Legacy.setIndex (Z.of_nat (List.length (Legacy.commandHistory t1))) t1)
    else t.
Proof. intros Hr. unfold Legacy.onData. rewrite Hr. reflexivity. Qed.

(** X24: the arrow keys stop at the ends of the history (Up at the oldest
    entry and Down past the newest change nothing); Up followed by Down
    brings the cursor back to where it was and leaves the history alone,
    but not the line: what was being typed is replaced by the entry under
    the cursor, or by the empty line past the end. *)
Theorem legacy_arrow_keys_at_bounds (t : Legacy.Terminal) :
  Legacy.terminalReady t = true ->
  let n := Z.of_nat (List.length (Legacy.commandHistory t)) in
  ((Legacy.historyIndex t <= 0)%Z -> Legacy.onData Legacy.keyUp t = t)
  /\ ((n <= Legacy.historyIndex t)%Z -> Legacy.onData Legacy.keyDown t = t)
  /\ ((0 < Legacy.historyIndex t <= n)%Z ->
      let t' := Legacy.feed [Legacy.keyUp; Legacy.keyDown] t in
      Legacy.historyIndex t' = Legacy.historyIndex t
      /\ Legacy.commandHistory t' = Legacy.commandHistory t
      /\ Legacy.currentLine t'
         = if (Legacy.historyIndex t <? n)%Z
           then Legacy.recall (Legacy.historyIndex t) t else "").
Proof.
  intros Hr. cbv zeta. split; [|split].
  - intros H. rewrite legacy_up_key by exact Hr.
    destruct (Z.ltb_spec 0 (Legacy.historyIndex t)); [lia|reflexivity].
  - intros H. rewrite legacy_down_key by exact Hr.
    destruct (Z.ltb_spec (Legacy.historyIndex t)
                (Z.of_nat (List.length (Legacy.commandHistory t)) - 1)); [lia|].
    destruct (Z.eqb_spec (Legacy.historyIndex t)
                (Z.of_nat (List.length (Legacy.commandHistory t)) - 1)); [lia|reflexivity].
  - intros H. unfold Legacy.feed. cbn [foldl].
    rewrite legacy_up_key by exact Hr.
    destruct (Z.ltb_spec 0 (Legacy.historyIndex t)); [|lia]. cbv zeta.
    match goal with |- context [Legacy.onData Legacy.keyDown ?x] => set (t1 := x) end.
    assert (H1 : Legacy.terminalReady t1 = true) by exact Hr.
    assert (H2 : Legacy.historyIndex t1 = (Legacy.historyIndex t - 1)%Z) by reflexivity.
    assert (H3 : Legacy.commandHistory t1 = Legacy.commandHistory t) by reflexivity.
    rewrite legacy_down_key by exact H1. rewrite H2, H3.
    destruct (Z.ltb_spec (Legacy.historyIndex t - 1)
                (Z.of_nat (List.length (Legacy.commandHistory t)) - 1));
      destruct (Z.ltb_spec (Legacy.historyIndex t)
                  (Z.of_nat (List.length (Legacy.commandHistory t)))); try lia.
    + cbv zeta. cbn [Legacy.historyIndex Legacy.commandHistory Legacy.currentLine
        Legacy.emit Legacy.setLine Legacy.setIndex Legacy.showPrompt Legacy.writeToTerminal].
      rewrite H2. unfold Legacy.recall.
      cbn [Legacy.historyIndex Legacy.commandHistory Legacy.currentLine
        Legacy.emit Legacy.setLine Legacy.setIndex Legacy.showPrompt Legacy.writeToTerminal].
      rewrite H3.
      replace (Legacy.historyIndex t - 1 + 1)%Z with (Legacy.historyIndex t) by lia.
      auto.
    + destruct (Z.eqb_spec (Legacy.historyIndex t - 1)
                  (Z.of_nat (List.length (Legacy.commandHistory t)) - 1)); [|lia].
      cbv zeta. cbn [Legacy.historyIndex Legacy.commandHistory Legacy.currentLine
        Legacy.emit Legacy.setLine Legacy.setIndex Legacy.showPrompt Legacy.writeToTerminal].
      rewrite H3. repeat split; auto. lia.
Qed.


Lemma legacy_arrow_keys_at_bounds_witness :
  let t := Legacy.feed (Legacy.typed "pwd" ++ Legacy.typed "help" ++ ["d"; "r"; "a"])
             (Legacy.startPortfolio Legacy.initial) in
  let t' := Legacy.feed [Legacy.keyUp; Legacy.keyDown] t in
  Legacy.currentLine t = "dra"
  /\ Legacy.historyIndex t = 2%Z
  /\ Legacy.historyIndex t' = 2%Z
  /\ Legacy.currentLine t' = ""
  /\ Legacy.onData Legacy.keyDown t = t.
Proof.
  cbv zeta. split; [vm_compute; reflexivity|]. split; [vm_compute; reflexivity|].
  destruct (legacy_arrow_keys_at_bounds
              (Legacy.feed (Legacy.typed "pwd" ++ Legacy.typed "help" ++ ["d"; "r"; "a"])
                 (Legacy.startPortfolio Legacy.initial)))
    as (_ & Hdown & Hround).
  - vm_compute. reflexivity.
  - destruct Hround as (H1 & _ & H3).
    + vm_compute. split; [reflexivity|discriminate].
    + split; [rewrite H1; vm_compute; reflexivity|].
      split; [rewrite H3; vm_compute; reflexivity|].
      apply Hdown. vm_compute. discriminate.
Defined.

Lemma lowerChar_idem (c : ascii) : lowerChar (lowerChar c) = lowerChar c.
Proof. destruct c as [[] [] [] [] [] [] [] []]; vm_compute; reflexivity. Qed.

Lemma toLowerCase_app (a b : string) :
  toLowerCase (a ++ b) = toLowerCase a ++ toLowerCase b.
Proof. unfold toLowerCase. rewrite chars_app, map_app, str_app. reflexivity. Qed.

Lemma toLowerCase_idem (s : string) : toLowerCase (toLowerCase s) = toLowerCase s.
Proof.
  unfold toLowerCase. rewrite chars_str', map_map. f_equal.
  apply map_ext. intros c. apply lowerChar_idem.
Qed.

Lemma length_str' (l : list ascii) : String.length (str l) = List.length l.
Proof. unfold str. induction l; simpl; auto. Qed.

Lemma length_chars'' (s : string) : List.length (chars s) = String.length s.
Proof. unfold chars. induction s; simpl; auto. Qed.

Lemma length_toLowerCase (s : string) :
  String.length (toLowerCase s) = String.length s.
Proof. unfold toLowerCase. rewrite length_str', length_map. apply length_chars''. Qed.

(** A prefix splits the string at its length. *)
Lemma prefix_split (p m : string) :
  String.prefix p m = true -> m = p ++ sliceFrom (String.length p) m.
Proof.
  revert m. induction p as [|c p IH]; intros m H.
  - unfold sliceFrom. cbn. symmetry. apply str_chars'.
  - destruct m as [|c' m]; [discriminate|]. cbn [String.prefix] in H.
    destruct (Ascii.ascii_dec c c') as [->|]; [|discriminate].
    change (String c' m = String c' (p ++ sliceFrom (String.length p) m)).
    f_equal. apply IH. exact H.
Qed.

Lemma append_inv_head (a b c : string) : a ++ b = a ++ c -> b = c.
Proof. induction a; simpl; intros H; [exact H|]. inversion H. auto. Qed.

(** What Tab appends when exactly one lower-case name starts with the
    lower-cased line. *)
Lemma completion_spec (line m : string) :
  toLowerCase m = m ->
  startsWith m (toLowerCase line) = true ->
  let completion := sliceFrom (String.length line) m in
  toLowerCase (line ++ completion) = m
  /\ (toLowerCase line = line -> line ++ completion = m).
Proof.
  intros Hm Hp. cbv zeta. unfold startsWith in Hp.
  apply prefix_split in Hp. rewrite length_toLowerCase in Hp.
  set (k := sliceFrom (String.length line) m) in *.
  assert (Hk : toLowerCase k = k).
  { apply (append_inv_head (toLowerCase line)).
    rewrite <- (toLowerCase_idem line) at 1. rewrite <- toLowerCase_app, <- Hp. exact Hm. }
  split.
  - rewrite toLowerCase_app, Hk. symmetry. exact Hp.
  - intros Hl. rewrite <- Hl at 1. symmetry. exact Hp.
Qed.

Lemma legacy_available_lowercase (m : string) :
  m ∈ Legacy.availableCommands -> toLowerCase m = m.
Proof.
  assert (Hl : Legacy.availableCommands
               = ["welcome"; "help"; "about"; "clear"; "echo"; "education"; "email";
                  "gui"; "history"; "projects"; "pwd"; "socials"; "themes"; "whoami"])
    by (vm_compute; reflexivity).
  assert (H : Forall (fun m => toLowerCase m = m) Legacy.availableCommands).
  { rewrite Hl. repeat (apply Forall_cons; split; [vm_compute; reflexivity|]).
    apply Forall_nil. exact I. }
  rewrite Forall_forall in H. apply H.
Qed.

Lemma web_available_lowercase (m : string) :
  m ∈ Web.availableCommands -> toLowerCase m = m.
Proof.
  assert (H : Forall (fun m => toLowerCase m = m) Web.availableCommands).
  { rewrite DispatcherFacts.web_availableCommands.
    repeat (apply Forall_cons; split; [vm_compute; reflexivity|]).
    apply Forall_nil. exact I. }
  rewrite Forall_forall in H. apply H.
Qed.

Lemma legacy_matchesFor_spec (line m : string) :
  m ∈ Legacy.matchesFor line
  <-> m ∈ Legacy.availableCommands /\ startsWith m (toLowerCase line) = true.
Proof.
  unfold Legacy.matchesFor. rewrite list_elem_of_filter.
  split; intros [H1 H2]; split; auto; destruct (startsWith m (toLowerCase line)); auto.
Qed.

(** X25: when exactly one command name starts with the lower-cased line,
    Tab appends and echoes the rest of that name, in both dispatchers.
    The completed line equals the name up to letter case: it is the name
    itself when the line was typed in lower case, while upper-case
    letters typed before Tab stay in the line. *)
Theorem tab_completes_unique_match (m : string) :
  (forall t : Legacy.Terminal,
     Legacy.terminalReady t = true ->
     Legacy.matchesFor (Legacy.currentLine t) = [m] ->
     let completion := sliceFrom (String.length (Legacy.currentLine t)) m in
     Legacy.onData Legacy.keyTab t
     = Legacy.emit (Write completion)
         (Legacy.setLine (Legacy.currentLine t ++ completion) t)
     /\ toLowerCase (Legacy.currentLine (Legacy.onData Legacy.keyTab t)) = m
     /\ (toLowerCase (Legacy.currentLine t) = Legacy.currentLine t ->
         Legacy.currentLine (Legacy.onData Legacy.keyTab t) = m))
  /\ (forall t : Web.Terminal,
       Web.isAuthProcessing t = false ->
       Web.matchesFor (Web.currentLine t) = [m] ->
       let completion := sliceFrom (String.length (Web.currentLine t)) m in
       Web.onTab t = Web.termWrite completion
                       (Web.setLine (Web.currentLine t ++ completion) t)
       /\ toLowerCase (Web.currentLine (Web.onTab t)) = m
       /\ (toLowerCase (Web.currentLine t) = Web.currentLine t ->
           Web.currentLine (Web.onTab t) = m)).
Proof.
  split.
  - intros t Hr Hm. cbv zeta.
    assert (E : Legacy.onData Legacy.keyTab t
                = Legacy.emit (Write (sliceFrom (String.length (Legacy.currentLine t)) m))
                    (Legacy.setLine
                       (Legacy.currentLine t
                        ++ sliceFrom (String.length (Legacy.currentLine t)) m) t)).
    { unfold Legacy.onData. rewrite Hr. cbn [negb].
      change (charCodeAt0 Legacy.keyTab) with (Some 9). cbv iota beta.
      change (Nat.eqb 9 13) with false. change (Nat.eqb 9 127) with false.
      change (Nat.eqb 9 9) with true. cbv iota. rewrite Hm. reflexivity. }
    rewrite E. cbn [Legacy.currentLine Legacy.emit Legacy.setLine].
    assert (Hin : m ∈ Legacy.matchesFor (Legacy.currentLine t))
      by (rewrite Hm; apply list_elem_of_singleton; reflexivity).
    apply legacy_matchesFor_spec in Hin as [Ha Hp].
    destruct (completion_spec _ m (legacy_available_lowercase m Ha) Hp) as [H1 H2].
    auto.
  - intros t Hi Hm. cbv zeta.
    assert (E : Web.onTab t
                = Web.termWrite (sliceFrom (String.length (Web.currentLine t)) m)
                    (Web.setLine
                       (Web.currentLine t
                        ++ sliceFrom (String.length (Web.currentLine t)) m) t)).
    { unfold Web.onTab. rewrite Hi, Hm. reflexivity. }
    rewrite E.
    assert (Hin : m ∈ Web.matchesFor (Web.currentLine t))
      by (rewrite Hm; apply list_elem_of_singleton; reflexivity).
    apply DispatcherFacts.web_matchesFor_spec in Hin as [Ha Hp].
    destruct (completion_spec _ m (web_available_lowercase m Ha) Hp) as [H1 H2].
    auto.
Qed.


Lemma tab_completes_unique_match_witness :
  let t := Legacy.feed ["H"; "E"] (Legacy.startPortfolio Legacy.initial) in
  Legacy.matchesFor (Legacy.currentLine t) = ["help"]
  /\ Legacy.currentLine (Legacy.onData Legacy.keyTab t) = "HElp"
  /\ toLowerCase (Legacy.currentLine (Legacy.onData Legacy.keyTab t)) = "help".
Proof.
  cbv zeta.
  assert (Hm : Legacy.matchesFor
                 (Legacy.currentLine
                    (Legacy.feed ["H"; "E"] (Legacy.startPortfolio Legacy.initial)))
               = ["help"]) by (vm_compute; reflexivity).
  split; [exact Hm|].
  destruct (proj1 (tab_completes_unique_match "help")
              (Legacy.feed ["H"; "E"] (Legacy.startPortfolio Legacy.initial))
              eq_refl Hm) as (H1 & H2 & _).
  split; [rewrite H1; vm_compute; reflexivity|exact H2].
Defined.

Lemma tame_refl (t : Legacy.Terminal) : Tame t t.
Proof. split; [auto|]. exists []. rewrite app_nil_r. auto. Qed.

Lemma tame_same (t0 t : Legacy.Terminal) :
  Legacy.currentTheme t = Legacy.currentTheme t0 -> Legacy.opened t = Legacy.opened t0 ->
  Tame t0 t.
Proof. intros H1 H2. split; [auto|]. exists []. rewrite app_nil_r. auto. Qed.

Lemma tame_trans (a b c : Legacy.Terminal) : Tame a b -> Tame b c -> Tame a c.
Proof.
  intros [H1 (n1 & E1 & F1)] [H2 (n2 & E2 & F2)]. split.
  - destruct H2 as [H2|H2]; [rewrite H2; exact H1|auto].
  - exists (n1 ++ n2)%list. rewrite E2, E1, <- app_assoc. split; [reflexivity|].
    apply Forall_app_2; assumption.
Qed.

Lemma goTo_url (kind : string) (table : list (string * string)) (hint : string)
  (args : list string) (o url : string) :
  Legacy.goTo kind table hint args = (o, Some url) -> url ∈ map snd table.
Proof.
  unfold Legacy.goTo.
  destruct (parseInt (head args)) as [z|]; [|discriminate].
  destruct ((1 <=? z)%Z && (z <=? Z.of_nat (List.length table))%Z); [|discriminate].
  destruct (table !! Z.to_nat (z - 1)) as [[nm u]|] eqn:E; [|discriminate].
  intros [= _ <-]. apply list_elem_of_lookup_2 in E.
  apply (list_elem_of_fmap_2 snd) in E. exact E.
Qed.

Lemma legacy_handler_tame (key : string) (h : Legacy.Handler) :
  Legacy.ownProperty key Legacy.commands = Some h ->
  forall args t, Tame t (snd (h args t)).
Proof.
  unfold Legacy.commands. cbn [Legacy.ownProperty].
  repeat (match goal with
          | |- (if String.eqb ?k key then _ else _) = _ -> _ =>
              destruct (String.eqb k key)
          end;
          [intros [= <-] args t; try apply tame_refl|]); try discriminate.
  - split; [left; reflexivity|]. exists ["https://antik.dev"]. split; [reflexivity|].
    apply Forall_singleton. apply list_elem_of_here.
  - unfold Legacy.opening.
    destruct (Legacy.goTo "Project" Legacy.projectLinks "projects" args) as [o [u|]] eqn:E;
      [|apply tame_refl].
    split; [left; reflexivity|]. exists [u]. split; [reflexivity|].
    apply Forall_singleton. apply goTo_url in E. unfold knownUrls.
    apply list_elem_of_further, elem_of_app. left. exact E.
  - unfold Legacy.opening.
    destruct (Legacy.goTo "Social" Legacy.socialLinks "socials" args) as [o [u|]] eqn:E;
      [|apply tame_refl].
    split; [left; reflexivity|]. exists [u]. split; [reflexivity|].
    apply Forall_singleton. apply goTo_url in E. unfold knownUrls.
    apply list_elem_of_further, elem_of_app. right. exact E.
  - destruct (Legacy.hasTheme (default "undefined" (head args))) eqn:Hin;
      [|apply tame_refl].
    split; [|exists []; cbn; rewrite app_nil_r; auto].
    right. cbn [snd Legacy.currentTheme Legacy.setCurrentTheme].
    unfold Legacy.hasTheme in Hin. apply elem_of_app.
    apply orb_prop in Hin as [Hin|Hin]; apply bool_decide_eq_true_1 in Hin; auto.
Qed.

Lemma legacy_member_tame (key : string) (m : Legacy.Member) :
  Legacy.lookupCommand key Legacy.commands = Some m ->
  forall args t, Tame t (snd (Legacy.callMember m args t)).
Proof.
  unfold Legacy.lookupCommand.
  destruct (Legacy.ownProperty key Legacy.commands) as [h|] eqn:E.
  - intros [= <-] args t. cbn [Legacy.callMember].
    pose proof (legacy_handler_tame key h E args t) as H.
    destruct (h args t) as [o t2]. exact H.
  - case_bool_decide; [|discriminate]. intros [= <-] args t. apply tame_refl.
Qed.

Lemma legacy_processCommand_tame (cmd : string) (t : Legacy.Terminal) :
  Tame t (Legacy.processCommand cmd t).
Proof.
  unfold Legacy.processCommand, Legacy.processCommandM.
  destruct (String.eqb (trim cmd) ""); [apply tame_same; reflexivity|].
  set (t1 := Legacy.setIndex _ (Legacy.pushHistory cmd t)).
  assert (H1 : Tame t t1) by (apply tame_same; reflexivity).
  clearbody t1.
  destruct (match splitSpace (trim cmd) with
            | p0 :: p1 :: _ => Legacy.lookupCommand (p0 ++ " " ++ p1) Legacy.commands
            | _ => None
            end) as [m|] eqn:Hc.
  - assert (Hk : exists key, Legacy.lookupCommand key Legacy.commands = Some m).
    { destruct (splitSpace (trim cmd)) as [|p0 [|p1 ?]]; try discriminate. eauto. }
    destruct Hk as [key Hk].
    pose proof (legacy_member_tame key m Hk (drop 2 (splitSpace (trim cmd))) t1) as Hh.
    destruct (Legacy.callMember m (drop 2 (splitSpace (trim cmd))) t1) as [[o|] t2];
      cbn [snd] in Hh.
    + apply (tame_trans _ t1); [exact H1|]. apply (tame_trans _ t2); [exact Hh|].
      destruct (ObjectPrototype.strictEquals o "CLEAR"); apply tame_same; reflexivity.
    + apply (tame_trans _ t1); [exact H1|exact Hh].
  - destruct (Legacy.lookupCommand (default "" (head (splitSpace (trim cmd))))
                Legacy.commands) as [m|] eqn:Hb.
    + pose proof (legacy_member_tame _ m Hb (drop 1 (splitSpace (trim cmd))) t1) as Hh.
      destruct (Legacy.callMember m (drop 1 (splitSpace (trim cmd))) t1) as [[o|] t2];
        cbn [snd] in Hh.
      * apply (tame_trans _ t1); [exact H1|]. apply (tame_trans _ t2); [exact Hh|].
        destruct (ObjectPrototype.strictEquals o "CLEAR"); [apply tame_same; reflexivity|].
        destruct (ObjectPrototype.strictEquals o "WELCOME"); apply tame_same; reflexivity.
      * apply (tame_trans _ t1); [exact H1|exact Hh].
    + apply (tame_trans _ t1); [exact H1|]. apply tame_same; reflexivity.
Qed.

Lemma legacy_onData_tame (d : string) (t : Legacy.Terminal) :
  Tame t (Legacy.onData d t).
Proof.
  unfold Legacy.onData.
  destruct (Legacy.terminalReady t); cbn [negb]; [|apply tame_refl].
  destruct (charCodeAt0 d) as [code|]; [|apply tame_refl].
  destruct (Nat.eqb code 13).
  { rewrite DispatcherFacts.legacy_enter.
    assert (H : Tame t (Legacy.processCommand
                          (Legacy.currentLine (Legacy.writeToTerminal "" true t))
                          (Legacy.writeToTerminal "" true t))).
    { apply (tame_trans _ (Legacy.writeToTerminal "" true t));
        [apply tame_same; reflexivity|apply legacy_processCommand_tame]. }
    destruct (snd _); [|exact H].
    apply (tame_trans _ _ _ H). apply tame_same; reflexivity. }
  destruct (Nat.eqb code 127). { destruct (Nat.ltb _ _); apply tame_same; reflexivity. }
  destruct (Nat.eqb code 9).
  { destruct (Legacy.matchesFor _) as [|m [|]]; apply tame_same; reflexivity. }
  destruct (Nat.eqb code 12). { apply tame_same; reflexivity. }
  destruct (Nat.eqb code 27).
  { destruct (String.eqb _ "[A").
    - destruct (Z.ltb 0 _); apply tame_same; reflexivity.
    - destruct (String.eqb _ "[B"); [|apply tame_same; reflexivity].
      destruct (Z.ltb _ _); [apply tame_same; reflexivity|].
      destruct (Z.eqb _ _); apply tame_same; reflexivity. }
  destruct (_ && _); apply tame_same; reflexivity.
Qed.

(** X27: whatever is typed, the dispatcher only ever opens addresses of its
    own tables (the GUI address, the project links, the social links), and
    it only ever switches the theme to a name that [themes[name]] finds:
    one of the six themes, or the name of a member that the table inherits
    from Object.prototype. The latter does happen: themes set constructor
    is accepted and makes constructor the current theme. *)
Theorem legacy_effects_stay_in_tables (ds : list string) (t : Legacy.Terminal) :
  (Legacy.currentTheme (Legacy.feed ds t) = Legacy.currentTheme t
   \/ Legacy.currentTheme (Legacy.feed ds t)
      ∈ (Legacy.themeNames ++ ObjectPrototype.members)%list)
  /\ (exists new,
        Legacy.opened (Legacy.feed ds t) = (Legacy.opened t ++ new)%list
        /\ Forall (fun u => u ∈ knownUrls) new)
  /\ Legacy.currentTheme
       (Legacy.feed (Legacy.typed "themes set constructor")
          (Legacy.startPortfolio Legacy.initial))
     = "constructor".
Proof.
  assert (HT : Tame t (Legacy.feed ds t)).
  { revert t. induction ds as [|d ds IH]; intros t; [apply tame_refl|].
    unfold Legacy.feed in *. cbn [foldl].
    apply (tame_trans _ (Legacy.onData d t)); [apply legacy_onData_tame|apply IH]. }
  destruct HT as [H1 H2]. split; [exact H1|]. split; [exact H2|].
  vm_compute. reflexivity.
Qed.

End TerminalFacts.

(** ** The dispatcher while a command is in progress *)
Module BusyFacts.
Import JS Term FormSpec.

Lemma callForm_quiet {A} (m : Form.M A) (h : AuthCmd.Handler) (w : Form.World)
  (c : Form.Completion A) :
  m (AuthCmd.formHandler h) = (w, c) ->
  Form.fired w = Form.fired (AuthCmd.formHandler h) ->
  AuthCmd.callForm m h = (AuthCmd.onForm (fun _ => w) h, c).
Proof.
  intros E Hf. unfold AuthCmd.callForm. rewrite E, Hf, drop_all. reflexivity.
Qed.

(** An input that the handler declines leaves it as it was, up to the
    terminal output. *)
Lemma handler_declines (data : string) (h h' : AuthCmd.Handler) :
  AuthCmd.handleInput data h = (h', Form.Ok false) ->
  AuthCmd.isProcessing h' = AuthCmd.isProcessing h
  /\ AuthCmd.output h' = AuthCmd.output h.
Proof.
  unfold AuthCmd.handleInput.
  destruct (AuthCmd.isProcessing h) eqn:Hp; cbn [negb]; [|intros [= <-]; auto].
  destruct (Form.isFormActive _); [|intros [= <-]; auto].
  destruct (Form.handleInput data (AuthCmd.formHandler h)) as [w c] eqn:E.
  destruct c as [[|]|].
  - unfold AuthCmd.callForm. rewrite E.
    match goal with |- (?x, _) = _ -> _ => generalize x end. intros ? [= ].
  - destruct (CollectorFacts.handleInput_declined _ _ _ E) as [Hf Ho].
    rewrite (callForm_quiet _ h w _ E Hf). intros [= <-]. cbn.
    split; [exact Hp|]. unfold AuthCmd.output. cbn. exact Ho.
  - unfold AuthCmd.callForm. rewrite E.
    match goal with |- (?x, _) = _ -> _ => generalize x end. intros ? [= ].
Qed.

(** X29: a key pressed while an authentication command is in progress never
    changes the command history or its cursor: no command runs on it and
    nothing typed into a field is recorded by it. The text of a field can
    still reach the history afterwards: Ctrl+C in a text field is taken by
    the form, the dispatcher does not clear its line, and the next command
    is recorded with the field text in front. After antec login, the text
    bob and Ctrl+C the terminal is idle with the line bob, and the command
    help is then recorded, and looked up, as bobhelp. *)
Theorem busy_key_keeps_history :
  (forall (data : string) (t : Web.Terminal),
      Web.isAuthProcessing t = true ->
      Web.commandHistory (Web.onData data t) = Web.commandHistory t
      /\ Web.historyIndex (Web.onData data t) = Web.historyIndex t)
  /\ (let t := Web.feed (Legacy.typed "antec login" ++ ["b"; "o"; "b"; Form.ctrlC])
                 (Web.startPortfolio
                    (Web.mounted
                       (AuthContext.initialProvider (AuthClient.mkStorage true ∅)))) in
      Web.isAuthProcessing t = false
      /\ Web.currentLine t = "bob"
      /\ Web.commandHistory t = ["antec login"]
      /\ Web.commandHistory (Web.feed (Legacy.typed "help") t)
         = ["antec login"; "bobhelp"]).
Proof.
  split.
  - intros data t.
    intros Hp. unfold Web.onData.
    destruct (Web.terminalReady t); cbn [negb]; [|auto].
    destruct (AuthCmd.handleInput data (Web.authHandler t)) as [h [[|]|]] eqn:E; [auto| |auto].
    destruct (handler_declines _ _ _ E) as [Hp' _].
    set (t1 := Web.onHandler (fun _ => h) t).
    assert (H1 : Web.isAuthProcessing t1 = true).
    { unfold Web.isAuthProcessing, AuthCmd.isAuthProcessing in *. cbn. congruence. }
    assert (H2 : Web.commandHistory t1 = Web.commandHistory t) by reflexivity.
    assert (H3 : Web.historyIndex t1 = Web.historyIndex t) by reflexivity.
    clearbody t1. rewrite <- H2, <- H3. clear E Hp Hp' H2 H3 h t.
    destruct (charCodeAt0 data) as [code|]; [|auto].
    destruct (Nat.eqb code 13).
    { unfold Web.onEnter.
      assert (Hw : Web.isAuthProcessing (Web.writeToTerminal "" true t1) = true) by exact H1.
      rewrite Hw.
      destruct (AuthCmd.handleRegularFieldComplete _ _) as [h [|]]; auto. }
    destruct (Nat.eqb code 127). { destruct (Nat.ltb _ _); auto. }
    destruct (Nat.eqb code 9). { unfold Web.onTab. rewrite H1. auto. }
    destruct (Nat.eqb code 12). { auto. }
    destruct (Nat.eqb code 3). { rewrite H1. auto. }
    destruct (Nat.eqb code 27). { unfold Web.onEscape. rewrite H1. auto. }
    destruct (_ && _); auto.
  - vm_compute. repeat split; reflexivity.
Qed.

Lemma busy_key_keeps_history_witness :
  let t := Web.feed (Legacy.typed "antec login" ++ ["b"; "o"; "b"])
             (Web.startPortfolio
                (Web.mounted (AuthContext.initialProvider (AuthClient.mkStorage true ∅)))) in
  Web.isAuthProcessing t = true
  /\ Web.currentLine t = "bob"
  /\ Web.commandHistory (Web.onData CR t) = ["antec login"].
Proof.
  cbv zeta.
  assert (Hp : Web.isAuthProcessing
                 (Web.feed (Legacy.typed "antec login" ++ ["b"; "o"; "b"])
                    (Web.startPortfolio
                       (Web.mounted
                          (AuthContext.initialProvider (AuthClient.mkStorage true ∅)))))
               = true) by (vm_compute; reflexivity).
  split; [exact Hp|]. split; [vm_compute; reflexivity|].
  rewrite (proj1 (proj1 busy_key_keeps_history CR _ Hp)).
  vm_compute. reflexivity.
Defined.

(** X30: while a password field is current, a typed text chunk goes to the
    password buffer only: the dispatcher's current line is untouched, the
    history is untouched, and the screen receives a single mask character
    instead of the text. *)
Theorem password_keystrokes_are_masked (data : string) (t : Web.Terminal) :
  let f := Form.form (AuthCmd.formHandler (Web.authHandler t)) in
  Web.terminalReady t = true ->
  AuthCmd.isProcessing (Web.authHandler t) = true ->
  Form.isActive f = true ->
  Form.pw_isActive (Form.passwordInput f) = true ->
  printable data = true ->
  let t' := Web.onData data t in
  let f' := Form.form (AuthCmd.formHandler (Web.authHandler t')) in
  Web.currentLine t' = Web.currentLine t
  /\ Web.commandHistory t' = Web.commandHistory t
  /\ Web.screen t' = (Web.screen t ++ [Write Shared.PASSWORD_MASK])%list
  /\ Form.password (Form.passwordInput f')
     = Form.password (Form.passwordInput f) ++ data.
Proof.
  cbv zeta. intros Hr Hp Ha Hpw Hd.
  pose proof (CollectorFacts.handleInput_printable_eq data
                (AuthCmd.formHandler (Web.authHandler t)) Ha Hpw Hd) as E.
  unfold Web.onData. rewrite Hr. cbn [negb].
  unfold AuthCmd.handleInput. rewrite Hp. cbn [negb].
  unfold Form.isFormActive. rewrite Ha.
  rewrite (callForm_quiet _ _ _ _ E) by reflexivity.
  cbn. auto.
Qed.


Lemma password_keystrokes_are_masked_witness :
  let t := Web.feed (Legacy.typed "antec login" ++ Legacy.typed "bob")
             (Web.startPortfolio
                (Web.mounted (AuthContext.initialProvider (AuthClient.mkStorage true ∅)))) in
  let t' := Web.onData "s" t in
  Web.currentLine t' = ""
  /\ Web.screen t' = (Web.screen t ++ [Write "*"])%list
  /\ Form.password
       (Form.passwordInput (Form.form (AuthCmd.formHandler (Web.authHandler t')))) = "s".
Proof.
  cbv zeta.
  destruct (password_keystrokes_are_masked "s"
              (Web.feed (Legacy.typed "antec login" ++ Legacy.typed "bob")
                 (Web.startPortfolio
                    (Web.mounted
                       (AuthContext.initialProvider (AuthClient.mkStorage true ∅))))))
    as (H1 & _ & H3 & H4).
  - vm_compute. reflexivity.
  - vm_compute. reflexivity.
  - vm_compute. reflexivity.
  - vm_compute. reflexivity.
  - reflexivity.
  - split; [rewrite H1; vm_compute; reflexivity|].
    split; [exact H3|]. rewrite H4. vm_compute. reflexivity.
Defined.

End BusyFacts.
